(** * Tetris engine: grid, tetrimino collision and the per-frame update

    A shallow embedding of [src/settings.py], [src/tetrimino.py],
    [src/game_logic.py], [src/input_handler.py], [src/highscore_manager.py]
    and of [render] of [src/display.py].  Python integers are [Z]; Python
    lists are [list] with Python's indexing (negative indices count from
    the end, anything else out of range raises [IndexError]); methods that
    mutate [self] take the object and return the mutated object next to
    their result; the sounds a method plays and the calls [render] makes on
    the screen are returned as a log. *)

From Stdlib Require Import ZArith List String Bool Lia DecimalString.
Import ListNotations.
Local Open Scope Z_scope.

(** ** Python values and exceptions *)

Inductive exn : Type :=
| IndexError
| AttributeError
| ZeroDivisionError.

Inductive result (A : Type) : Type :=
| Ok (a : A)
| Raise (e : exn).
Arguments Ok {A} a.
Arguments Raise {A} e.

Module Py.

Definition len {A : Type} (l : list A) : Z := Z.of_nat (List.length l).

(** [l[i]]: a negative [i] counts from the end. *)
Definition index {A : Type} (l : list A) (i : Z) : option nat :=
  if (0 <=? i) && (i <? len l) then Some (Z.to_nat i)
  else if (- len l <=? i) && (i <? 0) then Some (Z.to_nat (len l + i))
  else None.

Definition getitem {A : Type} (l : list A) (i : Z) : result A :=
  match index l i with
  | Some k =>
      match nth_error l k with
      | Some x => Ok x
      | None => Raise IndexError
      end
  | None => Raise IndexError
  end.

Fixpoint replace {A : Type} (l : list A) (k : nat) (x : A) : list A :=
  match l, k with
  | [], _ => []
  | _ :: tl, O => x :: tl
  | y :: tl, S k' => y :: replace tl k' x
  end.

(** [l[i] = x] *)
Definition setitem {A : Type} (l : list A) (i : Z) (x : A) : result (list A) :=
  match index l i with
  | Some k => Ok (replace l k x)
  | None => Raise IndexError
  end.

(** Truth value of an [int]. *)
Definition truthy (v : Z) : bool := negb (v =? 0).

(** [x in l] for a list of [int]. *)
Definition contains (x : Z) (l : list Z) : bool := existsb (Z.eqb x) l.

End Py.

(** ** settings.py *)

Module settings.

Definition SCREEN_WIDTH : Z := 400.
Definition SCREEN_HEIGHT : Z := 800.
Definition CELL_SIZE : Z := 40.

Definition Color : Type := (Z * Z * Z)%type.
Definition CYAN : Color := (0, 255, 255).
Definition YELLOW : Color := (255, 255, 0).
Definition MAGENTA : Color := (255, 0, 255).
Definition GREEN : Color := (0, 255, 0).
Definition RED : Color := (255, 0, 0).
Definition BLUE : Color := (0, 0, 255).
Definition ORANGE : Color := (255, 165, 0).

Definition GRID_WIDTH : Z := SCREEN_WIDTH / CELL_SIZE.
Definition GRID_HEIGHT : Z := SCREEN_HEIGHT / CELL_SIZE.
Definition LEVEL_CHANGE_LINES : Z := 10.
Definition LEVEL_SPEED_INCREMENT : Z := 10.

Definition MUTE : bool := false.
Definition BREAK_LINE_SOUND : string := "assets/sounds/line_break.mp3".
Definition GAME_OVER_SOUND : string := "assets/sounds/game_over.mp3".
Definition ROTATE_SOUND : string := "assets/sounds/rotate_block.mp3".

(** The keys of the [TETRIMINOS] dictionary. *)
Inductive Key : Type := I | O | T | S | Z' | J | L.  (* ['Z'] is written [Z'] *)

Definition keys : list Key := [I; O; T; S; Z'; J; L].

Definition Matrix : Type := list (list Z).

Record Entry : Type := { rotations : list (Matrix * Color); color : Color }.

Definition TETRIMINOS (k : Key) : Entry :=
  match k with
  | I => {| rotations := [([[1]; [1]; [1]; [1]], CYAN);
                          ([[1; 1; 1; 1]], CYAN)];
            color := CYAN |}
  | O => {| rotations := [([[2; 2]; [2; 2]], YELLOW)];
            color := YELLOW |}
  | T => {| rotations := [([[0; 3; 0]; [3; 3; 3]], MAGENTA);
                          ([[3; 0]; [3; 3]; [3; 0]], MAGENTA);
                          ([[3; 3; 3]; [0; 3; 0]], MAGENTA);
                          ([[0; 3]; [3; 3]; [0; 3]], MAGENTA)];
            color := MAGENTA |}
  | S => {| rotations := [([[0; 4; 4]; [4; 4; 0]], GREEN);
                          ([[4; 0]; [4; 4]; [0; 4]], GREEN)];
            color := GREEN |}
  | Z' => {| rotations := [([[5; 5; 0]; [0; 5; 5]], RED);
                           ([[0; 5]; [5; 5]; [5; 0]], RED)];
             color := RED |}
  | J => {| rotations := [([[6; 0; 0]; [6; 6; 6]], BLUE);
                          ([[6; 6]; [6; 0]; [6; 0]], BLUE);
                          ([[6; 6; 6]; [0; 0; 6]], BLUE);
                          ([[0; 6]; [0; 6]; [6; 6]], BLUE)];
            color := BLUE |}
  | L => {| rotations := [([[0; 0; 7]; [7; 7; 7]], ORANGE);
                          ([[7; 0]; [7; 0]; [7; 7]], ORANGE);
                          ([[7; 7; 7]; [7; 0; 0]], ORANGE);
                          ([[7; 7]; [0; 7]; [0; 7]], ORANGE)];
            color := ORANGE |}
  end.

Definition FPS : Z := 60.
Definition BLACK : Color := (0, 0, 0).
Definition WHITE : Color := (255, 255, 255).
Definition GREY : Color := (192, 192, 192).

Definition COLORS : list Color :=
  [ CYAN;    (* I *)
    BLUE;    (* J *)
    ORANGE;  (* L *)
    YELLOW;  (* O *)
    GREEN;   (* S *)
    RED;     (* Z *)
    MAGENTA  (* T *) ].

End settings.

(** A [pygame.mixer.Sound], named by the asset it was loaded from.  An
    attribute that holds a sound is [None] when the game is muted. *)
Inductive Sound : Type := SoundFile (path : string).

Definition Grid : Type := list (list Z).

(** ** tetrimino.py *)

Module Tetrimino.

(** The attribute [grid] of a piece is a reference to the list owned by
    the engine ([GameLogic.new_tetrimino] passes [self.grid]); the
    methods below receive the referenced list as [g].  The engine
    rebinds its own [grid] in [clear_lines] only, and replaces the piece
    by a new one, built on the new list, before it asks the piece again:
    whenever a method of the piece runs, the list it reads is the engine's.
    [rotations] and [color] are looked up from [shape]; the attribute
    [rotate_sound] is stored and never read. *)
Record t : Type := {
  shape : settings.Key;
  rotation : Z;
  position : Z * Z
}.

Definition rotations (self : t) : list (settings.Matrix * settings.Color) :=
  settings.rotations (settings.TETRIMINOS (shape self)).

Definition color (self : t) : settings.Color :=
  settings.color (settings.TETRIMINOS (shape self)).

Definition __init__ (shape : settings.Key) : t :=
  {| shape := shape; rotation := 0; position := (0, 4) |}.

Definition set_rotation (self : t) (r : Z) : t :=
  {| shape := shape self; rotation := r; position := position self |}.

Definition set_position (self : t) (p : Z * Z) : t :=
  {| shape := shape self; rotation := rotation self; position := p |}.

(** The test that guards [return False]:
    [r >= len(self.grid) or c < 0 or c >= len(self.grid[0]) or self.grid[r][c]],
    evaluated left to right. *)
Definition blocked (g : Grid) (r c : Z) : result bool :=
  if r >=? Py.len g then Ok true
  else if c <? 0 then Ok true
  else
    match Py.getitem g 0 with
    | Raise e => Raise e
    | Ok first =>
        if c >=? Py.len first then Ok true
        else
          match Py.getitem g r with
          | Raise e => Raise e
          | Ok line =>
              match Py.getitem line c with
              | Raise e => Raise e
              | Ok v => Ok (Py.truthy v)
              end
          end
    end.

(** The inner loop [for j, cell in enumerate(line)], from index [j] on:
    [Ok false] when [return False] was reached, [Ok true] when the loop
    ran to its end. *)
Fixpoint fit_cells (g : Grid) (row col i j : Z) (line : list Z) : result bool :=
  match line with
  | [] => Ok true
  | cell :: rest =>
      if cell >? 0 then
        match blocked g (row + i) (col + j) with
        | Raise e => Raise e
        | Ok true => Ok false
        | Ok false => fit_cells g row col i (j + 1) rest
        end
      else fit_cells g row col i (j + 1) rest
  end.

(** The outer loop [for i, line in enumerate(shape)], from index [i] on. *)
Fixpoint fit_lines (g : Grid) (row col i : Z) (shape : settings.Matrix) : result bool :=
  match shape with
  | [] => Ok true
  | line :: rest =>
      match fit_cells g row col i 0 line with
      | Raise e => Raise e
      | Ok false => Ok false
      | Ok true => fit_lines g row col (i + 1) rest
      end
  end.

Definition can_fit (g : Grid) (self : t) (row col : Z) (rotation : option Z) : result bool :=
  let rotation := match rotation with None => Tetrimino.rotation self | Some r => r end in
  match Py.getitem (rotations self) rotation with
  | Raise e => Raise e
  | Ok entry => fit_lines g row col 0 (fst entry)
  end.

(** [if rotate_sound: rotate_sound.play()] *)
Definition play_if_present (sound : option Sound) : list Sound :=
  match sound with
  | Some s => [s]
  | None => []
  end.

(** Returns the method's value, the piece after the call and the sounds
    played. *)
Definition rotate (g : Grid) (self : t)
    (current_time last_rotation_time rotation_delay : Z)
    (rotate_sound : option Sound) : result Z * t * list Sound :=
  if current_time - last_rotation_time >? rotation_delay then
    if Py.len (rotations self) =? 0 then (Raise ZeroDivisionError, self, [])
    else
      let next_rotation := (rotation self + 1) mod Py.len (rotations self) in
      match can_fit g self (fst (position self)) (snd (position self)) (Some next_rotation) with
      | Raise e => (Raise e, self, [])
      | Ok true =>
          (Ok current_time, set_rotation self next_rotation, play_if_present rotate_sound)
      | Ok false => (Ok last_rotation_time, self, [])
      end
  else (Ok last_rotation_time, self, []).

Definition get_current_shape (self : t) : result settings.Matrix :=
  match Py.getitem (rotations self) (rotation self) with
  | Raise e => Raise e
  | Ok entry => Ok (fst entry)
  end.

End Tetrimino.

(** ** game_logic.py *)

Module GameLogic.

Record t : Type := {
  rotate_sound : option Sound;
  break_line_sound : option Sound;
  grid : Grid;
  score : Z;
  lines_cleared : Z;
  level : Z;
  current_tetrimino : Tetrimino.t;
  game_over : bool;
  is_paused : bool;
  drop_speed : Z;
  soft_drop_speed : Z;
  move_speed : Z;
  rotation_delay : Z;
  last_drop_time : Z;
  last_move_time : Z;
  last_rotation_time : Z
}.

(** Attribute assignments [self.x = v]. *)
Definition set_grid (v : Grid) (self : t) : t :=
  {| rotate_sound := rotate_sound self;
     break_line_sound := break_line_sound self;
     grid := v;
     score := score self;
     lines_cleared := lines_cleared self;
     level := level self;
     current_tetrimino := current_tetrimino self;
     game_over := game_over self;
     is_paused := is_paused self;
     drop_speed := drop_speed self;
     soft_drop_speed := soft_drop_speed self;
     move_speed := move_speed self;
     rotation_delay := rotation_delay self;
     last_drop_time := last_drop_time self;
     last_move_time := last_move_time self;
     last_rotation_time := last_rotation_time self |}.

Definition set_score (v : Z) (self : t) : t :=
  {| rotate_sound := rotate_sound self;
     break_line_sound := break_line_sound self;
     grid := grid self;
     score := v;
     lines_cleared := lines_cleared self;
     level := level self;
     current_tetrimino := current_tetrimino self;
     game_over := game_over self;
     is_paused := is_paused self;
     drop_speed := drop_speed self;
     soft_drop_speed := soft_drop_speed self;
     move_speed := move_speed self;
     rotation_delay := rotation_delay self;
     last_drop_time := last_drop_time self;
     last_move_time := last_move_time self;
     last_rotation_time := last_rotation_time self |}.

Definition set_lines_cleared (v : Z) (self : t) : t :=
  {| rotate_sound := rotate_sound self;
     break_line_sound := break_line_sound self;
     grid := grid self;
     score := score self;
     lines_cleared := v;
     level := level self;
     current_tetrimino := current_tetrimino self;
     game_over := game_over self;
     is_paused := is_paused self;
     drop_speed := drop_speed self;
     soft_drop_speed := soft_drop_speed self;
     move_speed := move_speed self;
     rotation_delay := rotation_delay self;
     last_drop_time := last_drop_time self;
     last_move_time := last_move_time self;
     last_rotation_time := last_rotation_time self |}.

Definition set_level (v : Z) (self : t) : t :=
  {| rotate_sound := rotate_sound self;
     break_line_sound := break_line_sound self;
     grid := grid self;
     score := score self;
     lines_cleared := lines_cleared self;
     level := v;
     current_tetrimino := current_tetrimino self;
     game_over := game_over self;
     is_paused := is_paused self;
     drop_speed := drop_speed self;
     soft_drop_speed := soft_drop_speed self;
     move_speed := move_speed self;
     rotation_delay := rotation_delay self;
     last_drop_time := last_drop_time self;
     last_move_time := last_move_time self;
     last_rotation_time := last_rotation_time self |}.

Definition set_current_tetrimino (v : Tetrimino.t) (self : t) : t :=
  {| rotate_sound := rotate_sound self;
     break_line_sound := break_line_sound self;
     grid := grid self;
     score := score self;
     lines_cleared := lines_cleared self;
     level := level self;
     current_tetrimino := v;
     game_over := game_over self;
     is_paused := is_paused self;
     drop_speed := drop_speed self;
     soft_drop_speed := soft_drop_speed self;
     move_speed := move_speed self;
     rotation_delay := rotation_delay self;
     last_drop_time := last_drop_time self;
     last_move_time := last_move_time self;
     last_rotation_time := last_rotation_time self |}.

Definition set_game_over (v : bool) (self : t) : t :=
  {| rotate_sound := rotate_sound self;
     break_line_sound := break_line_sound self;
     grid := grid self;
     score := score self;
     lines_cleared := lines_cleared self;
     level := level self;
     current_tetrimino := current_tetrimino self;
     game_over := v;
     is_paused := is_paused self;
     drop_speed := drop_speed self;
     soft_drop_speed := soft_drop_speed self;
     move_speed := move_speed self;
     rotation_delay := rotation_delay self;
     last_drop_time := last_drop_time self;
     last_move_time := last_move_time self;
     last_rotation_time := last_rotation_time self |}.

Definition set_is_paused (v : bool) (self : t) : t :=
  {| rotate_sound := rotate_sound self;
     break_line_sound := break_line_sound self;
     grid := grid self;
     score := score self;
     lines_cleared := lines_cleared self;
     level := level self;
     current_tetrimino := current_tetrimino self;
     game_over := game_over self;
     is_paused := v;
     drop_speed := drop_speed self;
     soft_drop_speed := soft_drop_speed self;
     move_speed := move_speed self;
     rotation_delay := rotation_delay self;
     last_drop_time := last_drop_time self;
     last_move_time := last_move_time self;
     last_rotation_time := last_rotation_time self |}.

Definition set_drop_speed (v : Z) (self : t) : t :=
  {| rotate_sound := rotate_sound self;
     break_line_sound := break_line_sound self;
     grid := grid self;
     score := score self;
     lines_cleared := lines_cleared self;
     level := level self;
     current_tetrimino := current_tetrimino self;
     game_over := game_over self;
     is_paused := is_paused self;
     drop_speed := v;
     soft_drop_speed := soft_drop_speed self;
     move_speed := move_speed self;
     rotation_delay := rotation_delay self;
     last_drop_time := last_drop_time self;
     last_move_time := last_move_time self;
     last_rotation_time := last_rotation_time self |}.

Definition set_last_drop_time (v : Z) (self : t) : t :=
  {| rotate_sound := rotate_sound self;
     break_line_sound := break_line_sound self;
     grid := grid self;
     score := score self;
     lines_cleared := lines_cleared self;
     level := level self;
     current_tetrimino := current_tetrimino self;
     game_over := game_over self;
     is_paused := is_paused self;
     drop_speed := drop_speed self;
     soft_drop_speed := soft_drop_speed self;
     move_speed := move_speed self;
     rotation_delay := rotation_delay self;
     last_drop_time := v;
     last_move_time := last_move_time self;
     last_rotation_time := last_rotation_time self |}.

Definition set_last_move_time (v : Z) (self : t) : t :=
  {| rotate_sound := rotate_sound self;
     break_line_sound := break_line_sound self;
     grid := grid self;
     score := score self;
     lines_cleared := lines_cleared self;
     level := level self;
     current_tetrimino := current_tetrimino self;
     game_over := game_over self;
     is_paused := is_paused self;
     drop_speed := drop_speed self;
     soft_drop_speed := soft_drop_speed self;
     move_speed := move_speed self;
     rotation_delay := rotation_delay self;
     last_drop_time := last_drop_time self;
     last_move_time := v;
     last_rotation_time := last_rotation_time self |}.

Definition set_last_rotation_time (v : Z) (self : t) : t :=
  {| rotate_sound := rotate_sound self;
     break_line_sound := break_line_sound self;
     grid := grid self;
     score := score self;
     lines_cleared := lines_cleared self;
     level := level self;
     current_tetrimino := current_tetrimino self;
     game_over := game_over self;
     is_paused := is_paused self;
     drop_speed := drop_speed self;
     soft_drop_speed := soft_drop_speed self;
     move_speed := move_speed self;
     rotation_delay := rotation_delay self;
     last_drop_time := last_drop_time self;
     last_move_time := last_move_time self;
     last_rotation_time := v |}.

(** A method: from the object before the call to the value returned or
    the exception raised, the object after the call (an exception keeps
    the assignments made before it) and the sounds played. *)
Definition M (A : Type) : Type := t -> result A * t * list Sound.

Definition ret {A : Type} (a : A) : M A := fun self => (Ok a, self, []).

Definition raise {A : Type} (e : exn) : M A := fun self => (Raise e, self, []).

Definition bind {A B : Type} (m : M A) (k : A -> M B) : M B :=
  fun self =>
    match m self with
    | (Ok a, self1, played1) =>
        match k a self1 with
        | (r, self2, played2) => (r, self2, played1 ++ played2)
        end
    | (Raise e, self1, played1) => (Raise e, self1, played1)
    end.

Definition get {A : Type} (f : t -> A) : M A := fun self => (Ok (f self), self, []).

Definition assign (f : t -> t) : M unit := fun self => (Ok tt, f self, []).

Definition lift {A : Type} (r : result A) : M A :=
  match r with
  | Ok a => ret a
  | Raise e => raise e
  end.

(** [sound.play()] on an attribute that may hold [None]. *)
Definition play (sound : option Sound) : M unit :=
  fun self =>
    match sound with
    | Some s => (Ok tt, self, [s])
    | None => (Raise AttributeError, self, [])
    end.

Definition when (b : bool) (m : M unit) : M unit := if b then m else ret tt.

Declare Scope method_scope.
Delimit Scope method_scope with method.
Notation "x <- m ;; k" := (bind m (fun x => k))
  (at level 100, m at next level, right associativity) : method_scope.
Notation "m ;; k" := (bind m (fun _ => k))
  (at level 100, right associativity) : method_scope.
Local Open Scope method_scope.

Definition state {A : Type} (r : result A * t * list Sound) : t := snd (fst r).
Definition value {A : Type} (r : result A * t * list Sound) : result A := fst (fst r).
Definition played {A : Type} (r : result A * t * list Sound) : list Sound := snd r.

(** The keys of the [commands] dictionary. *)
Definition Commands : Type := list string.

Definition has (key : string) (commands : Commands) : bool :=
  existsb (String.eqb key) commands.

Definition toggle_pause : M bool :=
  paused <- get is_paused ;;
  assign (set_is_paused (negb paused)) ;;
  get is_paused.

(** [tetrimino_type] is the key [random.choice] returns. *)
Definition new_tetrimino (tetrimino_type : settings.Key) : M Tetrimino.t :=
  g <- get grid ;;
  let tetrimino := Tetrimino.__init__ tetrimino_type in
  fits <- lift (Tetrimino.can_fit g tetrimino 0 4 None) ;;
  when (negb fits) (assign (set_game_over true)) ;;
  ret tetrimino.

Definition reset_game (tetrimino_type : settings.Key) : M unit :=
  assign (set_score 0) ;;
  assign (set_lines_cleared 0) ;;
  assign (set_level 1) ;;
  tetrimino <- new_tetrimino tetrimino_type ;;
  assign (set_current_tetrimino tetrimino) ;;
  assign (set_game_over false) ;;
  assign (set_is_paused false).

Definition adjust_game_speed : M unit :=
  speed <- get drop_speed ;;
  lvl <- get level ;;
  assign (set_drop_speed (Z.max 100 (speed - settings.LEVEL_SPEED_INCREMENT * (lvl - 1)))).

Definition update_level : M unit :=
  lines <- get lines_cleared ;;
  let new_level := 1 + lines / settings.LEVEL_CHANGE_LINES in
  lvl <- get level ;;
  when (new_level >? lvl)
    (assign (set_level new_level) ;;
     adjust_game_speed).

(** [self.current_tetrimino.can_fit(row, col)] *)
Definition current_can_fit (row col : Z) : M bool :=
  tetrimino <- get current_tetrimino ;;
  g <- get grid ;;
  lift (Tetrimino.can_fit g tetrimino row col None).

(** [self.current_tetrimino.position[0]] and [...position[1]] *)
Definition position0 : M Z := get (fun self => fst (Tetrimino.position (current_tetrimino self))).
Definition position1 : M Z := get (fun self => snd (Tetrimino.position (current_tetrimino self))).

(** [self.current_tetrimino.position[0] += d] *)
Definition add_position0 (d : Z) (self : t) : t :=
  let tetrimino := current_tetrimino self in
  set_current_tetrimino
    (Tetrimino.set_position tetrimino
       (fst (Tetrimino.position tetrimino) + d, snd (Tetrimino.position tetrimino)))
    self.

(** [self.current_tetrimino.position[1] += d] *)
Definition add_position1 (d : Z) (self : t) : t :=
  let tetrimino := current_tetrimino self in
  set_current_tetrimino
    (Tetrimino.set_position tetrimino
       (fst (Tetrimino.position tetrimino), snd (Tetrimino.position tetrimino) + d))
    self.

(** [self.grid[r][c] = v]: the row object [self.grid[r]] is updated in
    place.  The rows of the grid are distinct list objects (the
    constructor and [clear_lines] build a new list for each empty row), so
    the write shows in that row only. *)
Definition write_cell (r c v : Z) : M unit :=
  g <- get grid ;;
  line <- lift (Py.getitem g r) ;;
  line' <- lift (Py.setitem line c v) ;;
  g' <- lift (Py.setitem g r line') ;;
  assign (set_grid g').

Fixpoint place_cells (i j : Z) (row : list Z) : M unit :=
  match row with
  | [] => ret tt
  | cell :: rest =>
      when (cell >? 0)
        (r <- position0 ;;
         c <- position1 ;;
         write_cell (r + i) (c + j) cell) ;;
      place_cells i (j + 1) rest
  end.

Fixpoint place_rows (i : Z) (shape : settings.Matrix) : M unit :=
  match shape with
  | [] => ret tt
  | row :: rest =>
      place_cells i 0 row ;;
      place_rows (i + 1) rest
  end.

Definition place_tetrimino : M unit :=
  tetrimino <- get current_tetrimino ;;
  shape <- lift (Tetrimino.get_current_shape tetrimino) ;;
  place_rows 0 shape.

(** The loop [for row in self.grid] of [clear_lines], with its two
    accumulators. *)
Fixpoint scan_rows (rows : Grid) (cleared_lines : Z) (new_grid : Grid) : Z * Grid :=
  match rows with
  | [] => (cleared_lines, new_grid)
  | row :: rest =>
      if Py.contains 0 row then scan_rows rest cleared_lines (new_grid ++ [row])
      else scan_rows rest (cleared_lines + 1) new_grid
  end.

Definition clear_lines : M unit :=
  g <- get grid ;;
  let cleared_lines := fst (scan_rows g 0 []) in
  let new_grid := snd (scan_rows g 0 []) in
  when (cleared_lines >? 0)
    (sound <- get break_line_sound ;;
     play sound) ;;
  let new_grid :=
    repeat (repeat 0 (Z.to_nat settings.GRID_WIDTH)) (Z.to_nat cleared_lines) ++ new_grid in
  assign (set_grid new_grid) ;;
  lines <- get lines_cleared ;;
  assign (set_lines_cleared (lines + cleared_lines)) ;;
  points <- get score ;;
  assign (set_score (points + cleared_lines ^ 2)).

(** The body of the inner [if] of [drop_tetrimino]: the piece is written
    into the grid and replaced. *)
Definition lock_and_respawn (tetrimino_type : settings.Key) : M unit :=
  place_tetrimino ;;
  clear_lines ;;
  update_level ;;
  tetrimino <- new_tetrimino tetrimino_type ;;
  assign (set_current_tetrimino tetrimino) ;;
  fits_start <- current_can_fit 0 4 ;;
  when (negb fits_start) (assign (set_game_over true)).

Definition drop_tetrimino (tetrimino_type : settings.Key) : M bool :=
  r <- position0 ;;
  c <- position1 ;;
  fits <- current_can_fit (r + 1) c ;;
  if fits then
    assign (add_position0 1) ;;
    r <- position0 ;;
    c <- position1 ;;
    further <- current_can_fit (r + 1) c ;;
    when (negb further) (lock_and_respawn tetrimino_type) ;;
    ret true
  else ret false.

Definition attempt_to_drop (current_time : Z) (tetrimino_type : settings.Key) : M unit :=
  dropped <- drop_tetrimino tetrimino_type ;;
  when (negb dropped)
    (place_tetrimino ;;
     clear_lines ;;
     tetrimino <- new_tetrimino tetrimino_type ;;
     assign (set_current_tetrimino tetrimino)) ;;
  assign (set_last_drop_time current_time).

Definition handle_automatic_drop (current_time : Z) (commands : Commands)
    (tetrimino_type : settings.Key) : M unit :=
  last <- get last_drop_time ;;
  if has "move_down" commands then
    soft <- get soft_drop_speed ;;
    when (current_time - last >? soft) (attempt_to_drop current_time tetrimino_type)
  else
    speed <- get drop_speed ;;
    when (current_time - last >? speed) (attempt_to_drop current_time tetrimino_type).

(** [self.current_tetrimino.rotate(...)]: the piece is mutated in place. *)
Definition rotate_current (current_time : Z) : M Z :=
  fun self =>
    match Tetrimino.rotate (grid self) (current_tetrimino self) current_time
            (last_rotation_time self) (rotation_delay self) (rotate_sound self) with
    | (r, tetrimino, sounds) => (r, set_current_tetrimino tetrimino self, sounds)
    end.

Definition handle_rotation (current_time : Z) (commands : Commands) : M unit :=
  when (has "rotate" commands)
    (time <- rotate_current current_time ;;
     assign (set_last_rotation_time time)).

Definition handle_moves (current_time : Z) (commands : Commands) : M unit :=
  last <- get last_move_time ;;
  speed <- get move_speed ;;
  when (current_time - last >? speed)
    (when (has "move_left" commands)
       (r <- position0 ;;
        c <- position1 ;;
        fits <- current_can_fit r (c - 1) ;;
        when fits (assign (add_position1 (-1)))) ;;
     when (has "move_right" commands)
       (r <- position0 ;;
        c <- position1 ;;
        fits <- current_can_fit r (c + 1) ;;
        when fits (assign (add_position1 1))) ;;
     assign (set_last_move_time current_time)).

Definition process_player_input (current_time : Z) (commands : Commands) : M unit :=
  handle_moves current_time commands ;;
  handle_rotation current_time commands.

(** [current_time] is the value of [pygame.time.get_ticks()]. *)
Definition update (current_time : Z) (commands : Commands)
    (tetrimino_type : settings.Key) : M unit :=
  over <- get game_over ;;
  paused <- get is_paused ;;
  if over || paused then ret tt
  else
    process_player_input current_time commands ;;
    handle_automatic_drop current_time commands tetrimino_type.

Definition check_game_over : M bool :=
  fits <- current_can_fit 0 4 ;;
  when (negb fits) (assign (set_game_over true)) ;;
  get game_over.

(** The constructor.  [new_tetrimino] runs on the object as assigned so
    far ([current_tetrimino] and the attributes below it are not bound
    yet; the record needs a value for them); the three [ticks] are the
    values of the calls of [pygame.time.get_ticks()]. *)
Definition __init__ (break_line_sound rotate_sound : option Sound)
    (tetrimino_type : settings.Key) (ticks_drop ticks_move ticks_rotation : Z) : result t :=
  let partial :=
    {| rotate_sound := rotate_sound;
       break_line_sound := break_line_sound;
       grid := repeat (repeat 0 (Z.to_nat settings.GRID_WIDTH)) (Z.to_nat settings.GRID_HEIGHT);
       score := 0;
       lines_cleared := 0;
       level := 1;
       current_tetrimino := Tetrimino.__init__ tetrimino_type;
       game_over := false;
       is_paused := false;
       drop_speed := 1000;
       soft_drop_speed := 50;
       move_speed := 100;
       rotation_delay := 200;
       last_drop_time := ticks_drop;
       last_move_time := ticks_move;
       last_rotation_time := ticks_rotation |} in
  match new_tetrimino tetrimino_type partial with
  | (Ok tetrimino, self, _) =>
      Ok (set_is_paused false (set_game_over false (set_current_tetrimino tetrimino self)))
  | (Raise e, _, _) => Raise e
  end.

End GameLogic.

(** ** display.py *)

Module Display.

(** [settings.COLORS[cell - 1]]: the colour [render] draws a non-empty
    cell of the grid, or a filled cell of the active piece, with. *)
Definition cell_color (cell : Z) : result settings.Color :=
  Py.getitem settings.COLORS (cell - 1).

(** [pygame.Rect(left, top, width, height)] *)
Record Rect : Type := {
  left : Z;
  top : Z;
  width : Z;
  height : Z
}.

(** The texts [render] writes: [f"Score: {score}"], [f"Level: {level}"]
    and ["Paused"]. *)
Inductive Text : Type :=
| ScoreText (score : Z)
| LevelText (level : Z)
| PausedText.

(** The calls [render] makes on [self.screen]: [screen.fill(color)],
    [pygame.draw.rect(screen, color, rect, width)] (a [width] of 0, the
    default, fills the rectangle), [screen.blit] of a text rendered by
    [self.font] in a colour, at a position or centred on the screen. *)
Inductive Draw : Type :=
| fill (color : settings.Color)
| draw_rect (color : settings.Color) (rect : Rect) (line_width : Z)
| blit (text : Text) (color : settings.Color) (dest : Z * Z)
| blit_centered (text : Text) (color : settings.Color).

(** [screen] and [font] are pygame objects; the calls made on them are
    logged. *)
Record t : Type := {
  cell_size : Z
}.

Definition __init__ : t := {| cell_size := settings.CELL_SIZE |}.

(** What a piece of [render] does: it returns or raises, after the draws
    it made. *)
Definition Drawn : Type := (result unit * list Draw)%type.

Definition skip : Drawn := (Ok tt, []).

Definition draw (d : Draw) : Drawn := (Ok tt, [d]).

(** [first; next]: an exception of [first] ends the method. *)
Definition and_then (first next : Drawn) : Drawn :=
  match first with
  | (Ok _, draws) => (fst next, draws ++ snd next)
  | (Raise e, draws) => (Raise e, draws)
  end.

(** [if cell: pygame.draw.rect(self.screen, settings.COLORS[cell - 1], rect)] *)
Definition draw_filled (cell : Z) (rect : Rect) : Drawn :=
  if Py.truthy cell then
    match cell_color cell with
    | Ok color => draw (draw_rect color rect 0)
    | Raise e => (Raise e, [])
    end
  else skip.

(** The loop [for x, cell in enumerate(row)] over a row of the grid, from
    index [x] on. *)
Fixpoint render_row (self : t) (y x : Z) (row : list Z) : Drawn :=
  match row with
  | [] => skip
  | cell :: rest =>
      let rect := {| left := x * cell_size self; top := y * cell_size self;
                     width := cell_size self; height := cell_size self |} in
      and_then (draw_filled cell rect)
        (and_then (draw (draw_rect settings.GREY rect 1))
           (render_row self y (x + 1) rest))
  end.

(** The loop [for y, row in enumerate(grid)], from index [y] on. *)
Fixpoint render_grid (self : t) (y : Z) (grid : Grid) : Drawn :=
  match grid with
  | [] => skip
  | row :: rest => and_then (render_row self y 0 row) (render_grid self (y + 1) rest)
  end.

(** The loop [for j, val in enumerate(row)] over a row of the piece's
    matrix, from index [j] on. *)
Fixpoint render_shape_row (self : t) (current_tetrimino : Tetrimino.t) (i j : Z)
    (row : list Z) : Drawn :=
  match row with
  | [] => skip
  | val :: rest =>
      let px := (snd (Tetrimino.position current_tetrimino) + j) * cell_size self in
      let py := (fst (Tetrimino.position current_tetrimino) + i) * cell_size self in
      and_then
        (draw_filled val {| left := px; top := py;
                            width := cell_size self; height := cell_size self |})
        (render_shape_row self current_tetrimino i (j + 1) rest)
  end.

(** The loop [for i, row in enumerate(shape)], from index [i] on. *)
Fixpoint render_shape (self : t) (current_tetrimino : Tetrimino.t) (i : Z)
    (shape : settings.Matrix) : Drawn :=
  match shape with
  | [] => skip
  | row :: rest =>
      and_then (render_shape_row self current_tetrimino i 0 row)
        (render_shape self current_tetrimino (i + 1) rest)
  end.

(** [current_tetrimino] is a [Tetrimino] object, which is true. *)
Definition render (self : t) (grid : Grid) (score : Z) (current_tetrimino : Tetrimino.t)
    (level : Z) (is_paused : bool) : Drawn :=
  and_then (draw (fill settings.BLACK))
    (and_then (render_grid self 0 grid)
       (and_then
          (match Tetrimino.get_current_shape current_tetrimino with
           | Ok shape => render_shape self current_tetrimino 0 shape
           | Raise e => (Raise e, [])
           end)
          (and_then
             (draw (blit (ScoreText score) settings.WHITE
                      (settings.CELL_SIZE, settings.CELL_SIZE)))
             (and_then
                (draw (blit (LevelText level) settings.WHITE
                         (settings.CELL_SIZE, settings.CELL_SIZE * 2)))
                (if is_paused then draw (blit_centered PausedText (255, 255, 255))
                 else skip))))).

End Display.

(** ** pygame events, as far as [InputHandler] reads them *)

Module pygame.

Inductive Key : Type :=
| K_LEFT | K_RIGHT | K_DOWN | K_UP | K_p | K_r
| K_other (code : Z).

(** An event by its [type]; the two keyboard types carry [key]. *)
Inductive Event : Type :=
| KEYDOWN (key : Key)
| KEYUP (key : Key)
| OtherEvent (type : Z).

End pygame.

(** ** input_handler.py *)

Module InputHandler.

(** [game_logic] is a reference to the engine of the main loop: the
    handler's field stands for that one object.  [commands] is a
    dictionary whose values are all [True]; it is held by its keys, in
    insertion order. *)
Record t : Type := {
  game_logic : GameLogic.t;
  commands : GameLogic.Commands
}.

Definition __init__ (game_logic : GameLogic.t) : t :=
  {| game_logic := game_logic; commands := [] |}.

(** [commands[key] = True] *)
Definition set_command (key : string) (commands : GameLogic.Commands) : GameLogic.Commands :=
  if GameLogic.has key commands then commands else commands ++ [key].

(** [commands.pop(key, None)] *)
Definition pop_command (key : string) (commands : GameLogic.Commands) : GameLogic.Commands :=
  filter (fun k => negb (String.eqb key k)) commands.

Definition set_commands (v : GameLogic.Commands) (self : t) : t :=
  {| game_logic := game_logic self; commands := v |}.

(** A call of a method of [self.game_logic]. *)
Definition on_game {A : Type} (m : GameLogic.M A) (self : t) : result A * t * list Sound :=
  match m (game_logic self) with
  | (r, game, sounds) => (r, {| game_logic := game; commands := commands self |}, sounds)
  end.

(** [tetrimino_type] is the key [random.choice] returns if the event
    resets the game. *)
Definition process_event (event : pygame.Event) (tetrimino_type : settings.Key)
    (self : t) : result unit * t * list Sound :=
  match event with
  | pygame.KEYDOWN key =>
      match key with
      | pygame.K_LEFT => (Ok tt, set_commands (set_command "move_left" (commands self)) self, [])
      | pygame.K_RIGHT => (Ok tt, set_commands (set_command "move_right" (commands self)) self, [])
      | pygame.K_DOWN => (Ok tt, set_commands (set_command "move_down" (commands self)) self, [])
      | pygame.K_UP => (Ok tt, set_commands (set_command "rotate" (commands self)) self, [])
      | pygame.K_p =>
          match on_game GameLogic.toggle_pause self with
          | (Ok _, self', sounds) => (Ok tt, self', sounds)
          | (Raise e, self', sounds) => (Raise e, self', sounds)
          end
      | pygame.K_r => on_game (GameLogic.reset_game tetrimino_type) self
      | pygame.K_other _ => (Ok tt, self, [])
      end
  | pygame.KEYUP key =>
      match key with
      | pygame.K_LEFT => (Ok tt, set_commands (pop_command "move_left" (commands self)) self, [])
      | pygame.K_RIGHT => (Ok tt, set_commands (pop_command "move_right" (commands self)) self, [])
      | pygame.K_DOWN => (Ok tt, set_commands (pop_command "move_down" (commands self)) self, [])
      | pygame.K_UP => (Ok tt, set_commands (pop_command "rotate" (commands self)) self, [])
      | _ => (Ok tt, self, [])
      end
  | pygame.OtherEvent _ => (Ok tt, self, [])
  end.

End InputHandler.

(** ** highscore_manager.py *)

Module HighscoreManager.

(** The file named [filename], as the manager sees it: [content] is what
    reading it returns ([None] when [open(filename, 'r')] raises
    [IOError]), [writable] tells whether [open(filename, 'w')] succeeds. *)
Record File : Type := {
  content : option string;
  writable : bool
}.

Inductive error : Type := IOError | ValueError.

Section Builtins.

(** [int(text.strip())]: the integer, or [None] for [ValueError]. *)
Variable int_of_stripped : string -> option Z.

(** [str(n)] *)
Variable str : Z -> string.

Record t : Type := {
  filename : string;
  highscore : Z
}.

(** The body of the [try] of [load_highscore]. *)
Definition read_highscore (file : File) : Z + error :=
  match content file with
  | None => inr IOError
  | Some text =>
      match int_of_stripped text with
      | Some n => inl n
      | None => inr ValueError
      end
  end.

Definition load_highscore (file : File) : Z :=
  match read_highscore file with
  | inl highscore => highscore
  | inr IOError => 0
  | inr ValueError => 0
  end.

Definition __init__ (filename : string) (file : File) : t :=
  {| filename := filename; highscore := load_highscore file |}.

(** Returns the file after the call and [None], or the raised error. *)
Definition save_highscore (self : t) (file : File) : File * option error :=
  if writable file then
    ({| content := Some (str (highscore self)); writable := true |}, None)
  else (file, Some IOError).

(** Returns the manager and the file after the call, and [None] or the
    error raised by [save_highscore]. *)
Definition update_highscore (score : Z) (self : t) (file : File) : t * File * option error :=
  if score >? highscore self then
    let self := {| filename := filename self; highscore := score |} in
    match save_highscore self file with
    | (file, r) => (self, file, r)
    end
  else (self, file, None).

Definition get_highscore (self : t) : Z := highscore self.

End Builtins.

End HighscoreManager.

(** * Vocabulary of the properties *)

(** All rows of the grid have one length. *)
Definition rectangular (g : Grid) : Prop :=
  exists w : nat, Forall (fun line => List.length line = w) g.

(** Width of the grid as the code reads it: [len(self.grid[0])]. *)
Definition width (g : Grid) : Z :=
  match g with
  | [] => 0
  | first :: _ => Py.len first
  end.

(** The cell [(r, c)] lies inside the grid and is not empty. *)
Definition is_occupied (g : Grid) (r c : Z) : Prop :=
  0 <= r /\ 0 <= c /\
  exists line v,
    nth_error g (Z.to_nat r) = Some line /\
    nth_error line (Z.to_nat c) = Some v /\ v <> 0.

(** The reasons for which an absolute coordinate rejects a placement. *)
Definition rejects (g : Grid) (r c : Z) : Prop :=
  c < 0 \/ c >= width g \/ r >= Py.len g \/ is_occupied g r c.

(** [shape[i][j]] is a filled cell. *)
Definition filled (shape : settings.Matrix) (i j : nat) : Prop :=
  exists line cell,
    nth_error shape i = Some line /\ nth_error line j = Some cell /\ cell > 0.

(** A grid of [h] rows of [w] empty cells. *)
Definition empty_grid (h w : nat) : Grid := repeat (repeat 0 w) h.

(** The grid of the failing placement: empty but for the cell in the bottom
    row under column 4. *)
Definition bottom_cell_grid : Grid :=
  empty_grid 19 10 ++ [[0; 0; 0; 0; 1; 0; 0; 0; 0; 0]].

(** Every cell of the row is non-empty. *)
Definition full (row : list Z) : bool := forallb (fun cell => negb (cell =? 0)) row.

(** The sound objects as [main] builds them: loaded unless the game is
    muted. *)
Definition loaded (path : string) : option Sound :=
  if settings.MUTE then None else Some (SoundFile path).

(** An engine as the constructor leaves it, on the grid [g] with the piece
    [piece] and clock [0]. *)
Definition engine (g : Grid) (piece : Tetrimino.t) : GameLogic.t :=
  {| GameLogic.rotate_sound := loaded settings.ROTATE_SOUND;
     GameLogic.break_line_sound := loaded settings.BREAK_LINE_SOUND;
     GameLogic.grid := g;
     GameLogic.score := 0;
     GameLogic.lines_cleared := 0;
     GameLogic.level := 1;
     GameLogic.current_tetrimino := piece;
     GameLogic.game_over := false;
     GameLogic.is_paused := false;
     GameLogic.drop_speed := 1000;
     GameLogic.soft_drop_speed := 50;
     GameLogic.move_speed := 100;
     GameLogic.rotation_delay := 200;
     GameLogic.last_drop_time := 0;
     GameLogic.last_move_time := 0;
     GameLogic.last_rotation_time := 0 |}.

(** A piece of the given shape at [(row, col)], unrotated. *)
Definition piece_at (shape : settings.Key) (row col : Z) : Tetrimino.t :=
  Tetrimino.set_position (Tetrimino.__init__ shape) (row, col).

(** Two full rows at the bottom of an otherwise empty grid, with one cell
    filled in the row above them. *)
Definition two_full_rows : Grid :=
  empty_grid 17 10 ++ [[0; 0; 3; 0; 0; 0; 0; 0; 0; 0]] ++ repeat (repeat 1 10%nat) 2%nat.

(** Runs the plumbing of a method (sequencing, reads, assignments) and
    leaves the calls and the tests. *)
Ltac run_method :=
  repeat progress
    (cbv beta iota zeta delta
       [GameLogic.bind GameLogic.get GameLogic.assign GameLogic.ret
        GameLogic.raise GameLogic.when GameLogic.lift GameLogic.play
        GameLogic.state GameLogic.value GameLogic.played
        GameLogic.position0 GameLogic.position1];
     cbn [fst snd negb]).

(** A cell value: empty or one of the seven fill ids. *)
Definition cell_ok (v : Z) : Prop := 0 <= v <= 7.

(** The grid has [GRID_HEIGHT] rows of [GRID_WIDTH] cells, each a cell
    value. *)
Definition grid_ok (g : Grid) : Prop :=
  Py.len g = settings.GRID_HEIGHT /\
  Forall (fun line => Py.len line = settings.GRID_WIDTH /\ Forall cell_ok line) g.

(** The method leaves a well-shaped grid well-shaped, whether it returns
    or raises. *)
Definition keeps_grid_ok {A : Type} (m : GameLogic.M A) : Prop :=
  forall self,
    grid_ok (GameLogic.grid self) ->
    grid_ok (GameLogic.grid (GameLogic.state (m self))).

Create HintDb keeps.

(** A grid whose spawn cell in row 0, column 4 is taken. *)
Definition blocked_spawn_grid : Grid :=
  [0; 0; 0; 0; 1; 0; 0; 0; 0; 0] :: empty_grid 19 10.

(** The vertical I piece one row above its resting row on an empty grid. *)
Definition about_to_land : GameLogic.t :=
  engine (empty_grid 20 10) (piece_at settings.I 15 4).

(** An engine in the middle of a game: ten lines cleared, level 2, the
    drop interval shortened to 990 ms, four cells left in the bottom row. *)
Definition mid_game : GameLogic.t :=
  GameLogic.set_last_rotation_time 6400
    (GameLogic.set_last_move_time 6900
       (GameLogic.set_last_drop_time 7000
          (GameLogic.set_drop_speed 990
             (GameLogic.set_level 2
                (GameLogic.set_lines_cleared 10
                   (GameLogic.set_score 16
                      (engine (empty_grid 19 10 ++ [[1; 1; 1; 1; 0; 0; 0; 0; 0; 0]])
                         (piece_at settings.T 7 3)))))))).

(** Rows 0..3 are full but for column 4; the rows below are full but for
    column 9, so column 4 is taken from row 4 down: a vertical I piece
    spawned at (0, 4) fits and cannot move down. *)
Definition well_grid : Grid :=
  repeat [1; 1; 1; 1; 0; 1; 1; 1; 1; 1] 4 ++ repeat [1; 1; 1; 1; 1; 1; 1; 1; 1; 0] 16.

(** The engine on [well_grid] with six lines cleared so far (level 1) and
    the I piece just spawned. *)
Definition well_game : GameLogic.t :=
  GameLogic.set_lines_cleared 6 (engine well_grid (Tetrimino.__init__ settings.I)).

(** The value a shape's filled cells carry in [TETRIMINOS]. *)
Definition fill_id (key : settings.Key) : Z :=
  match key with
  | settings.I => 1
  | settings.O => 2
  | settings.T => 3
  | settings.S => 4
  | settings.Z' => 5
  | settings.J => 6
  | settings.L => 7
  end.

(** The non-empty cells of a matrix, row by row. *)
Definition filled_values (shape : settings.Matrix) : list Z :=
  filter (fun cell => cell >? 0) (List.concat shape).

(** The method leaves [P] true, whether it returns or raises. *)
Definition preserves {A : Type} (P : GameLogic.t -> Prop) (m : GameLogic.M A) : Prop :=
  forall self, P self -> P (GameLogic.state (m self)).

(** [self] is no further back than [start]: score, lines and level have
    not gone down, the drop interval has not gone up and is at least
    100 ms, the level is not ahead of the lines cleared, and the sounds and
    the three fixed intervals are the same. *)
Definition never_regressed (start self : GameLogic.t) : Prop :=
  GameLogic.score start <= GameLogic.score self /\
  GameLogic.lines_cleared start <= GameLogic.lines_cleared self /\
  GameLogic.level start <= GameLogic.level self /\
  100 <= GameLogic.drop_speed self <= GameLogic.drop_speed start /\
  GameLogic.level self
  <= 1 + GameLogic.lines_cleared self / settings.LEVEL_CHANGE_LINES /\
  GameLogic.soft_drop_speed self = GameLogic.soft_drop_speed start /\
  GameLogic.move_speed self = GameLogic.move_speed start /\
  GameLogic.rotation_delay self = GameLogic.rotation_delay start /\
  GameLogic.rotate_sound self = GameLogic.rotate_sound start /\
  GameLogic.break_line_sound self = GameLogic.break_line_sound start.

Create HintDb preserves.

(** The cell in row [y], column [x] of a grid or matrix, if there is one. *)
Definition cell_at (g : Grid) (y x : nat) : option Z :=
  match nth_error g y with
  | Some row => nth_error row x
  | None => None
  end.

(** The value a matrix line whose first cell stands in column [c0] puts
    on column [x]: its cell there, when that cell is filled. *)
Definition line_cell (line : list Z) (c0 : Z) (x : nat) : option Z :=
  let j := Z.of_nat x - c0 in
  if 0 <=? j then
    match nth_error line (Z.to_nat j) with
    | Some v => if v >? 0 then Some v else None
    | None => None
    end
  else None.

(** The value a matrix whose top-left corner stands at [(r0, c0)] puts on
    the cell [(y, x)]. *)
Definition piece_cell (shape : settings.Matrix) (r0 c0 : Z) (y x : nat) : option Z :=
  let i := Z.of_nat y - r0 in
  if 0 <=? i then
    match nth_error shape (Z.to_nat i) with
    | Some line => line_cell line c0 x
    | None => None
    end
  else None.

(** The piece's rotation index is one of its rotation states and its row
    is not above the top. *)
Definition piece_ok (piece : Tetrimino.t) : Prop :=
  0 <= Tetrimino.rotation piece < Py.len (Tetrimino.rotations piece) /\
  0 <= fst (Tetrimino.position piece).

(** The grid is well-shaped, the engine holds a break-line sound and the
    piece is well-formed. *)
Definition static_ok (self : GameLogic.t) : Prop :=
  grid_ok (GameLogic.grid self) /\
  GameLogic.break_line_sound self <> None /\
  piece_ok (GameLogic.current_tetrimino self).

(** The active piece fits where it stands. *)
Definition fits_here (self : GameLogic.t) : Prop :=
  Tetrimino.can_fit (GameLogic.grid self) (GameLogic.current_tetrimino self)
    (fst (Tetrimino.position (GameLogic.current_tetrimino self)))
    (snd (Tetrimino.position (GameLogic.current_tetrimino self))) None
  = Ok true.

(** The invariant of the engine: well-formed, and while the game is not
    over the active piece fits where it stands. *)
Definition engine_ok (self : GameLogic.t) : Prop :=
  static_ok self /\ (GameLogic.game_over self = false -> fits_here self).

(** From every engine in [P] the method returns (it does not raise), with
    a value and an engine in [Q]. *)
Definition returns {A : Type} (P : GameLogic.t -> Prop) (m : GameLogic.M A)
    (Q : A -> GameLogic.t -> Prop) : Prop :=
  forall self, P self ->
    exists a self' sounds, m self = (Ok a, self', sounds) /\ Q a self'.

(** The engine is well-formed, not over, and its piece fits where it
    stands. *)
Definition active (self : GameLogic.t) : Prop :=
  static_ok self /\ GameLogic.game_over self = false /\ fits_here self.

(** The command an arrow key asserts while it is held down
    ([InputHandler.process_event]). *)
Definition command_of (key : pygame.Key) : option string :=
  match key with
  | pygame.K_LEFT => Some "move_left"
  | pygame.K_RIGHT => Some "move_right"
  | pygame.K_DOWN => Some "move_down"
  | pygame.K_UP => Some "rotate"
  | _ => None
  end%string.

(** The four commands the engine reads. *)
Definition known_command (command : string) : Prop :=
  In command ["move_left"; "move_right"; "move_down"; "rotate"]%string.

(** The keys of the dictionary are known commands (a dictionary holds a
    key once). *)
Definition commands_ok (commands : GameLogic.Commands) : Prop :=
  NoDup commands /\ Forall known_command commands.

(** [process_event] called on each event of a sequence in turn, as the
    loop over [pygame.event.get()] does; each event comes with the shape
    [random.choice] would return were it to reset the game.  An exception
    ends the run. *)
Fixpoint process_events (events : list (pygame.Event * settings.Key))
    (self : InputHandler.t) : result unit * InputHandler.t * list Sound :=
  match events with
  | [] => (Ok tt, self, [])
  | (event, tetrimino_type) :: events =>
      match InputHandler.process_event event tetrimino_type self with
      | (Ok _, self, sounds) =>
          match process_events events self with
          | (r, self, sounds') => (r, self, sounds ++ sounds')
          end
      | (Raise e, self, sounds) => (Raise e, self, sounds)
      end
  end.

(** The handler a run of [process_event] leaves. *)
Definition handler_after (run : result unit * InputHandler.t * list Sound) : InputHandler.t :=
  snd (fst run).

(** A decimal printer and reader of integers, standing for [str] and for
    [int] after [strip] in examples. *)
Definition decimal_str (n : Z) : string :=
  NilZero.string_of_int (Z.to_int n).

Definition decimal_int (text : string) : option Z :=
  option_map Z.of_int (NilZero.int_of_string text).

(** Every filled cell of the piece's current matrix lies inside the
    [GRID_HEIGHT] by [GRID_WIDTH] board where the piece stands. *)
Definition in_bounds (piece : Tetrimino.t) : Prop :=
  forall shape colour i j line v,
    Py.getitem (Tetrimino.rotations piece) (Tetrimino.rotation piece) = Ok (shape, colour) ->
    nth_error shape i = Some line -> nth_error line j = Some v -> v > 0 ->
    0 <= fst (Tetrimino.position piece) + Z.of_nat i < settings.GRID_HEIGHT /\
    0 <= snd (Tetrimino.position piece) + Z.of_nat j < settings.GRID_WIDTH.

(** The engine is well-formed and its piece lies inside the board (it may
    overlap the stack, as a piece spawned by [reset_game] on a full board
    does). *)
Definition playable (self : GameLogic.t) : Prop :=
  static_ok self /\ in_bounds (GameLogic.current_tetrimino self).

(** [render] returned. *)
Definition returned (drawn : Display.Drawn) : Prop := fst drawn = Ok tt.

(** [settings.COLORS] has an entry at index [cell - 1], counted from the
    front or, for a negative index, from the end. *)
Definition has_colour (cell : Z) : Prop := -6 <= cell <= 7.

(** The calls by which the main loop drives the engine and the display:
    an event handed to [process_event],
    [game_logic.update(input_handler.commands)],
    [display.render(game_logic.grid, ...)] and
    [game_logic.check_game_over()].  [tetrimino_type] is the shape
    [random.choice] returns if the call draws a piece, [current_time] the
    value of [pygame.time.get_ticks()]. *)
Inductive Call : Type :=
| process_event_call (event : pygame.Event) (tetrimino_type : settings.Key)
| update_call (current_time : Z) (tetrimino_type : settings.Key)
| render_call
| check_game_over_call.

Definition run_call (call : Call) (self : InputHandler.t)
  : result unit * InputHandler.t * list Sound :=
  match call with
  | process_event_call event tetrimino_type =>
      InputHandler.process_event event tetrimino_type self
  | update_call current_time tetrimino_type =>
      InputHandler.on_game
        (GameLogic.update current_time (InputHandler.commands self) tetrimino_type) self
  | render_call =>
      let game := InputHandler.game_logic self in
      match Display.render Display.__init__ (GameLogic.grid game) (GameLogic.score game)
              (GameLogic.current_tetrimino game) (GameLogic.level game)
              (GameLogic.is_paused game) with
      | (Ok _, _) => (Ok tt, self, [])
      | (Raise e, _) => (Raise e, self, [])
      end
  | check_game_over_call =>
      match InputHandler.on_game GameLogic.check_game_over self with
      | (Ok _, self, sounds) => (Ok tt, self, sounds)
      | (Raise e, self, sounds) => (Raise e, self, sounds)
      end
  end.

(** A sequence of calls, in any order; an exception ends it. *)
Fixpoint run_calls (calls : list Call) (self : InputHandler.t)
  : result unit * InputHandler.t * list Sound :=
  match calls with
  | [] => (Ok tt, self, [])
  | call :: calls =>
      match run_call call self with
      | (Ok _, self, sounds) =>
          match run_calls calls self with
          | (r, self, sounds') => (r, self, sounds ++ sounds')
          end
      | (Raise e, self, sounds) => (Raise e, self, sounds)
      end
  end.

(** * Properties *)

(** ** Python lists *)

Section PyLists.

Context {A : Type}.

Lemma index_nonneg (l : list A) (i : Z) :
  0 <= i < Py.len l -> Py.index l i = Some (Z.to_nat i).
Proof.
  intros [H0 H1]. unfold Py.index.
  apply Z.leb_le in H0. apply Z.ltb_lt in H1.
  now rewrite H0, H1.
Qed.

Lemma index_lt (l : list A) (i : Z) (k : nat) :
  Py.index l i = Some k -> (k < List.length l)%nat.
Proof.
  unfold Py.index, Py.len.
  destruct ((0 <=? i) && (i <? Z.of_nat (List.length l))) eqn:E.
  - apply andb_prop in E as [E0 E1].
    apply Z.leb_le in E0. apply Z.ltb_lt in E1.
    intros [= <-]. lia.
  - destruct ((- Z.of_nat (List.length l) <=? i) && (i <? 0)) eqn:E'; [|discriminate].
    apply andb_prop in E' as [E0 E1].
    apply Z.leb_le in E0. apply Z.ltb_lt in E1.
    intros [= <-]. lia.
Qed.

Lemma getitem_nonneg (l : list A) (i : Z) :
  0 <= i < Py.len l ->
  exists x, Py.getitem l i = Ok x /\ nth_error l (Z.to_nat i) = Some x.
Proof.
  intros H. unfold Py.getitem. rewrite (index_nonneg l i H).
  destruct (nth_error l (Z.to_nat i)) as [x|] eqn:E.
  - now exists x.
  - apply nth_error_None in E. unfold Py.len in H. lia.
Qed.

Lemma getitem_In (l : list A) (i : Z) (x : A) :
  Py.getitem l i = Ok x -> In x l.
Proof.
  unfold Py.getitem.
  destruct (Py.index l i) as [k|]; [|discriminate].
  destruct (nth_error l k) as [y|] eqn:E; [|discriminate].
  intros [= <-]. eapply nth_error_In; eassumption.
Qed.

Lemma replace_length (l : list A) (k : nat) (x : A) :
  List.length (Py.replace l k x) = List.length l.
Proof.
  revert k. induction l as [|y tl IH]; intros [|k]; simpl; auto.
Qed.

Lemma replace_In (l : list A) (k : nat) (x y : A) :
  In y (Py.replace l k x) -> y = x \/ In y l.
Proof.
  revert k. induction l as [|z tl IH]; intros [|k]; simpl; auto.
  - intros [<-|H]; auto.
  - intros [<-|H]; auto. destruct (IH _ H); auto.
Qed.

Lemma setitem_length (l l' : list A) (i : Z) (x : A) :
  Py.setitem l i x = Ok l' -> List.length l' = List.length l.
Proof.
  unfold Py.setitem. destruct (Py.index l i); [|discriminate].
  intros [= <-]. apply replace_length.
Qed.

Lemma setitem_In (l l' : list A) (i : Z) (x y : A) :
  Py.setitem l i x = Ok l' -> In y l' -> y = x \/ In y l.
Proof.
  unfold Py.setitem. destruct (Py.index l i); [|discriminate].
  intros [= <-]. apply replace_In.
Qed.

End PyLists.

(** ** Collision test *)

Section CanFit.

Variable g : Grid.
Hypothesis g_rect : rectangular g.

Lemma row_length (r : nat) (line : list Z) :
  nth_error g r = Some line -> Py.len line = width g.
Proof.
  destruct g_rect as [w Hw]. intros H.
  assert (Hl : List.length line = w).
  { rewrite Forall_forall in Hw. apply Hw. eapply nth_error_In; eassumption. }
  unfold width. destruct g as [|first rest]; [destruct r; discriminate|].
  inversion Hw; subst. unfold Py.len. congruence.
Qed.

Lemma blocked_nonneg (r c : Z) :
  0 <= r ->
  exists b, Tetrimino.blocked g r c = Ok b /\ (b = true <-> rejects g r c).
Proof.
  intros Hr. unfold Tetrimino.blocked, rejects.
  destruct (r >=? Py.len g) eqn:E1.
  { exists true. split; [reflexivity|]. apply Z.geb_le in E1. intuition lia. }
  rewrite Z.geb_leb in E1. apply Z.leb_gt in E1.
  destruct (c <? 0) eqn:E2.
  { exists true. split; [reflexivity|]. apply Z.ltb_lt in E2. intuition lia. }
  apply Z.ltb_ge in E2.
  destruct (getitem_nonneg g 0) as (first & Hfirst & Hfirst'); [lia|].
  rewrite Hfirst.
  assert (Hw : Py.len first = width g) by (eapply row_length; eassumption).
  destruct (c >=? Py.len first) eqn:E3.
  { exists true. split; [reflexivity|]. apply Z.geb_le in E3. intuition lia. }
  rewrite Z.geb_leb in E3. apply Z.leb_gt in E3.
  destruct (getitem_nonneg g r) as (line & Hline & Hline'); [lia|].
  rewrite Hline.
  assert (Hw' : Py.len line = width g) by (eapply row_length; eassumption).
  destruct (getitem_nonneg line c) as (v & Hv & Hv'); [lia|].
  rewrite Hv. exists (Py.truthy v). split; [reflexivity|].
  unfold Py.truthy, is_occupied. rewrite negb_true_iff, Z.eqb_neq.
  split.
  - intros Hne. right; right; right. repeat split; try lia. now exists line, v.
  - intros [H|[H|[H|(_ & _ & line' & v' & H1 & H2 & H3)]]]; try lia.
    congruence.
Qed.

Lemma fit_cells_nonneg (row col i : Z) (line : list Z) :
  0 <= row + i ->
  forall j : nat,
  exists b,
    Tetrimino.fit_cells g row col i (Z.of_nat j) line = Ok b /\
    (b = false <->
     exists k cell,
       nth_error line k = Some cell /\ cell > 0 /\
       rejects g (row + i) (col + Z.of_nat (j + k))).
Proof.
  intros Hr. induction line as [|cell rest IH]; intros j.
  - exists true. split; [reflexivity|]. split; [discriminate|].
    intros (k & c & H & _). destruct k; discriminate.
  - simpl. destruct (IH (S j)) as (b & Hb & Hiff).
    replace (Z.of_nat (S j)) with (Z.of_nat j + 1) in Hb by lia.
    assert (Hshift :
      (exists k c, nth_error rest k = Some c /\ c > 0 /\
                   rejects g (row + i) (col + Z.of_nat (S j + k))) ->
      exists k c, nth_error (cell :: rest) k = Some c /\ c > 0 /\
                  rejects g (row + i) (col + Z.of_nat (j + k))).
    { intros (k & c & H1 & H2 & H3). exists (S k), c. simpl.
      repeat split; auto. now replace (j + S k)%nat with (S j + k)%nat by lia. }
    destruct (cell >? 0) eqn:Ecell.
    + destruct (blocked_nonneg (row + i) (col + Z.of_nat j) Hr) as (bl & Hbl & Hbliff).
      rewrite Hbl. destruct bl.
      * exists false. split; [reflexivity|]. split; [|reflexivity].
        intros _. exists 0%nat, cell. simpl. rewrite Nat.add_0_r.
        repeat split; [apply Z.gtb_lt in Ecell; lia|now apply Hbliff].
      * exists b. split; [exact Hb|]. rewrite Hiff. split; [exact Hshift|].
        intros (k & c & H1 & H2 & H3). destruct k as [|k].
        -- simpl in H1. rewrite Nat.add_0_r in H3.
           apply Hbliff in H3. discriminate.
        -- exists k, c. simpl in H1. repeat split; auto.
           now replace (S j + k)%nat with (j + S k)%nat by lia.
    + exists b. split; [exact Hb|]. rewrite Hiff. split; [exact Hshift|].
      intros (k & c & H1 & H2 & H3). destruct k as [|k].
      * simpl in H1. injection H1 as <-.
        rewrite Z.gtb_ltb in Ecell. apply Z.ltb_ge in Ecell. lia.
      * exists k, c. simpl in H1. repeat split; auto.
        now replace (S j + k)%nat with (j + S k)%nat by lia.
Qed.

Lemma fit_lines_nonneg (row col : Z) (shape : settings.Matrix) :
  0 <= row ->
  forall i : nat,
  exists b,
    Tetrimino.fit_lines g row col (Z.of_nat i) shape = Ok b /\
    (b = false <->
     exists k j, filled shape k j /\
                 rejects g (row + Z.of_nat (i + k)) (col + Z.of_nat j)).
Proof.
  intros Hr. induction shape as [|line rest IH]; intros i.
  - exists true. split; [reflexivity|]. split; [discriminate|].
    intros (k & j & (l & c & H & _) & _). destruct k; discriminate.
  - simpl. destruct (IH (S i)) as (b & Hb & Hiff).
    replace (Z.of_nat (S i)) with (Z.of_nat i + 1) in Hb by lia.
    destruct (fit_cells_nonneg row col (Z.of_nat i) line ltac:(lia) 0%nat)
      as (bc & Hbc & Hbciff).
    simpl in Hbc. rewrite Hbc.
    assert (Hshift :
      (exists k j, filled rest k j /\
                   rejects g (row + Z.of_nat (S i + k)) (col + Z.of_nat j)) ->
      exists k j, filled (line :: rest) k j /\
                  rejects g (row + Z.of_nat (i + k)) (col + Z.of_nat j)).
    { intros (k & j & Hf & Hrej). exists (S k), j. split.
      - exact Hf.
      - now replace (i + S k)%nat with (S i + k)%nat by lia. }
    destruct bc.
    + exists b. split; [exact Hb|]. rewrite Hiff. split; [exact Hshift|].
      intros (k & j & Hf & Hrej). destruct k as [|k].
      * destruct Hf as (l & c & H1 & H2 & H3). simpl in H1. injection H1 as <-.
        rewrite Nat.add_0_r in Hrej.
        assert (true = false); [|discriminate].
        apply Hbciff. exists j, c. now repeat split.
      * exists k, j. split; [exact Hf|].
        now replace (S i + k)%nat with (i + S k)%nat by lia.
    + exists false. split; [reflexivity|]. split; [|reflexivity].
      intros _. destruct (proj1 Hbciff eq_refl) as (j & c & H1 & H2 & H3).
      exists 0%nat, j. split.
      * exists line, c. now repeat split.
      * now rewrite Nat.add_0_r.
Qed.

(** For a position at or below the top row, [can_fit] returns (it does
    not raise), and it returns [False] exactly when a filled cell of the
    rotation's matrix maps to a coordinate left or right of the grid,
    below it, or onto an occupied cell. *)
Lemma can_fit_nonneg (self : Tetrimino.t) (row col : Z) (rotation : option Z)
    (shape : settings.Matrix) (colour : settings.Color) :
  0 <= row ->
  Py.getitem (Tetrimino.rotations self)
    (match rotation with None => Tetrimino.rotation self | Some r => r end)
    = Ok (shape, colour) ->
  exists b,
    Tetrimino.can_fit g self row col rotation = Ok b /\
    (b = false <->
     exists i j, filled shape i j /\
                 rejects g (row + Z.of_nat i) (col + Z.of_nat j)).
Proof.
  intros Hr Hrot. unfold Tetrimino.can_fit. rewrite Hrot. simpl.
  destruct (fit_lines_nonneg row col shape Hr 0%nat) as (b & Hb & Hiff).
  exists b. split; [exact Hb|]. exact Hiff.
Qed.

End CanFit.

(** ** Rotation *)

Lemma rotations_nonempty (self : Tetrimino.t) : 0 < Py.len (Tetrimino.rotations self).
Proof. destruct self as [[] r p]; vm_compute; reflexivity. Qed.

(** C1, as stated, fails at a row above the top.  The vertical I piece
    at row -1, column 4 has its filled cells at (-1,4), (0,4), (1,4) and
    (2,4): none is left or right of the grid, below it, or on an occupied
    cell of the grid, yet [can_fit] answers [False], because
    [self.grid[-1][4]] reads the bottom row; and further above the top
    ([row = -21]) the same call raises [IndexError] on an empty grid. *)
Lemma can_fit_above_top_reads_bottom_row :
  Tetrimino.can_fit bottom_cell_grid (Tetrimino.__init__ settings.I) (-1) 4 None = Ok false /\
  ~ (exists i j,
       filled [[1]; [1]; [1]; [1]] i j /\
       rejects bottom_cell_grid (-1 + Z.of_nat i) (4 + Z.of_nat j)) /\
  Tetrimino.can_fit (empty_grid 20 10) (Tetrimino.__init__ settings.I) (-21) 4 None
    = Raise IndexError.
Proof.
  split; [reflexivity|]. split; [|reflexivity].
  intros (i & j & (line & cell & H1 & H2 & H3) & Hrej).
  assert (Hj : j = 0%nat).
  { do 4 (destruct i as [|i]; [simpl in H1; injection H1 as <-;
            destruct j as [|[|j]]; simpl in H2; try discriminate; reflexivity|]).
    simpl in H1. destruct i; discriminate. }
  subst j.
  assert (Hi : (i < 4)%nat).
  { change 4%nat with (List.length [[1]; [1]; [1]; [1]]).
    apply nth_error_Some. rewrite H1. discriminate. }
  destruct Hrej as [H|[H|[H|(Hr & _ & l & v & Hl & Hv & Hne)]]].
  - lia.
  - vm_compute in H. now apply H.
  - unfold Py.len in H. simpl List.length in H. lia.
  - destruct i as [|[|[|[|i]]]]; try lia;
      simpl in Hl; injection Hl as <-; simpl in Hv; injection Hv as <-; lia.
Qed.

(** C1, amended to positions at or below the top row.  On a rectangular
    grid, for [row >= 0] and a rotation index of the piece, [can_fit]
    returns (it does not raise), and it returns [False] exactly when some
    filled cell [(i, j)] of the rotation's matrix maps to a coordinate
    [(row + i, col + j)] with column < 0, column >= grid width,
    row >= grid height, or onto an occupied cell of the grid. *)
Theorem can_fit_rejects_iff_cell_blocked (g : Grid) (self : Tetrimino.t)
    (row col : Z) (rotation : option Z)
    (shape : settings.Matrix) (colour : settings.Color) :
  rectangular g ->
  0 <= row ->
  Py.getitem (Tetrimino.rotations self)
    (match rotation with None => Tetrimino.rotation self | Some r => r end)
  = Ok (shape, colour) ->
  exists fits,
    Tetrimino.can_fit g self row col rotation = Ok fits /\
    (fits = false <->
     exists i j, filled shape i j /\
                 rejects g (row + Z.of_nat i) (col + Z.of_nat j)).
Proof. intros Hrect. now apply can_fit_nonneg. Qed.

Lemma can_fit_rejects_iff_cell_blocked_witness :
  exists fits,
    Tetrimino.can_fit bottom_cell_grid (piece_at settings.T 17 3) 17 3 (Some 1) = Ok fits /\
    (fits = false <->
     exists i j, filled [[3; 0]; [3; 3]; [3; 0]] i j /\
                 rejects bottom_cell_grid (17 + Z.of_nat i) (3 + Z.of_nat j)).
Proof.
  apply (can_fit_rejects_iff_cell_blocked bottom_cell_grid (piece_at settings.T 17 3)
           17 3 (Some 1) [[3; 0]; [3; 3]; [3; 0]] settings.MAGENTA).
  - exists 10%nat. unfold bottom_cell_grid, empty_grid; simpl. repeat constructor.
  - lia.
  - reflexivity.
Defined.

(** C5.  [rotate] returns [last_rotation_time] and changes nothing while
    [current_time - last_rotation_time <= rotation_delay]; past the delay,
    with [next_rotation = (rotation + 1) mod len(rotations)], it commits
    [next_rotation], plays the rotate sound and returns [current_time] when
    [can_fit] accepts the rotation at the current position, and changes
    nothing, plays nothing and returns [last_rotation_time] when [can_fit]
    rejects it. *)
Theorem rotate_throttle_and_geometry (g : Grid) (self : Tetrimino.t)
    (current_time last_rotation_time rotation_delay : Z) (rotate_sound : option Sound) :
  let next_rotation :=
    (Tetrimino.rotation self + 1) mod Py.len (Tetrimino.rotations self) in
  let fits :=
    Tetrimino.can_fit g self (fst (Tetrimino.position self))
      (snd (Tetrimino.position self)) (Some next_rotation) in
  let call :=
    Tetrimino.rotate g self current_time last_rotation_time rotation_delay rotate_sound in
  (current_time - last_rotation_time <= rotation_delay ->
   call = (Ok last_rotation_time, self, [])) /\
  (current_time - last_rotation_time > rotation_delay -> fits = Ok true ->
   call = (Ok current_time, Tetrimino.set_rotation self next_rotation,
           Tetrimino.play_if_present rotate_sound) /\
   Tetrimino.rotation (snd (fst call)) = next_rotation /\
   forall sound, rotate_sound = Some sound -> snd call = [sound]) /\
  (current_time - last_rotation_time > rotation_delay -> fits = Ok false ->
   call = (Ok last_rotation_time, self, [])).
Proof.
  intros next_rotation fits call. subst call. unfold Tetrimino.rotate.
  pose proof (rotations_nonempty self) as Hlen.
  split; [|split].
  - intros H.
    destruct (current_time - last_rotation_time >? rotation_delay) eqn:E; [|reflexivity].
    rewrite Z.gtb_ltb in E. apply Z.ltb_lt in E. lia.
  - intros H Hfits.
    assert (E : (current_time - last_rotation_time >? rotation_delay) = true).
    { rewrite Z.gtb_ltb. apply Z.ltb_lt. lia. }
    rewrite E.
    assert (E0 : (Py.len (Tetrimino.rotations self) =? 0) = false) by (apply Z.eqb_neq; lia).
    rewrite E0. fold next_rotation. fold fits. rewrite Hfits.
    split; [reflexivity|]. split; [reflexivity|].
    intros sound ->. reflexivity.
  - intros H Hfits.
    assert (E : (current_time - last_rotation_time >? rotation_delay) = true).
    { rewrite Z.gtb_ltb. apply Z.ltb_lt. lia. }
    rewrite E.
    assert (E0 : (Py.len (Tetrimino.rotations self) =? 0) = false) by (apply Z.eqb_neq; lia).
    rewrite E0. fold next_rotation. fold fits. rewrite Hfits. reflexivity.
Qed.

Lemma rotate_throttle_and_geometry_witness :
  let self := Tetrimino.__init__ settings.I in
  let sound := Some (SoundFile settings.ROTATE_SOUND) in
  Tetrimino.rotate (empty_grid 20 10) self 900 800 150 sound = (Ok 800, self, []) /\
  Tetrimino.rotate (empty_grid 20 10) self 1000 800 150 sound
  = (Ok 1000, Tetrimino.set_rotation self 1, [SoundFile settings.ROTATE_SOUND]) /\
  Tetrimino.rotate (empty_grid 20 10) (piece_at settings.I 0 7) 1000 800 150 sound
  = (Ok 800, piece_at settings.I 0 7, []).
Proof.
  split; [|split].
  - apply (proj1 (rotate_throttle_and_geometry (empty_grid 20 10)
                    (Tetrimino.__init__ settings.I) 900 800 150
                    (Some (SoundFile settings.ROTATE_SOUND)))).
    vm_compute. discriminate.
  - apply (proj1 (proj2 (rotate_throttle_and_geometry (empty_grid 20 10)
                           (Tetrimino.__init__ settings.I) 1000 800 150
                           (Some (SoundFile settings.ROTATE_SOUND)))));
      reflexivity.
  - apply (proj2 (proj2 (rotate_throttle_and_geometry (empty_grid 20 10)
                           (piece_at settings.I 0 7) 1000 800 150
                           (Some (SoundFile settings.ROTATE_SOUND)))));
      reflexivity.
Defined.


(** ** The frame update while paused or over *)

(** C8.  When the engine is over or paused, [update] returns at once: the
    engine (grid, piece, score, lines, level, drop interval and the three
    timestamps) is the one before the call, and no sound is played. *)
Theorem update_skipped_when_over_or_paused (self : GameLogic.t)
    (current_time : Z) (commands : GameLogic.Commands) (tetrimino_type : settings.Key) :
  GameLogic.game_over self = true \/ GameLogic.is_paused self = true ->
  GameLogic.update current_time commands tetrimino_type self = (Ok tt, self, []).
Proof.
  intros H. unfold GameLogic.update. run_method.
  destruct H as [-> | ->]; [reflexivity|].
  now rewrite orb_true_r.
Qed.

Lemma update_skipped_when_over_or_paused_witness :
  let paused :=
    GameLogic.set_is_paused true
      (engine two_full_rows (piece_at settings.T 3 4)) in
  GameLogic.update 5000 ["move_left"; "move_down"; "rotate"]%string settings.L paused
  = (Ok tt, paused, []).
Proof.
  intros paused.
  apply (update_skipped_when_over_or_paused paused 5000 _ settings.L).
  right. reflexivity.
Defined.

(** ** Clearing lines *)

Lemma full_spec (row : list Z) :
  full row = true <-> forall cell, In cell row -> cell <> 0.
Proof.
  unfold full. rewrite forallb_forall. split; intros H cell Hin.
  - apply H in Hin. now apply negb_true_iff, Z.eqb_neq in Hin.
  - apply negb_true_iff, Z.eqb_neq. now apply H.
Qed.

Lemma contains_zero_full (row : list Z) : Py.contains 0 row = negb (full row).
Proof.
  unfold Py.contains, full. induction row as [|cell rest IH]; simpl; [reflexivity|].
  rewrite IH, negb_andb, negb_involutive. now rewrite Z.eqb_sym.
Qed.

Lemma scan_rows_filter (rows : Grid) (cleared_lines : Z) (new_grid : Grid) :
  GameLogic.scan_rows rows cleared_lines new_grid
  = (cleared_lines + Z.of_nat (List.length (filter full rows)),
     new_grid ++ filter (fun row => negb (full row)) rows).
Proof.
  revert cleared_lines new_grid.
  induction rows as [|row rest IH]; intros cleared_lines new_grid; simpl.
  - now rewrite Z.add_0_r, app_nil_r.
  - rewrite contains_zero_full. destruct (full row); simpl; rewrite IH.
    + f_equal. lia.
    + now rewrite <- app_assoc.
Qed.

(** The whole effect of [clear_lines] on an engine that holds a break-line
    sound. *)
Lemma clear_lines_run (self : GameLogic.t) (sound : Sound) :
  GameLogic.break_line_sound self = Some sound ->
  let removed := List.length (filter full (GameLogic.grid self)) in
  GameLogic.clear_lines self
  = (Ok tt,
     GameLogic.set_score (GameLogic.score self + Z.of_nat removed ^ 2)
       (GameLogic.set_lines_cleared (GameLogic.lines_cleared self + Z.of_nat removed)
          (GameLogic.set_grid
             (repeat (repeat 0 (Z.to_nat settings.GRID_WIDTH)) removed
              ++ filter (fun row => negb (full row)) (GameLogic.grid self))
             self)),
     if (0 <? removed)%nat then [sound] else []).
Proof.
  intros Hsound removed. unfold GameLogic.clear_lines. run_method.
  rewrite scan_rows_filter. run_method. rewrite Z.add_0_l, Nat2Z.id. fold removed.
  destruct removed as [|n].
  - reflexivity.
  - change (Z.of_nat (S n) >? 0) with true. run_method.
    rewrite Hsound. reflexivity.
Qed.

(** Without a full row [clear_lines] plays nothing, whether or not the
    engine holds a sound. *)
Lemma clear_lines_none_full (self : GameLogic.t) :
  filter full (GameLogic.grid self) = [] ->
  GameLogic.clear_lines self
  = (Ok tt,
     GameLogic.set_score (GameLogic.score self + 0)
       (GameLogic.set_lines_cleared (GameLogic.lines_cleared self + 0)
          (GameLogic.set_grid (filter (fun row => negb (full row)) (GameLogic.grid self))
             self)),
     []).
Proof.
  intros Hnone. unfold GameLogic.clear_lines. run_method.
  rewrite scan_rows_filter. run_method. rewrite Hnone. reflexivity.
Qed.

(** On an engine without a break-line sound (the game muted) a pass that
    finds a full row raises before it assigns anything. *)
Lemma clear_lines_muted_raises (self : GameLogic.t) :
  GameLogic.break_line_sound self = None ->
  filter full (GameLogic.grid self) <> [] ->
  GameLogic.clear_lines self = (Raise AttributeError, self, []).
Proof.
  intros Hsound Hsome. unfold GameLogic.clear_lines. run_method.
  rewrite scan_rows_filter. run_method. rewrite Z.add_0_l.
  destruct (filter full (GameLogic.grid self)) as [|row rows]; [congruence|].
  change (Z.of_nat (List.length (row :: rows)) >? 0) with true. run_method.
  rewrite Hsound. reflexivity.
Qed.

(** C2.  [clear_lines] removes exactly the rows in which every cell is
    non-empty ([full]; see [full_spec]), keeps the other rows in their
    order, puts as many rows of [GRID_WIDTH] empty cells on top as it
    removed, and adds that number to [lines_cleared].  (The engine holds a
    break-line sound, or no row is full: a muted engine raises on a full
    row, see [clear_lines_muted_raises].) *)
Theorem clear_lines_removes_full_rows (self : GameLogic.t) :
  GameLogic.break_line_sound self <> None \/ filter full (GameLogic.grid self) = [] ->
  let removed := List.length (filter full (GameLogic.grid self)) in
  let after := GameLogic.clear_lines self in
  GameLogic.value after = Ok tt /\
  GameLogic.grid (GameLogic.state after)
  = repeat (repeat 0 (Z.to_nat settings.GRID_WIDTH)) removed
    ++ filter (fun row => negb (full row)) (GameLogic.grid self) /\
  GameLogic.lines_cleared (GameLogic.state after)
  = GameLogic.lines_cleared self + Z.of_nat removed.
Proof.
  intros H removed after. subst after removed.
  destruct (GameLogic.break_line_sound self) as [sound|] eqn:Hsound.
  - rewrite (clear_lines_run self sound Hsound). repeat split.
  - destruct H as [H|H]; [congruence|].
    rewrite (clear_lines_none_full self H), H. repeat split.
Qed.

Lemma clear_lines_removes_full_rows_witness :
  let self := engine two_full_rows (piece_at settings.T 0 4) in
  let after := GameLogic.clear_lines self in
  GameLogic.value after = Ok tt /\
  GameLogic.grid (GameLogic.state after)
  = empty_grid 19 10 ++ [[0; 0; 3; 0; 0; 0; 0; 0; 0; 0]] /\
  GameLogic.lines_cleared (GameLogic.state after) = 2.
Proof.
  apply (clear_lines_removes_full_rows (engine two_full_rows (piece_at settings.T 0 4))).
  left. discriminate.
Defined.

(** C6.  A pass of [clear_lines] adds the square of the number of rows it
    removed to the score: 1 for one row, 4 for two; a pass that removes no
    row adds nothing and plays no sound, and a pass that removes rows
    plays the break-line sound once.  (The engine holds a break-line
    sound, or no row is full.) *)
Theorem clear_lines_scores_square (self : GameLogic.t) :
  GameLogic.break_line_sound self <> None \/ filter full (GameLogic.grid self) = [] ->
  let removed := Z.of_nat (List.length (filter full (GameLogic.grid self))) in
  let after := GameLogic.clear_lines self in
  GameLogic.value after = Ok tt /\
  GameLogic.score (GameLogic.state after) = GameLogic.score self + removed ^ 2 /\
  (removed = 1 -> GameLogic.score (GameLogic.state after) = GameLogic.score self + 1) /\
  (removed = 2 -> GameLogic.score (GameLogic.state after) = GameLogic.score self + 4) /\
  (removed = 0 ->
   GameLogic.score (GameLogic.state after) = GameLogic.score self /\
   GameLogic.played after = []) /\
  (removed > 0 ->
   forall sound, GameLogic.break_line_sound self = Some sound ->
                 GameLogic.played after = [sound]).
Proof.
  intros H removed after. subst after.
  assert (Hrun :
    GameLogic.value (GameLogic.clear_lines self) = Ok tt /\
    GameLogic.score (GameLogic.state (GameLogic.clear_lines self))
    = GameLogic.score self + removed ^ 2 /\
    GameLogic.played (GameLogic.clear_lines self)
    = match GameLogic.break_line_sound self with
      | Some sound => if removed >? 0 then [sound] else []
      | None => []
      end).
  { subst removed.
    destruct (GameLogic.break_line_sound self) as [sound|] eqn:Hsound.
    - rewrite (clear_lines_run self sound Hsound).
      split; [reflexivity|]. split; [reflexivity|].
      unfold GameLogic.played. cbn [snd].
      destruct (List.length (filter full (GameLogic.grid self))); reflexivity.
    - destruct H as [H|H]; [congruence|].
      rewrite (clear_lines_none_full self H), H. repeat split. }
  destruct Hrun as (Hvalue & Hscore & Hplayed).
  split; [exact Hvalue|]. split; [exact Hscore|].
  rewrite Hscore, Hplayed.
  split; [intros ->; reflexivity|]. split; [intros ->; reflexivity|].
  split.
  - intros ->. split; [lia|]. now destruct (GameLogic.break_line_sound self).
  - intros Hpos sound ->.
    destruct (removed >? 0) eqn:E; [reflexivity|].
    rewrite Z.gtb_ltb in E. apply Z.ltb_ge in E. lia.
Qed.

Lemma clear_lines_scores_square_witness :
  let self := engine two_full_rows (piece_at settings.T 0 4) in
  let after := GameLogic.clear_lines self in
  GameLogic.value after = Ok tt /\
  GameLogic.score (GameLogic.state after) = 0 + 2 ^ 2 /\
  (2 = 1 -> GameLogic.score (GameLogic.state after) = 0 + 1) /\
  (2 = 2 -> GameLogic.score (GameLogic.state after) = 0 + 4) /\
  (2 = 0 ->
   GameLogic.score (GameLogic.state after) = 0 /\ GameLogic.played after = []) /\
  (2 > 0 ->
   forall sound,
     Some (SoundFile settings.BREAK_LINE_SOUND) = Some sound ->
     GameLogic.played after = [sound]).
Proof.
  apply (clear_lines_scores_square (engine two_full_rows (piece_at settings.T 0 4))).
  left. discriminate.
Defined.

(** ** The shape of the grid *)

Section KeepsGrid.

Context {A B : Type}.

Lemma keeps_ret (a : A) : keeps_grid_ok (GameLogic.ret a).
Proof. intros self H. exact H. Qed.

Lemma keeps_raise (e : exn) : keeps_grid_ok (@GameLogic.raise A e).
Proof. intros self H. exact H. Qed.

Lemma keeps_get (f : GameLogic.t -> A) : keeps_grid_ok (GameLogic.get f).
Proof. intros self H. exact H. Qed.

Lemma keeps_lift (r : result A) : keeps_grid_ok (GameLogic.lift r).
Proof. destruct r; intros self H; exact H. Qed.

Lemma keeps_bind (m : GameLogic.M A) (k : A -> GameLogic.M B) :
  keeps_grid_ok m -> (forall a, keeps_grid_ok (k a)) -> keeps_grid_ok (GameLogic.bind m k).
Proof.
  intros Hm Hk self H. specialize (Hm self H).
  unfold GameLogic.bind, GameLogic.state in *.
  destruct (m self) as [[[a|e] self1] played1]; cbn [fst snd] in *.
  - specialize (Hk a self1 Hm). unfold GameLogic.state in Hk.
    destruct (k a self1) as [[r self2] played2]. exact Hk.
  - exact Hm.
Qed.

End KeepsGrid.

Lemma keeps_play (sound : option Sound) : keeps_grid_ok (GameLogic.play sound).
Proof. destruct sound; intros self H; exact H. Qed.

Lemma keeps_assign (f : GameLogic.t -> GameLogic.t) :
  (forall self, GameLogic.grid (f self) = GameLogic.grid self) ->
  keeps_grid_ok (GameLogic.assign f).
Proof.
  intros Hf self H. unfold GameLogic.assign, GameLogic.state. cbn [fst snd].
  now rewrite Hf.
Qed.

Lemma keeps_when (b : bool) (m : GameLogic.M unit) :
  keeps_grid_ok m -> keeps_grid_ok (GameLogic.when b m).
Proof. destruct b; [trivial|]. intros _. apply keeps_ret. Qed.

#[local] Hint Resolve keeps_ret keeps_raise keeps_get keeps_lift keeps_play
  keeps_bind keeps_when keeps_assign : keeps.
#[local] Hint Extern 1 (keeps_grid_ok (if ?b then _ else _)) => destruct b : keeps.
#[local] Hint Extern 1 (GameLogic.grid _ = GameLogic.grid _) => reflexivity : keeps.

Lemma keeps_position0 : keeps_grid_ok GameLogic.position0.
Proof. apply keeps_get. Qed.

Lemma keeps_position1 : keeps_grid_ok GameLogic.position1.
Proof. apply keeps_get. Qed.

Lemma keeps_current_can_fit (row col : Z) : keeps_grid_ok (GameLogic.current_can_fit row col).
Proof. unfold GameLogic.current_can_fit. auto 60 with keeps nocore. Qed.

#[local] Hint Resolve keeps_position0 keeps_position1 keeps_current_can_fit : keeps.

Lemma keeps_toggle_pause : keeps_grid_ok GameLogic.toggle_pause.
Proof. unfold GameLogic.toggle_pause. auto 60 with keeps nocore. Qed.

Lemma keeps_new_tetrimino (tetrimino_type : settings.Key) :
  keeps_grid_ok (GameLogic.new_tetrimino tetrimino_type).
Proof. unfold GameLogic.new_tetrimino. auto 60 with keeps nocore. Qed.

Lemma keeps_update_level : keeps_grid_ok GameLogic.update_level.
Proof. unfold GameLogic.update_level, GameLogic.adjust_game_speed. auto 60 with keeps nocore. Qed.

#[local] Hint Resolve keeps_new_tetrimino keeps_update_level : keeps.

Lemma keeps_reset_game (tetrimino_type : settings.Key) :
  keeps_grid_ok (GameLogic.reset_game tetrimino_type).
Proof. unfold GameLogic.reset_game. auto 60 with keeps nocore. Qed.

Lemma keeps_check_game_over : keeps_grid_ok GameLogic.check_game_over.
Proof. unfold GameLogic.check_game_over. auto 60 with keeps nocore. Qed.

Lemma keeps_rotate_current (current_time : Z) :
  keeps_grid_ok (GameLogic.rotate_current current_time).
Proof.
  intros self H. unfold GameLogic.rotate_current, GameLogic.state.
  destruct (Tetrimino.rotate _ _ _ _ _ _) as [[r tetrimino] sounds]. exact H.
Qed.

#[local] Hint Resolve keeps_rotate_current : keeps.

Lemma keeps_handle_rotation (current_time : Z) (commands : GameLogic.Commands) :
  keeps_grid_ok (GameLogic.handle_rotation current_time commands).
Proof. unfold GameLogic.handle_rotation. auto 60 with keeps nocore. Qed.

Lemma keeps_handle_moves (current_time : Z) (commands : GameLogic.Commands) :
  keeps_grid_ok (GameLogic.handle_moves current_time commands).
Proof. unfold GameLogic.handle_moves. auto 60 with keeps nocore. Qed.

#[local] Hint Resolve keeps_handle_rotation keeps_handle_moves : keeps.

Lemma shapes_cells_ok (self : Tetrimino.t) (shape : settings.Matrix) :
  Tetrimino.get_current_shape self = Ok shape -> Forall (Forall cell_ok) shape.
Proof.
  unfold Tetrimino.get_current_shape.
  destruct (Py.getitem (Tetrimino.rotations self) (Tetrimino.rotation self))
    as [entry|e] eqn:E; [|discriminate].
  intros [= <-]. apply getitem_In in E. revert entry E.
  apply Forall_forall. unfold Tetrimino.rotations.
  destruct (Tetrimino.shape self); cbn;
    repeat constructor; unfold cell_ok; lia.
Qed.

Lemma keeps_write_cell (r c v : Z) :
  cell_ok v -> keeps_grid_ok (GameLogic.write_cell r c v).
Proof.
  intros Hv self [Hlen Hrows]. unfold GameLogic.write_cell. run_method.
  destruct (Py.getitem (GameLogic.grid self) r) as [line|e] eqn:Eline;
    run_method; [|now split].
  destruct (Py.setitem line c v) as [line'|e] eqn:Eset; run_method; [|now split].
  destruct (Py.setitem (GameLogic.grid self) r line') as [g'|e] eqn:Eg;
    run_method; [|now split].
  cbn [GameLogic.grid GameLogic.set_grid].
  rewrite Forall_forall in Hrows.
  destruct (Hrows line (getitem_In _ _ _ Eline)) as [Hw Hcells].
  split.
  - unfold Py.len in *. now rewrite (setitem_length _ _ _ _ Eg).
  - apply Forall_forall. intros row Hin.
    destruct (setitem_In _ _ _ _ _ Eg Hin) as [->|Hold]; [|now apply Hrows].
    split.
    + unfold Py.len in *. now rewrite (setitem_length _ _ _ _ Eset).
    + apply Forall_forall. intros cell Hcell.
      destruct (setitem_In _ _ _ _ _ Eset Hcell) as [->|Hold]; [exact Hv|].
      rewrite Forall_forall in Hcells. now apply Hcells.
Qed.

Lemma keeps_place_cells (row : list Z) :
  Forall cell_ok row -> forall i j, keeps_grid_ok (GameLogic.place_cells i j row).
Proof.
  induction 1 as [|cell rest Hcell Hrest IH]; intros i j; simpl.
  - apply keeps_ret.
  - apply keeps_bind; [|intros _; apply IH].
    apply keeps_when.
    apply keeps_bind; [apply keeps_get|intros r].
    apply keeps_bind; [apply keeps_get|intros c].
    now apply keeps_write_cell.
Qed.

Lemma keeps_place_rows (shape : settings.Matrix) :
  Forall (Forall cell_ok) shape -> forall i, keeps_grid_ok (GameLogic.place_rows i shape).
Proof.
  induction 1 as [|row rest Hrow Hrest IH]; intros i; simpl.
  - apply keeps_ret.
  - apply keeps_bind; [now apply keeps_place_cells|intros _; apply IH].
Qed.

Lemma keeps_bind_lift {A B : Type} (r : result A) (k : A -> GameLogic.M B) :
  (forall a, r = Ok a -> keeps_grid_ok (k a)) ->
  keeps_grid_ok (GameLogic.bind (GameLogic.lift r) k).
Proof.
  intros Hk. destruct r as [a|e].
  - intros self H. specialize (Hk a eq_refl self H).
    unfold GameLogic.bind, GameLogic.lift, GameLogic.ret, GameLogic.state in *.
    destruct (k a self) as [[r self2] played2]. exact Hk.
  - intros self H. exact H.
Qed.

Lemma keeps_place_tetrimino : keeps_grid_ok GameLogic.place_tetrimino.
Proof.
  unfold GameLogic.place_tetrimino.
  apply keeps_bind; [apply keeps_get|intros tetrimino].
  apply keeps_bind_lift. intros shape Hshape.
  apply keeps_place_rows. now apply (shapes_cells_ok tetrimino).
Qed.

Lemma filter_split_length {A : Type} (f : A -> bool) (l : list A) :
  (List.length (filter f l) + List.length (filter (fun x => negb (f x)) l))%nat
  = List.length l.
Proof.
  induction l as [|x l IH]; simpl; [reflexivity|].
  destruct (f x); simpl; lia.
Qed.

Lemma keeps_clear_lines : keeps_grid_ok GameLogic.clear_lines.
Proof.
  intros self [Hlen Hrows]. unfold GameLogic.clear_lines. run_method.
  rewrite scan_rows_filter. run_method. rewrite Z.add_0_l, Nat2Z.id.
  set (removed := List.length (filter full (GameLogic.grid self))).
  assert (Hnew :
    grid_ok (repeat (repeat 0 (Z.to_nat settings.GRID_WIDTH)) removed
             ++ filter (fun row => negb (full row)) (GameLogic.grid self))).
  { split.
    - unfold Py.len in *. rewrite length_app, repeat_length. subst removed.
      now rewrite filter_split_length.
    - apply Forall_app. split.
      + apply Forall_forall. intros row Hin. apply repeat_spec in Hin. subst row.
        split; [reflexivity|].
        apply Forall_forall. intros cell Hin. apply repeat_spec in Hin.
        subst cell. unfold cell_ok. lia.
      + apply Forall_forall. intros row Hin. apply filter_In in Hin as [Hin _].
        rewrite Forall_forall in Hrows. now apply Hrows. }
  destruct (Z.of_nat removed >? 0); run_method; [|exact Hnew].
  destruct (GameLogic.break_line_sound self); run_method; [exact Hnew|now split].
Qed.

#[local] Hint Resolve keeps_place_tetrimino keeps_clear_lines : keeps.

Lemma keeps_lock_and_respawn (tetrimino_type : settings.Key) :
  keeps_grid_ok (GameLogic.lock_and_respawn tetrimino_type).
Proof. unfold GameLogic.lock_and_respawn. auto 60 with keeps nocore. Qed.

#[local] Hint Resolve keeps_lock_and_respawn : keeps.

Lemma keeps_drop_tetrimino (tetrimino_type : settings.Key) :
  keeps_grid_ok (GameLogic.drop_tetrimino tetrimino_type).
Proof. unfold GameLogic.drop_tetrimino. auto 60 with keeps nocore. Qed.

#[local] Hint Resolve keeps_drop_tetrimino : keeps.

Lemma keeps_attempt_to_drop (current_time : Z) (tetrimino_type : settings.Key) :
  keeps_grid_ok (GameLogic.attempt_to_drop current_time tetrimino_type).
Proof. unfold GameLogic.attempt_to_drop. auto 60 with keeps nocore. Qed.

#[local] Hint Resolve keeps_attempt_to_drop : keeps.

Lemma keeps_update (current_time : Z) (commands : GameLogic.Commands)
    (tetrimino_type : settings.Key) :
  keeps_grid_ok (GameLogic.update current_time commands tetrimino_type).
Proof.
  unfold GameLogic.update, GameLogic.process_player_input,
    GameLogic.handle_automatic_drop.
  auto 60 with keeps nocore.
Qed.

Lemma empty_grid_ok :
  grid_ok (empty_grid (Z.to_nat settings.GRID_HEIGHT) (Z.to_nat settings.GRID_WIDTH)).
Proof.
  split; [reflexivity|]. unfold empty_grid.
  apply Forall_forall. intros row Hin. apply repeat_spec in Hin. subst row.
  split; [reflexivity|].
  apply Forall_forall. intros cell Hin. apply repeat_spec in Hin.
  subst cell. unfold cell_ok. lia.
Qed.

(** C10.  Locking a piece, clearing lines, a frame update and a reset
    (and the other methods of the engine) leave the grid at [GRID_HEIGHT]
    rows of [GRID_WIDTH] cells with every cell in 0..7, also when the
    method raises on the way. *)
Theorem engine_keeps_grid_shape (self : GameLogic.t) :
  grid_ok (GameLogic.grid self) ->
  grid_ok (GameLogic.grid (GameLogic.state (GameLogic.place_tetrimino self))) /\
  grid_ok (GameLogic.grid (GameLogic.state (GameLogic.clear_lines self))) /\
  (forall current_time commands tetrimino_type,
     grid_ok (GameLogic.grid (GameLogic.state
       (GameLogic.update current_time commands tetrimino_type self)))) /\
  (forall tetrimino_type,
     grid_ok (GameLogic.grid (GameLogic.state (GameLogic.reset_game tetrimino_type self)))) /\
  (forall current_time tetrimino_type,
     grid_ok (GameLogic.grid (GameLogic.state
       (GameLogic.attempt_to_drop current_time tetrimino_type self)))) /\
  grid_ok (GameLogic.grid (GameLogic.state (GameLogic.toggle_pause self))) /\
  grid_ok (GameLogic.grid (GameLogic.state (GameLogic.check_game_over self))).
Proof.
  intros H.
  split; [now apply keeps_place_tetrimino|].
  split; [now apply keeps_clear_lines|].
  split; [intros; now apply keeps_update|].
  split; [intros; now apply keeps_reset_game|].
  split; [intros; now apply keeps_attempt_to_drop|].
  split; [now apply keeps_toggle_pause|now apply keeps_check_game_over].
Qed.

Lemma engine_keeps_grid_shape_witness :
  let self := engine (empty_grid 20 10) (piece_at settings.L 18 0) in
  grid_ok (GameLogic.grid (GameLogic.state (GameLogic.place_tetrimino self))) /\
  grid_ok (GameLogic.grid (GameLogic.state (GameLogic.clear_lines self))) /\
  (forall current_time commands tetrimino_type,
     grid_ok (GameLogic.grid (GameLogic.state
       (GameLogic.update current_time commands tetrimino_type self)))) /\
  (forall tetrimino_type,
     grid_ok (GameLogic.grid (GameLogic.state (GameLogic.reset_game tetrimino_type self)))) /\
  (forall current_time tetrimino_type,
     grid_ok (GameLogic.grid (GameLogic.state
       (GameLogic.attempt_to_drop current_time tetrimino_type self)))) /\
  grid_ok (GameLogic.grid (GameLogic.state (GameLogic.toggle_pause self))) /\
  grid_ok (GameLogic.grid (GameLogic.state (GameLogic.check_game_over self))).
Proof.
  exact (engine_keeps_grid_shape
           (engine (empty_grid 20 10) (piece_at settings.L 18 0)) empty_grid_ok).
Defined.

(** ** Spawning *)

Lemma first_rotation (tetrimino_type : settings.Key) :
  exists shape colour,
    Py.getitem (Tetrimino.rotations (Tetrimino.__init__ tetrimino_type)) 0
    = Ok (shape, colour).
Proof. destruct tetrimino_type; eexists; eexists; reflexivity. Qed.

Lemma spawn_can_fit_returns (g : Grid) (tetrimino_type : settings.Key) :
  rectangular g ->
  exists fits,
    Tetrimino.can_fit g (Tetrimino.__init__ tetrimino_type) 0 4 None = Ok fits.
Proof.
  intros Hrect. destruct (first_rotation tetrimino_type) as (shape & colour & Hshape).
  destruct (can_fit_nonneg g Hrect (Tetrimino.__init__ tetrimino_type) 0 4 None
              shape colour ltac:(lia) Hshape) as (fits & Hfits & _).
  now exists fits.
Qed.

(** C9.  A spawn creates the piece at row 0, column 4, unrotated; on a
    rectangular grid [new_tetrimino] returns (it does not raise), and it
    assigns [game_over = True] exactly when the new piece does not fit
    there, so that on an engine that was not over the flag is set iff the
    piece does not fit.  At game start the constructor spawns a piece that
    fits and leaves [game_over] false. *)
Theorem spawn_sets_game_over_iff_no_fit (tetrimino_type : settings.Key) :
  (forall self : GameLogic.t,
     rectangular (GameLogic.grid self) ->
     exists fits,
       Tetrimino.can_fit (GameLogic.grid self) (Tetrimino.__init__ tetrimino_type) 0 4 None
       = Ok fits /\
       GameLogic.new_tetrimino tetrimino_type self
       = (Ok (Tetrimino.__init__ tetrimino_type),
          (if fits then self else GameLogic.set_game_over true self), []) /\
       Tetrimino.position (Tetrimino.__init__ tetrimino_type) = (0, 4) /\
       (GameLogic.game_over self = false ->
        (GameLogic.game_over (GameLogic.state (GameLogic.new_tetrimino tetrimino_type self))
         = true <-> fits = false))) /\
  (forall (break_line_sound rotate_sound : option Sound) (t1 t2 t3 : Z),
     exists self,
       GameLogic.__init__ break_line_sound rotate_sound tetrimino_type t1 t2 t3 = Ok self /\
       GameLogic.current_tetrimino self = Tetrimino.__init__ tetrimino_type /\
       Tetrimino.can_fit (GameLogic.grid self) (GameLogic.current_tetrimino self) 0 4 None
       = Ok true /\
       GameLogic.game_over self = false).
Proof.
  split.
  - intros self Hrect.
    destruct (spawn_can_fit_returns (GameLogic.grid self) tetrimino_type Hrect)
      as (fits & Hfits).
    exists fits. split; [exact Hfits|].
    assert (Hrun :
      GameLogic.new_tetrimino tetrimino_type self
      = (Ok (Tetrimino.__init__ tetrimino_type),
         (if fits then self else GameLogic.set_game_over true self), [])).
    { unfold GameLogic.new_tetrimino. run_method. rewrite Hfits.
      destruct fits; reflexivity. }
    split; [exact Hrun|]. split; [reflexivity|].
    intros Hover. rewrite Hrun. unfold GameLogic.state. cbn [fst snd].
    destruct fits; cbn [GameLogic.game_over GameLogic.set_game_over].
    + rewrite Hover. split; discriminate.
    + split; reflexivity.
  - intros break_line_sound rotate_sound t1 t2 t3.
    destruct tetrimino_type; eexists; (split; [reflexivity|]); repeat split.
Qed.

Lemma spawn_sets_game_over_iff_no_fit_witness :
  let self := engine blocked_spawn_grid (piece_at settings.O 5 2) in
  exists fits,
    Tetrimino.can_fit (GameLogic.grid self) (Tetrimino.__init__ settings.I) 0 4 None
    = Ok fits /\
    GameLogic.new_tetrimino settings.I self
    = (Ok (Tetrimino.__init__ settings.I),
       (if fits then self else GameLogic.set_game_over true self), []) /\
    Tetrimino.position (Tetrimino.__init__ settings.I) = (0, 4) /\
    (GameLogic.game_over self = false ->
     (GameLogic.game_over (GameLogic.state (GameLogic.new_tetrimino settings.I self))
      = true <-> fits = false)).
Proof.
  apply (proj1 (spawn_sets_game_over_iff_no_fit settings.I)
           (engine blocked_spawn_grid (piece_at settings.O 5 2))).
  exists 10%nat. unfold blocked_spawn_grid, empty_grid, engine; simpl.
  repeat constructor.
Defined.

(** ** The drop step *)




(** ** Reset *)

(** What [reset_game] does on a rectangular grid: score, lines, level,
    piece and the two flags are assigned; nothing else is. *)
Lemma reset_game_run (self : GameLogic.t) (tetrimino_type : settings.Key) :
  rectangular (GameLogic.grid self) ->
  GameLogic.reset_game tetrimino_type self
  = (Ok tt,
     GameLogic.set_is_paused false
       (GameLogic.set_game_over false
          (GameLogic.set_current_tetrimino (Tetrimino.__init__ tetrimino_type)
             (GameLogic.set_level 1
                (GameLogic.set_lines_cleared 0 (GameLogic.set_score 0 self))))),
     []).
Proof.
  intros Hrect.
  destruct (spawn_can_fit_returns (GameLogic.grid self) tetrimino_type Hrect)
    as (fits & Hfits).
  unfold GameLogic.reset_game, GameLogic.new_tetrimino. run_method.
  cbn [GameLogic.grid GameLogic.set_level GameLogic.set_lines_cleared GameLogic.set_score].
  rewrite Hfits. destruct fits; reflexivity.
Qed.

(** [reset_game] leaves the grid, the drop interval and the three
    timestamps as they were. *)
Lemma reset_game_frame (self : GameLogic.t) (tetrimino_type : settings.Key) :
  rectangular (GameLogic.grid self) ->
  let after := GameLogic.state (GameLogic.reset_game tetrimino_type self) in
  GameLogic.grid after = GameLogic.grid self /\
  GameLogic.drop_speed after = GameLogic.drop_speed self /\
  GameLogic.last_drop_time after = GameLogic.last_drop_time self /\
  GameLogic.last_move_time after = GameLogic.last_move_time self /\
  GameLogic.last_rotation_time after = GameLogic.last_rotation_time self.
Proof.
  intros Hrect after. subst after. rewrite (reset_game_run _ _ Hrect).
  repeat split.
Qed.

(** C4, on an engine in the middle of a game.  [reset_game] returns with
    score 0, no lines, level 1 and both flags false, but the grid still
    holds the four cells of its bottom row, the drop interval is still 990
    (the constructor sets 1000) and the three timestamps are unchanged. *)
Theorem reset_game_keeps_grid_and_drop_speed :
  let after := GameLogic.state (GameLogic.reset_game settings.L mid_game) in
  GameLogic.value (GameLogic.reset_game settings.L mid_game) = Ok tt /\
  GameLogic.score after = 0 /\
  GameLogic.lines_cleared after = 0 /\
  GameLogic.level after = 1 /\
  GameLogic.game_over after = false /\
  GameLogic.is_paused after = false /\
  GameLogic.grid after = empty_grid 19 10 ++ [[1; 1; 1; 1; 0; 0; 0; 0; 0; 0]] /\
  GameLogic.grid after <> empty_grid 20 10 /\
  GameLogic.drop_speed after = 990 /\
  GameLogic.last_drop_time after = 7000 /\
  GameLogic.last_move_time after = 6900 /\
  GameLogic.last_rotation_time after = 6400.
Proof.
  cbv zeta. repeat split; try reflexivity.
  vm_compute. discriminate.
Qed.

(** ** Level and drop interval *)

(** [update_level] brings the level to [1 + lines_cleared // 10] when it
    was not above it. *)
Lemma update_level_level (self : GameLogic.t) :
  GameLogic.level self <= 1 + GameLogic.lines_cleared self / settings.LEVEL_CHANGE_LINES ->
  let after := GameLogic.state (GameLogic.update_level self) in
  GameLogic.lines_cleared after = GameLogic.lines_cleared self /\
  GameLogic.level after
  = 1 + GameLogic.lines_cleared after / settings.LEVEL_CHANGE_LINES.
Proof.
  intros Hle after. subst after.
  unfold GameLogic.update_level, GameLogic.adjust_game_speed. run_method.
  destruct (1 + GameLogic.lines_cleared self / settings.LEVEL_CHANGE_LINES
            >? GameLogic.level self) eqn:E; run_method.
  - split; reflexivity.
  - split; [reflexivity|]. rewrite Z.gtb_ltb in E. apply Z.ltb_ge in E. lia.
Qed.

(** [update_level] never lengthens the drop interval and keeps it at or
    above 100 ms; when the level rises the new interval is
    [max(100, drop_speed - LEVEL_SPEED_INCREMENT * (level - 1))]. *)
Lemma update_level_drop_speed (self : GameLogic.t) :
  100 <= GameLogic.drop_speed self ->
  1 <= GameLogic.level self ->
  let after := GameLogic.state (GameLogic.update_level self) in
  100 <= GameLogic.drop_speed after <= GameLogic.drop_speed self /\
  1 <= GameLogic.level after /\
  (GameLogic.level self < GameLogic.level after ->
   GameLogic.drop_speed after
   = Z.max 100 (GameLogic.drop_speed self
                - settings.LEVEL_SPEED_INCREMENT * (GameLogic.level after - 1))).
Proof.
  intros Hspeed Hlevel after. subst after.
  unfold GameLogic.update_level, GameLogic.adjust_game_speed. run_method.
  destruct (1 + GameLogic.lines_cleared self / settings.LEVEL_CHANGE_LINES
            >? GameLogic.level self) eqn:E; run_method.
  - cbn [GameLogic.drop_speed GameLogic.level GameLogic.set_drop_speed GameLogic.set_level].
    rewrite Z.gtb_ltb in E. apply Z.ltb_lt in E.
    unfold settings.LEVEL_SPEED_INCREMENT in *.
    split; [lia|]. split; [lia|]. intros _. reflexivity.
  - split; [lia|]. split; [lia|]. lia.
Qed.

(** C7, on the lock that [attempt_to_drop] performs itself.  The I piece
    of [well_game] fits at the spawn position and cannot move down; the
    frame update locks it there and clears four lines, which makes ten,
    and the level stays 1 where [1 + 10 // 10 = 2]: this path does not
    call [update_level]. *)
Theorem update_lock_at_spawn_leaves_level_stale :
  let before := well_game in
  let after := GameLogic.state (GameLogic.update 2000 [] settings.O before) in
  GameLogic.level before
  = 1 + GameLogic.lines_cleared before / settings.LEVEL_CHANGE_LINES /\
  GameLogic.value (GameLogic.update 2000 [] settings.O before) = Ok tt /\
  GameLogic.lines_cleared after = 10 /\
  GameLogic.level after = 1 /\
  GameLogic.level after
  <> 1 + GameLogic.lines_cleared after / settings.LEVEL_CHANGE_LINES /\
  GameLogic.drop_speed after = 1000.
Proof.
  cbv zeta. repeat split; try reflexivity.
  vm_compute. discriminate.
Qed.

(** * Further properties of the code *)

(** ** The shape table *)

(** Every rotation state of every shape has exactly four filled cells,
    all carrying the shape's fill id, and is tagged with the shape's
    colour; its rows have one length, and its first row and first column
    hold a filled cell (the matrix is the piece's bounding box). *)
Theorem rotations_are_tetrominoes (key : settings.Key)
    (shape : settings.Matrix) (colour : settings.Color) :
  In (shape, colour) (settings.rotations (settings.TETRIMINOS key)) ->
  filled_values shape = repeat (fill_id key) 4 /\
  colour = settings.color (settings.TETRIMINOS key) /\
  rectangular shape /\
  (exists j, filled shape 0 j) /\
  (exists i, filled shape i 0).
Proof.
  intros Hin.
  destruct key; cbn in Hin;
    repeat (destruct Hin as [Hin|Hin]; [injection Hin as <- <-|]);
    try contradiction;
    (split; [reflexivity|]); (split; [reflexivity|]);
    (split; [eexists; repeat constructor|]);
    (split;
     [ first [ solve [exists 0%nat; eexists; eexists; repeat split; try reflexivity; lia]
             | solve [exists 1%nat; eexists; eexists; repeat split; try reflexivity; lia]
             | solve [exists 2%nat; eexists; eexists; repeat split; try reflexivity; lia] ]
     | first [ solve [exists 0%nat; eexists; eexists; repeat split; try reflexivity; lia]
             | solve [exists 1%nat; eexists; eexists; repeat split; try reflexivity; lia]
             | solve [exists 2%nat; eexists; eexists; repeat split; try reflexivity; lia] ] ]).
Qed.

Lemma rotations_are_tetrominoes_witness :
  filled_values [[0; 4; 4]; [4; 4; 0]] = repeat (fill_id settings.S) 4 /\
  settings.GREEN = settings.color (settings.TETRIMINOS settings.S) /\
  rectangular [[0; 4; 4]; [4; 4; 0]] /\
  (exists j, filled [[0; 4; 4]; [4; 4; 0]] 0 j) /\
  (exists i, filled [[0; 4; 4]; [4; 4; 0]] i 0).
Proof.
  apply (rotations_are_tetrominoes settings.S [[0; 4; 4]; [4; 4; 0]] settings.GREEN).
  left. reflexivity.
Defined.

(** The fill ids of the seven shapes are the values 1..7, one each. *)
Lemma fill_id_range (key : settings.Key) : 1 <= fill_id key <= 7.
Proof. destruct key; cbn; lia. Qed.

Lemma fill_id_injective (key key' : settings.Key) :
  fill_id key = fill_id key' -> key = key'.
Proof. destruct key, key'; cbn; intros H; try reflexivity; discriminate. Qed.

(** ** The colours on screen *)

(** [render] finds a colour for every cell value 1..7, so it draws every
    locked cell and every cell of the active piece without an
    [IndexError]; but the colour it draws the cells of a shape with is the
    colour [TETRIMINOS] gives that shape only for the I piece: [COLORS] is
    ordered I, J, L, O, S, Z, T and indexed by fill ids ordered I, O, T, S,
    Z, J, L. *)
Theorem cell_color_is_shape_color_only_for_I (key : settings.Key) :
  exists colour,
    Display.cell_color (fill_id key) = Ok colour /\
    (colour = settings.color (settings.TETRIMINOS key) <-> key = settings.I).
Proof.
  destruct key; eexists; (split; [reflexivity|]); cbn;
    split; try reflexivity; intros H; discriminate.
Qed.

(** ** Pause *)

(** Pausing and resuming is a round trip: [toggle_pause] on a running
    engine returns [True], every frame update in between leaves the paused
    engine as it is (timestamps included), and the second [toggle_pause]
    returns [False] and gives back the engine from before the pause. *)
Theorem pause_then_resume_restores_engine (self : GameLogic.t) (current_time : Z)
    (commands : GameLogic.Commands) (tetrimino_type : settings.Key) :
  GameLogic.is_paused self = false ->
  let paused := GameLogic.set_is_paused true self in
  GameLogic.toggle_pause self = (Ok true, paused, []) /\
  GameLogic.update current_time commands tetrimino_type paused = (Ok tt, paused, []) /\
  GameLogic.toggle_pause paused = (Ok false, self, []).
Proof.
  intros Hrun paused. subst paused.
  destruct self; cbn in Hrun; subst.
  split; [reflexivity|]. split; [|reflexivity].
  unfold GameLogic.update. run_method. cbn. now rewrite orb_true_r.
Qed.

Lemma pause_then_resume_restores_engine_witness :
  let self := mid_game in
  let paused := GameLogic.set_is_paused true self in
  GameLogic.toggle_pause self = (Ok true, paused, []) /\
  GameLogic.update 9000 ["move_down"%string] settings.J paused = (Ok tt, paused, []) /\
  GameLogic.toggle_pause paused = (Ok false, self, []).
Proof.
  apply (pause_then_resume_restores_engine mid_game 9000 ["move_down"%string] settings.J).
  reflexivity.
Defined.

(** ** Clearing lines, again *)

Lemma filter_all {A : Type} (f : A -> bool) (l : list A) :
  (forall x, In x l -> f x = true) -> filter f l = l.
Proof.
  induction l as [|x l IH]; intros H; simpl; [reflexivity|].
  rewrite (H x (or_introl eq_refl)). f_equal. apply IH.
  intros y Hy. apply H. now right.
Qed.

Lemma filter_none {A : Type} (f : A -> bool) (l : list A) :
  (forall x, In x l -> f x = false) -> filter f l = [].
Proof.
  induction l as [|x l IH]; intros H; simpl; [reflexivity|].
  rewrite (H x (or_introl eq_refl)). apply IH.
  intros y Hy. apply H. now right.
Qed.

(** The grid a pass of [clear_lines] builds has no full row. *)
Lemma cleared_grid_has_no_full_row (g : Grid) (removed : nat) (row : list Z) :
  In row (repeat (repeat 0 (Z.to_nat settings.GRID_WIDTH)) removed
          ++ filter (fun row => negb (full row)) g) ->
  full row = false.
Proof.
  intros Hin. apply in_app_or in Hin as [Hin|Hin].
  - apply repeat_spec in Hin. subst row. reflexivity.
  - apply filter_In in Hin as [_ Hin]. now apply negb_true_iff.
Qed.

Lemma assign_same_fields (self : GameLogic.t) :
  GameLogic.set_score (GameLogic.score self)
    (GameLogic.set_lines_cleared (GameLogic.lines_cleared self)
       (GameLogic.set_grid (GameLogic.grid self) self))
  = self.
Proof. destruct self; reflexivity. Qed.

(** A second pass of [clear_lines] right after a first one clears
    nothing: it returns with the engine (grid, score, lines) as the first
    pass left it and plays no sound. *)
Theorem clear_lines_twice_clears_nothing (self : GameLogic.t) :
  GameLogic.break_line_sound self <> None \/ filter full (GameLogic.grid self) = [] ->
  let once := GameLogic.state (GameLogic.clear_lines self) in
  GameLogic.value (GameLogic.clear_lines self) = Ok tt /\
  GameLogic.clear_lines once = (Ok tt, once, []).
Proof.
  intros H once.
  assert (Hgrid : exists removed,
    GameLogic.value (GameLogic.clear_lines self) = Ok tt /\
    GameLogic.grid once
    = repeat (repeat 0 (Z.to_nat settings.GRID_WIDTH)) removed
      ++ filter (fun row => negb (full row)) (GameLogic.grid self)).
  { subst once.
    destruct (GameLogic.break_line_sound self) as [sound|] eqn:Hsound.
    - rewrite (clear_lines_run self sound Hsound). eexists. split; reflexivity.
    - destruct H as [H|H]; [congruence|].
      rewrite (clear_lines_none_full self H). exists 0%nat. split; reflexivity. }
  destruct Hgrid as (removed & Hvalue & Hgrid). split; [exact Hvalue|].
  assert (Hnone : filter full (GameLogic.grid once) = []).
  { apply filter_none. intros row Hin. rewrite Hgrid in Hin.
    now apply cleared_grid_has_no_full_row in Hin. }
  assert (Hall : filter (fun row => negb (full row)) (GameLogic.grid once)
                 = GameLogic.grid once).
  { apply filter_all. intros row Hin. rewrite Hgrid in Hin.
    apply cleared_grid_has_no_full_row in Hin. now rewrite Hin. }
  rewrite (clear_lines_none_full once Hnone), Hall, !Z.add_0_r.
  now rewrite assign_same_fields.
Qed.

Lemma clear_lines_twice_clears_nothing_witness :
  let once :=
    GameLogic.state
      (GameLogic.clear_lines (engine two_full_rows (piece_at settings.T 0 4))) in
  GameLogic.value
    (GameLogic.clear_lines (engine two_full_rows (piece_at settings.T 0 4))) = Ok tt /\
  GameLogic.clear_lines once = (Ok tt, once, []).
Proof.
  apply (clear_lines_twice_clears_nothing (engine two_full_rows (piece_at settings.T 0 4))).
  left. discriminate.
Defined.

(** A muted engine (no break-line sound) cannot clear a line: the pass
    raises [AttributeError] at [break_line_sound.play()] and leaves the
    engine as it was, full rows included. *)
Theorem clear_lines_raises_when_muted (self : GameLogic.t) :
  GameLogic.break_line_sound self = None ->
  filter full (GameLogic.grid self) <> [] ->
  GameLogic.clear_lines self = (Raise AttributeError, self, []).
Proof. exact (clear_lines_muted_raises self). Qed.

Lemma clear_lines_raises_when_muted_witness :
  let muted :=
    {| GameLogic.rotate_sound := None;
       GameLogic.break_line_sound := None;
       GameLogic.grid := two_full_rows;
       GameLogic.score := 0;
       GameLogic.lines_cleared := 0;
       GameLogic.level := 1;
       GameLogic.current_tetrimino := Tetrimino.__init__ settings.O;
       GameLogic.game_over := false;
       GameLogic.is_paused := false;
       GameLogic.drop_speed := 1000;
       GameLogic.soft_drop_speed := 50;
       GameLogic.move_speed := 100;
       GameLogic.rotation_delay := 200;
       GameLogic.last_drop_time := 0;
       GameLogic.last_move_time := 0;
       GameLogic.last_rotation_time := 0 |} in
  GameLogic.clear_lines muted = (Raise AttributeError, muted, []).
Proof.
  intros muted. apply (clear_lines_raises_when_muted muted).
  - reflexivity.
  - vm_compute. discriminate.
Defined.

(** ** Game-over poll *)

(** [check_game_over] tries the spawn position (0, 4) with the piece's
    current rotation: where the piece actually is plays no part in the
    verdict. *)
Theorem check_game_over_ignores_position (self : GameLogic.t) (p : Z * Z) :
  let moved :=
    GameLogic.set_current_tetrimino
      (Tetrimino.set_position (GameLogic.current_tetrimino self) p) self in
  GameLogic.value (GameLogic.check_game_over moved)
  = GameLogic.value (GameLogic.check_game_over self) /\
  GameLogic.game_over (GameLogic.state (GameLogic.check_game_over moved))
  = GameLogic.game_over (GameLogic.state (GameLogic.check_game_over self)).
Proof.
  intros moved. subst moved.
  unfold GameLogic.check_game_over, GameLogic.current_can_fit. run_method.
  cbn [GameLogic.current_tetrimino GameLogic.grid GameLogic.set_current_tetrimino].
  change (Tetrimino.can_fit (GameLogic.grid self)
            (Tetrimino.set_position (GameLogic.current_tetrimino self) p) 0 4 None)
    with (Tetrimino.can_fit (GameLogic.grid self) (GameLogic.current_tetrimino self) 0 4 None).
  destruct (Tetrimino.can_fit (GameLogic.grid self) (GameLogic.current_tetrimino self)
              0 4 None) as [[|]|e]; run_method; split; reflexivity.
Qed.

(** ** What a frame update cannot undo *)

Section Preserves.

Variable P : GameLogic.t -> Prop.

Lemma preserves_ret {A : Type} (a : A) : preserves P (GameLogic.ret a).
Proof. intros self H. exact H. Qed.

Lemma preserves_raise {A : Type} (e : exn) : preserves P (@GameLogic.raise A e).
Proof. intros self H. exact H. Qed.

Lemma preserves_get {A : Type} (f : GameLogic.t -> A) : preserves P (GameLogic.get f).
Proof. intros self H. exact H. Qed.

Lemma preserves_lift {A : Type} (r : result A) : preserves P (GameLogic.lift r).
Proof. destruct r; intros self H; exact H. Qed.

Lemma preserves_play (sound : option Sound) : preserves P (GameLogic.play sound).
Proof. destruct sound; intros self H; exact H. Qed.

Lemma preserves_bind {A B : Type} (m : GameLogic.M A) (k : A -> GameLogic.M B) :
  preserves P m -> (forall a, preserves P (k a)) -> preserves P (GameLogic.bind m k).
Proof.
  intros Hm Hk self H. specialize (Hm self H).
  unfold GameLogic.bind, GameLogic.state in *.
  destruct (m self) as [[[a|e] self1] played1]; cbn [fst snd] in *.
  - specialize (Hk a self1 Hm). unfold GameLogic.state in Hk.
    destruct (k a self1) as [[r self2] played2]. exact Hk.
  - exact Hm.
Qed.

Lemma preserves_when (b : bool) (m : GameLogic.M unit) :
  preserves P m -> preserves P (GameLogic.when b m).
Proof. destruct b; [trivial|]. intros _. apply preserves_ret. Qed.

Lemma preserves_assign (f : GameLogic.t -> GameLogic.t) :
  (forall self, P self -> P (f self)) -> preserves P (GameLogic.assign f).
Proof. intros Hf self H. now apply Hf. Qed.

End Preserves.

#[local] Hint Resolve preserves_ret preserves_raise preserves_get preserves_lift
  preserves_play preserves_bind preserves_when preserves_assign : preserves.
#[local] Hint Extern 1 (preserves _ (if ?b then _ else _)) => destruct b : preserves.
#[local] Hint Extern 1 (preserves _ GameLogic.position0) => apply preserves_get : preserves.
#[local] Hint Extern 1 (preserves _ GameLogic.position1) => apply preserves_get : preserves.

(** Properties of the engine that do not depend on the grid, the piece,
    the game-over flag or the timestamps, and that [clear_lines] and
    [update_level] keep, are kept by a whole frame update. *)
Section Insensitive.

Variable P : GameLogic.t -> Prop.
Hypothesis P_grid : forall v self, P self -> P (GameLogic.set_grid v self).
Hypothesis P_piece : forall v self, P self -> P (GameLogic.set_current_tetrimino v self).
Hypothesis P_over : forall v self, P self -> P (GameLogic.set_game_over v self).
Hypothesis P_drop_time : forall v self, P self -> P (GameLogic.set_last_drop_time v self).
Hypothesis P_move_time : forall v self, P self -> P (GameLogic.set_last_move_time v self).
Hypothesis P_rotation_time :
  forall v self, P self -> P (GameLogic.set_last_rotation_time v self).
Hypothesis P_clear_lines : preserves P GameLogic.clear_lines.
Hypothesis P_update_level : preserves P GameLogic.update_level.

#[local] Hint Extern 2 (P (GameLogic.add_position0 _ _)) =>
  unfold GameLogic.add_position0 : preserves.
#[local] Hint Extern 2 (P (GameLogic.add_position1 _ _)) =>
  unfold GameLogic.add_position1 : preserves.

Lemma preserves_current_can_fit (row col : Z) :
  preserves P (GameLogic.current_can_fit row col).
Proof. unfold GameLogic.current_can_fit. auto 20 with preserves nocore. Qed.

Lemma preserves_write_cell (r c v : Z) : preserves P (GameLogic.write_cell r c v).
Proof. unfold GameLogic.write_cell. auto 20 with preserves nocore. Qed.

Lemma preserves_place_cells (row : list Z) (i j : Z) :
  preserves P (GameLogic.place_cells i j row).
Proof.
  revert j. induction row as [|cell rest IH]; intros j; simpl.
  - apply preserves_ret.
  - pose proof preserves_write_cell. auto 20 with preserves nocore.
Qed.

Lemma preserves_place_rows (shape : settings.Matrix) (i : Z) :
  preserves P (GameLogic.place_rows i shape).
Proof.
  revert i. induction shape as [|row rest IH]; intros i; simpl.
  - apply preserves_ret.
  - pose proof preserves_place_cells. auto 20 with preserves nocore.
Qed.

Lemma preserves_place_tetrimino : preserves P GameLogic.place_tetrimino.
Proof.
  unfold GameLogic.place_tetrimino. pose proof preserves_place_rows.
  auto 20 with preserves nocore.
Qed.

Lemma preserves_new_tetrimino (tetrimino_type : settings.Key) :
  preserves P (GameLogic.new_tetrimino tetrimino_type).
Proof. unfold GameLogic.new_tetrimino. auto 20 with preserves nocore. Qed.

Lemma preserves_lock_and_respawn (tetrimino_type : settings.Key) :
  preserves P (GameLogic.lock_and_respawn tetrimino_type).
Proof.
  unfold GameLogic.lock_and_respawn.
  pose proof preserves_place_tetrimino. pose proof preserves_new_tetrimino.
  pose proof preserves_current_can_fit.
  auto 40 with preserves nocore.
Qed.

Lemma preserves_drop_tetrimino (tetrimino_type : settings.Key) :
  preserves P (GameLogic.drop_tetrimino tetrimino_type).
Proof.
  unfold GameLogic.drop_tetrimino.
  pose proof preserves_lock_and_respawn. pose proof preserves_current_can_fit.
  auto 40 with preserves nocore.
Qed.

Lemma preserves_attempt_to_drop (current_time : Z) (tetrimino_type : settings.Key) :
  preserves P (GameLogic.attempt_to_drop current_time tetrimino_type).
Proof.
  unfold GameLogic.attempt_to_drop.
  pose proof preserves_drop_tetrimino. pose proof preserves_place_tetrimino.
  pose proof preserves_new_tetrimino.
  auto 40 with preserves nocore.
Qed.

Lemma preserves_rotate_current (current_time : Z) :
  preserves P (GameLogic.rotate_current current_time).
Proof.
  intros self H. unfold GameLogic.rotate_current, GameLogic.state.
  destruct (Tetrimino.rotate _ _ _ _ _ _) as [[r tetrimino] sounds].
  cbn [fst snd]. now apply P_piece.
Qed.

Lemma preserves_process_player_input (current_time : Z) (commands : GameLogic.Commands) :
  preserves P (GameLogic.process_player_input current_time commands).
Proof.
  unfold GameLogic.process_player_input, GameLogic.handle_moves, GameLogic.handle_rotation.
  pose proof preserves_rotate_current. pose proof preserves_current_can_fit.
  auto 40 with preserves nocore.
Qed.

Lemma preserves_update (current_time : Z) (commands : GameLogic.Commands)
    (tetrimino_type : settings.Key) :
  preserves P (GameLogic.update current_time commands tetrimino_type).
Proof.
  unfold GameLogic.update, GameLogic.handle_automatic_drop.
  pose proof preserves_process_player_input. pose proof preserves_attempt_to_drop.
  auto 40 with preserves nocore.
Qed.

End Insensitive.

Lemma clear_lines_state (self : GameLogic.t) :
  GameLogic.state (GameLogic.clear_lines self) = self \/
  exists (removed : nat) (g : Grid),
    GameLogic.state (GameLogic.clear_lines self)
    = GameLogic.set_score (GameLogic.score self + Z.of_nat removed ^ 2)
        (GameLogic.set_lines_cleared (GameLogic.lines_cleared self + Z.of_nat removed)
           (GameLogic.set_grid g self)).
Proof.
  unfold GameLogic.clear_lines. run_method.
  rewrite scan_rows_filter. run_method. rewrite Z.add_0_l.
  destruct (Z.of_nat (List.length (filter full (GameLogic.grid self))) >? 0); run_method.
  - destruct (GameLogic.break_line_sound self); run_method.
    + right. eexists. eexists. reflexivity.
    + now left.
  - right. eexists. eexists. reflexivity.
Qed.

Lemma never_regressed_clear_lines (start : GameLogic.t) :
  preserves (never_regressed start) GameLogic.clear_lines.
Proof.
  intros self H.
  destruct (clear_lines_state self) as [->|(removed & g & ->)]; [exact H|].
  unfold never_regressed in *.
  cbn [GameLogic.score GameLogic.lines_cleared GameLogic.level GameLogic.drop_speed
       GameLogic.soft_drop_speed GameLogic.move_speed GameLogic.rotation_delay
       GameLogic.rotate_sound GameLogic.break_line_sound
       GameLogic.set_score GameLogic.set_lines_cleared GameLogic.set_grid].
  destruct H as (H1 & H2 & H3 & H4 & H5 & H6).
  repeat split; try tauto; try nia.
  etransitivity; [exact H5|].
  apply Z.add_le_mono_l. apply Z.div_le_mono; [reflexivity|lia].
Qed.

Lemma never_regressed_update_level (start : GameLogic.t) :
  1 <= GameLogic.level start ->
  preserves (never_regressed start) GameLogic.update_level.
Proof.
  intros Hstart self H.
  unfold GameLogic.update_level, GameLogic.adjust_game_speed. run_method.
  destruct (1 + GameLogic.lines_cleared self / settings.LEVEL_CHANGE_LINES
            >? GameLogic.level self) eqn:E; run_method; [|exact H].
  rewrite Z.gtb_ltb in E. apply Z.ltb_lt in E.
  unfold never_regressed in *.
  cbn [GameLogic.score GameLogic.lines_cleared GameLogic.level GameLogic.drop_speed
       GameLogic.soft_drop_speed GameLogic.move_speed GameLogic.rotation_delay
       GameLogic.rotate_sound GameLogic.break_line_sound
       GameLogic.set_level GameLogic.set_drop_speed].
  unfold settings.LEVEL_SPEED_INCREMENT.
  destruct H as (H1 & H2 & H3 & H4 & H5 & H6).
  repeat split; try tauto; lia.
Qed.

(** A frame update, whether it returns or raises, never lowers the score,
    the lines cleared or the level, never lengthens the drop interval nor
    takes it below 100 ms, never puts the level ahead of
    [1 + lines_cleared // LEVEL_CHANGE_LINES], and never touches the soft
    drop interval, the move interval, the rotation delay or the sounds. *)
Theorem update_never_regresses (start : GameLogic.t) (current_time : Z)
    (commands : GameLogic.Commands) (tetrimino_type : settings.Key) :
  1 <= GameLogic.level start ->
  100 <= GameLogic.drop_speed start ->
  GameLogic.level start
  <= 1 + GameLogic.lines_cleared start / settings.LEVEL_CHANGE_LINES ->
  never_regressed start
    (GameLogic.state (GameLogic.update current_time commands tetrimino_type start)).
Proof.
  intros Hlevel Hspeed Hlines.
  apply (preserves_update (never_regressed start)); try (intros v self H; exact H).
  - apply never_regressed_clear_lines.
  - now apply never_regressed_update_level.
  - unfold never_regressed. repeat split; try reflexivity; lia.
Qed.

Lemma update_never_regresses_witness :
  never_regressed well_game
    (GameLogic.state (GameLogic.update 2000 [] settings.O well_game)).
Proof.
  apply (update_never_regresses well_game 2000 [] settings.O).
  - vm_compute. discriminate.
  - vm_compute. discriminate.
  - vm_compute. discriminate.
Defined.

(** ** Between ticks *)

Lemma assign_same_piece_and_rotation_time (self : GameLogic.t) :
  GameLogic.set_last_rotation_time (GameLogic.last_rotation_time self)
    (GameLogic.set_current_tetrimino (GameLogic.current_tetrimino self) self)
  = self.
Proof. destruct self; reflexivity. Qed.

(** A frame that comes before any of the three intervals has elapsed
    does nothing: with the move interval and the applicable drop interval
    (the soft one when [move_down] is held) not exceeded, and [rotate] not
    held or the rotation delay not exceeded, [update] returns with the
    engine as it was and plays no sound. *)
Theorem update_idle_between_ticks (self : GameLogic.t) (current_time : Z)
    (commands : GameLogic.Commands) (tetrimino_type : settings.Key) :
  current_time - GameLogic.last_move_time self <= GameLogic.move_speed self ->
  (GameLogic.has "rotate" commands = false \/
   current_time - GameLogic.last_rotation_time self <= GameLogic.rotation_delay self) ->
  current_time - GameLogic.last_drop_time self
  <= (if GameLogic.has "move_down" commands
      then GameLogic.soft_drop_speed self else GameLogic.drop_speed self) ->
  GameLogic.update current_time commands tetrimino_type self = (Ok tt, self, []).
Proof.
  intros Hmove Hrot Hdrop.
  unfold GameLogic.update. run_method.
  destruct (GameLogic.game_over self || GameLogic.is_paused self); [reflexivity|].
  unfold GameLogic.process_player_input, GameLogic.handle_moves. run_method.
  assert (Emove : (current_time - GameLogic.last_move_time self
                   >? GameLogic.move_speed self) = false).
  { rewrite Z.gtb_ltb. apply Z.ltb_ge. lia. }
  rewrite Emove. run_method.
  assert (Hrotation :
    GameLogic.handle_rotation current_time commands self = (Ok tt, self, [])).
  { unfold GameLogic.handle_rotation.
    destruct (GameLogic.has "rotate" commands) eqn:Ehas; run_method; [|reflexivity].
    destruct Hrot as [Hrot|Hrot]; [discriminate|].
    unfold GameLogic.rotate_current, Tetrimino.rotate.
    assert (Erot : (current_time - GameLogic.last_rotation_time self
                    >? GameLogic.rotation_delay self) = false).
    { rewrite Z.gtb_ltb. apply Z.ltb_ge. lia. }
    rewrite Erot. run_method.
    now rewrite assign_same_piece_and_rotation_time. }
  rewrite Hrotation. run_method.
  unfold GameLogic.handle_automatic_drop. run_method.
  destruct (GameLogic.has "move_down" commands); run_method.
  - assert (E : (current_time - GameLogic.last_drop_time self
                 >? GameLogic.soft_drop_speed self) = false).
    { rewrite Z.gtb_ltb. apply Z.ltb_ge. lia. }
    rewrite E. reflexivity.
  - assert (E : (current_time - GameLogic.last_drop_time self
                 >? GameLogic.drop_speed self) = false).
    { rewrite Z.gtb_ltb. apply Z.ltb_ge. lia. }
    rewrite E. reflexivity.
Qed.

Lemma update_idle_between_ticks_witness :
  GameLogic.update 7000 ["move_left"; "move_down"]%string settings.Z' mid_game
  = (Ok tt, mid_game, []).
Proof.
  apply (update_idle_between_ticks mid_game 7000
           ["move_left"; "move_down"]%string settings.Z').
  - vm_compute. discriminate.
  - left. reflexivity.
  - vm_compute. discriminate.
Defined.

(** ** Lateral moves *)

Lemma add_position1_back (self : GameLogic.t) :
  GameLogic.add_position1 1 (GameLogic.add_position1 (-1) self) = self.
Proof.
  destruct self as [? ? g ? ? ? [sh rot [r c]] ? ? ? ? ? ? ? ? ?].
  unfold GameLogic.add_position1. cbn.
  replace (c + -1 + 1) with c by lia. reflexivity.
Qed.

Lemma can_fit_right_of_left (self : GameLogic.t) :
  let moved := GameLogic.add_position1 (-1) self in
  Tetrimino.can_fit (GameLogic.grid moved) (GameLogic.current_tetrimino moved)
    (fst (Tetrimino.position (GameLogic.current_tetrimino moved)))
    (snd (Tetrimino.position (GameLogic.current_tetrimino moved)) + 1) None
  = Tetrimino.can_fit (GameLogic.grid self) (GameLogic.current_tetrimino self)
      (fst (Tetrimino.position (GameLogic.current_tetrimino self)))
      (snd (Tetrimino.position (GameLogic.current_tetrimino self))) None.
Proof.
  destruct self as [? ? g ? ? ? [sh rot [r c]] ? ? ? ? ? ? ? ? ?].
  cbn [GameLogic.add_position1 GameLogic.current_tetrimino GameLogic.grid
       GameLogic.set_current_tetrimino Tetrimino.position Tetrimino.set_position
       fst snd].
  replace (c + -1 + 1) with c by lia. reflexivity.
Qed.

(** With both [move_left] and [move_right] held at a move tick, a piece
    that fits where it is and one column to the left is moved left and
    back right: it ends where it was, and the move time is recorded. *)
Theorem handle_moves_left_then_right_cancel (self : GameLogic.t) (current_time : Z)
    (commands : GameLogic.Commands) :
  let piece := GameLogic.current_tetrimino self in
  let r := fst (Tetrimino.position piece) in
  let c := snd (Tetrimino.position piece) in
  current_time - GameLogic.last_move_time self > GameLogic.move_speed self ->
  GameLogic.has "move_left" commands = true ->
  GameLogic.has "move_right" commands = true ->
  Tetrimino.can_fit (GameLogic.grid self) piece r (c - 1) None = Ok true ->
  Tetrimino.can_fit (GameLogic.grid self) piece r c None = Ok true ->
  GameLogic.handle_moves current_time commands self
  = (Ok tt, GameLogic.set_last_move_time current_time self, []).
Proof.
  intros piece r c Htick Hleft Hright Hfits_left Hfits.
  subst piece r c.
  unfold GameLogic.handle_moves, GameLogic.current_can_fit. run_method.
  assert (E : (current_time - GameLogic.last_move_time self
               >? GameLogic.move_speed self) = true).
  { rewrite Z.gtb_ltb. apply Z.ltb_lt. lia. }
  rewrite E, Hleft, Hright. run_method.
  rewrite Hfits_left. run_method.
  rewrite (can_fit_right_of_left self), Hfits. run_method.
  now rewrite add_position1_back.
Qed.

Lemma handle_moves_left_then_right_cancel_witness :
  GameLogic.handle_moves 7100 ["move_left"; "move_right"]%string mid_game
  = (Ok tt, GameLogic.set_last_move_time 7100 mid_game, []).
Proof.
  apply (handle_moves_left_then_right_cancel mid_game 7100
           ["move_left"; "move_right"]%string); reflexivity.
Defined.

(** ** Locking a piece *)

Lemma nth_error_replace_same {A : Type} (l : list A) (k : nat) (x : A) :
  (k < List.length l)%nat -> nth_error (Py.replace l k x) k = Some x.
Proof.
  revert k. induction l as [|y tl IH]; intros [|k] H; simpl in *; try lia.
  - reflexivity.
  - apply IH. lia.
Qed.

Lemma nth_error_replace_other {A : Type} (l : list A) (k n : nat) (x : A) :
  n <> k -> nth_error (Py.replace l k x) n = nth_error l n.
Proof.
  revert k n. induction l as [|y tl IH]; intros [|k] [|n] H; simpl; try reflexivity.
  - congruence.
  - apply IH. congruence.
Qed.

Lemma cell_at_replace (g : Grid) (row : list Z) (y0 x0 y x : nat) (v : Z) :
  nth_error g y0 = Some row ->
  (x0 < List.length row)%nat ->
  cell_at (Py.replace g y0 (Py.replace row x0 v)) y x
  = if (y =? y0)%nat && (x =? x0)%nat then Some v else cell_at g y x.
Proof.
  intros Hrow Hx. unfold cell_at.
  assert (Hy : (y0 < List.length g)%nat).
  { apply nth_error_Some. rewrite Hrow. discriminate. }
  destruct (Nat.eqb_spec y y0) as [->|Hne].
  - rewrite nth_error_replace_same by exact Hy. rewrite Hrow.
    destruct (Nat.eqb_spec x x0) as [->|Hne]; cbn [andb].
    + now apply nth_error_replace_same.
    + now apply nth_error_replace_other.
  - cbn [andb]. now rewrite nth_error_replace_other.
Qed.

Lemma replace_row_lengths (g : Grid) (row : list Z) (y0 x0 w : nat) (v : Z) :
  nth_error g y0 = Some row ->
  Forall (fun line => List.length line = w) g ->
  Forall (fun line => List.length line = w) (Py.replace g y0 (Py.replace row x0 v)).
Proof.
  intros Hrow Hw. apply Forall_forall. intros line Hin.
  rewrite Forall_forall in Hw.
  destruct (replace_In _ _ _ _ Hin) as [->|Hold]; [|now apply Hw].
  rewrite replace_length. apply Hw. eapply nth_error_In; eassumption.
Qed.

Lemma write_cell_run (self : GameLogic.t) (r c v : Z) (row : list Z) :
  0 <= r -> 0 <= c ->
  nth_error (GameLogic.grid self) (Z.to_nat r) = Some row ->
  c < Py.len row ->
  GameLogic.write_cell r c v self
  = (Ok tt,
     GameLogic.set_grid
       (Py.replace (GameLogic.grid self) (Z.to_nat r) (Py.replace row (Z.to_nat c) v))
       self,
     []).
Proof.
  intros Hr Hc Hrow Hlen.
  assert (Hrlt : r < Py.len (GameLogic.grid self)).
  { assert (Z.to_nat r < List.length (GameLogic.grid self))%nat.
    { apply nth_error_Some. rewrite Hrow. discriminate. }
    unfold Py.len. lia. }
  unfold GameLogic.write_cell. run_method.
  unfold Py.getitem, Py.setitem.
  rewrite (index_nonneg (GameLogic.grid self) r) by lia.
  rewrite Hrow. run_method.
  rewrite (index_nonneg row c) by lia. run_method.
  reflexivity.
Qed.

Lemma line_cell_cons (cell : Z) (rest : list Z) (c0 : Z) (x : nat) :
  line_cell (cell :: rest) c0 x
  = if Z.of_nat x =? c0 then (if cell >? 0 then Some cell else None)
    else line_cell rest (c0 + 1) x.
Proof.
  unfold line_cell.
  destruct (Z.eqb_spec (Z.of_nat x) c0) as [->|Hne].
  - rewrite Z.sub_diag. reflexivity.
  - destruct (0 <=? Z.of_nat x - c0) eqn:E.
    + apply Z.leb_le in E.
      assert (E' : (0 <=? Z.of_nat x - (c0 + 1)) = true) by (apply Z.leb_le; lia).
      rewrite E'.
      replace (Z.to_nat (Z.of_nat x - c0)) with (S (Z.to_nat (Z.of_nat x - (c0 + 1))))
        by lia.
      reflexivity.
    + apply Z.leb_gt in E.
      assert (E' : (0 <=? Z.of_nat x - (c0 + 1)) = false) by (apply Z.leb_gt; lia).
      now rewrite E'.
Qed.

Lemma piece_cell_cons (line : list Z) (rest : settings.Matrix) (r0 c0 : Z) (y x : nat) :
  piece_cell (line :: rest) r0 c0 y x
  = if Z.of_nat y =? r0 then line_cell line c0 x
    else piece_cell rest (r0 + 1) c0 y x.
Proof.
  unfold piece_cell.
  destruct (Z.eqb_spec (Z.of_nat y) r0) as [->|Hne].
  - rewrite Z.sub_diag. reflexivity.
  - destruct (0 <=? Z.of_nat y - r0) eqn:E.
    + apply Z.leb_le in E.
      assert (E' : (0 <=? Z.of_nat y - (r0 + 1)) = true) by (apply Z.leb_le; lia).
      rewrite E'.
      replace (Z.to_nat (Z.of_nat y - r0)) with (S (Z.to_nat (Z.of_nat y - (r0 + 1))))
        by lia.
      reflexivity.
    + apply Z.leb_gt in E.
      assert (E' : (0 <=? Z.of_nat y - (r0 + 1)) = false) by (apply Z.leb_gt; lia).
      now rewrite E'.
Qed.

Lemma set_grid_same (self : GameLogic.t) :
  GameLogic.set_grid (GameLogic.grid self) self = self.
Proof. destruct self; reflexivity. Qed.

(** The inner loop of [place_tetrimino] when every filled cell of the
    line lands inside the grid. *)
Lemma place_cells_run (line : list Z) :
  forall (i j0 : Z) (self : GameLogic.t) (w : nat),
    let r := fst (Tetrimino.position (GameLogic.current_tetrimino self)) in
    let c := snd (Tetrimino.position (GameLogic.current_tetrimino self)) in
    Forall (fun row => List.length row = w) (GameLogic.grid self) ->
    (forall k v, nth_error line k = Some v -> v > 0 ->
                 0 <= r + i < Py.len (GameLogic.grid self) /\
                 0 <= c + j0 + Z.of_nat k < Z.of_nat w) ->
    exists g',
      GameLogic.place_cells i j0 line self = (Ok tt, GameLogic.set_grid g' self, []) /\
      List.length g' = List.length (GameLogic.grid self) /\
      Forall (fun row => List.length row = w) g' /\
      forall y x,
        cell_at g' y x
        = if Z.of_nat y =? r + i then
            match line_cell line (c + j0) x with
            | Some v => Some v
            | None => cell_at (GameLogic.grid self) y x
            end
          else cell_at (GameLogic.grid self) y x.
Proof.
  induction line as [|cell rest IH]; intros i j0 self w r c Hw Hin.
  - exists (GameLogic.grid self). rewrite set_grid_same.
    split; [reflexivity|]. split; [reflexivity|]. split; [exact Hw|].
    intros y x. unfold line_cell.
    destruct (0 <=? Z.of_nat x - (c + j0)); [|now destruct (Z.of_nat y =? r + i)].
    destruct (Z.to_nat (Z.of_nat x - (c + j0))); now destruct (Z.of_nat y =? r + i).
  - assert (Hrest : forall g1 : Grid,
              List.length g1 = List.length (GameLogic.grid self) ->
              forall k v, nth_error rest k = Some v -> v > 0 ->
                0 <= r + i < Py.len g1 /\ 0 <= c + (j0 + 1) + Z.of_nat k < Z.of_nat w).
    { intros g1 Hlen k v Hk Hv. destruct (Hin (S k) v Hk Hv) as [H1 H2].
      unfold Py.len in *. rewrite Hlen. split; [exact H1|lia]. }
    cbn [GameLogic.place_cells]. unfold GameLogic.bind at 1.
    destruct (cell >? 0) eqn:Ecell.
    + assert (Hcell : cell > 0) by (apply Z.gtb_lt in Ecell; lia).
      destruct (Hin 0%nat cell eq_refl Hcell) as [Hr Hc].
      rewrite Z.add_0_r in Hc.
      destruct (nth_error (GameLogic.grid self) (Z.to_nat (r + i))) as [row|] eqn:Hrow.
      2: { apply nth_error_None in Hrow. unfold Py.len in Hr. lia. }
      assert (Hrow_len : List.length row = w).
      { rewrite Forall_forall in Hw. apply Hw. eapply nth_error_In; eassumption. }
      set (g1 := Py.replace (GameLogic.grid self) (Z.to_nat (r + i))
                   (Py.replace row (Z.to_nat (c + j0)) cell)).
      assert (Hwrite :
        GameLogic.when true
          (GameLogic.bind GameLogic.position0 (fun r0 =>
           GameLogic.bind GameLogic.position1 (fun c0 =>
           GameLogic.write_cell (r0 + i) (c0 + j0) cell))) self
        = (Ok tt, GameLogic.set_grid g1 self, [])).
      { run_method. fold r c.
        rewrite (write_cell_run self (r + i) (c + j0) cell row);
          [reflexivity|lia|lia|exact Hrow|unfold Py.len; lia]. }
      rewrite Hwrite.
      assert (Hlen1 : List.length g1 = List.length (GameLogic.grid self)).
      { subst g1. apply replace_length. }
      destruct (IH i (j0 + 1) (GameLogic.set_grid g1 self) w) as (g2 & Hrun & Hlen2 & Hw2 & Hcells).
      { cbn [GameLogic.grid GameLogic.set_grid]. subst g1.
        now apply replace_row_lengths. }
      { cbn [GameLogic.grid GameLogic.set_grid GameLogic.current_tetrimino].
        fold r c. now apply Hrest. }
      rewrite Hrun. cbn [app].
      exists g2. split; [reflexivity|].
      cbn [GameLogic.grid GameLogic.set_grid GameLogic.current_tetrimino] in *.
      fold r c in Hcells.
      split; [congruence|]. split; [exact Hw2|].
      intros y x. rewrite Hcells, line_cell_cons, Ecell. subst g1.
      rewrite (cell_at_replace _ row) by (try exact Hrow; lia).
      replace (c + (j0 + 1)) with (c + j0 + 1) by lia.
      destruct (Z.eqb_spec (Z.of_nat y) (r + i)) as [Hy|Hy].
      * replace (y =? Z.to_nat (r + i))%nat with true
          by (symmetry; apply Nat.eqb_eq; lia).
        cbn [andb].
        destruct (Z.eqb_spec (Z.of_nat x) (c + j0)) as [Hx|Hx].
        -- replace (x =? Z.to_nat (c + j0))%nat with true
             by (symmetry; apply Nat.eqb_eq; lia).
           unfold line_cell.
           replace (0 <=? Z.of_nat x - (c + j0 + 1)) with false
             by (symmetry; apply Z.leb_gt; lia).
           reflexivity.
        -- replace (x =? Z.to_nat (c + j0))%nat with false
             by (symmetry; apply Nat.eqb_neq; lia).
           reflexivity.
      * replace (y =? Z.to_nat (r + i))%nat with false
          by (symmetry; apply Nat.eqb_neq; lia).
        reflexivity.
    + assert (Hskip :
        GameLogic.when false
          (GameLogic.bind GameLogic.position0 (fun r0 =>
           GameLogic.bind GameLogic.position1 (fun c0 =>
           GameLogic.write_cell (r0 + i) (c0 + j0) cell))) self
        = (Ok tt, self, [])) by reflexivity.
      rewrite Hskip.
      destruct (IH i (j0 + 1) self w Hw (Hrest _ eq_refl)) as (g2 & Hrun & Hlen2 & Hw2 & Hcells).
      fold r c in Hcells.
      rewrite Hrun. cbn [app].
      exists g2. split; [reflexivity|]. split; [exact Hlen2|]. split; [exact Hw2|].
      intros y x. rewrite Hcells, line_cell_cons, Ecell.
      replace (c + (j0 + 1)) with (c + j0 + 1) by lia.
      destruct (Z.eqb_spec (Z.of_nat y) (r + i)) as [Hy|Hy]; [|reflexivity].
      destruct (Z.eqb_spec (Z.of_nat x) (c + j0)) as [Hx|Hx]; [|reflexivity].
      unfold line_cell.
      replace (0 <=? Z.of_nat x - (c + j0 + 1)) with false
        by (symmetry; apply Z.leb_gt; lia).
      reflexivity.
Qed.

(** The outer loop of [place_tetrimino] when every filled cell of the
    matrix lands inside the grid. *)
Lemma place_rows_run (shape : settings.Matrix) :
  forall (i0 : Z) (self : GameLogic.t) (w : nat),
    let r := fst (Tetrimino.position (GameLogic.current_tetrimino self)) in
    let c := snd (Tetrimino.position (GameLogic.current_tetrimino self)) in
    Forall (fun row => List.length row = w) (GameLogic.grid self) ->
    (forall k line j v,
       nth_error shape k = Some line -> nth_error line j = Some v -> v > 0 ->
       0 <= r + i0 + Z.of_nat k < Py.len (GameLogic.grid self) /\
       0 <= c + Z.of_nat j < Z.of_nat w) ->
    exists g',
      GameLogic.place_rows i0 shape self = (Ok tt, GameLogic.set_grid g' self, []) /\
      List.length g' = List.length (GameLogic.grid self) /\
      Forall (fun row => List.length row = w) g' /\
      forall y x,
        cell_at g' y x
        = match piece_cell shape (r + i0) c y x with
          | Some v => Some v
          | None => cell_at (GameLogic.grid self) y x
          end.
Proof.
  induction shape as [|line rest IH]; intros i0 self w r c Hw Hin.
  - exists (GameLogic.grid self). rewrite set_grid_same.
    split; [reflexivity|]. split; [reflexivity|]. split; [exact Hw|].
    intros y x. unfold piece_cell.
    destruct (0 <=? Z.of_nat y - (r + i0)); [|reflexivity].
    now destruct (Z.to_nat (Z.of_nat y - (r + i0))).
  - cbn [GameLogic.place_rows]. unfold GameLogic.bind at 1.
    destruct (place_cells_run line i0 0 self w Hw) as (g1 & Hrun1 & Hlen1 & Hw1 & Hcells1).
    { intros k v Hk Hv. destruct (Hin 0%nat line k v eq_refl Hk Hv) as [H1 H2].
      fold r c. split; lia. }
    fold r c in Hcells1. rewrite Hrun1.
    destruct (IH (i0 + 1) (GameLogic.set_grid g1 self) w) as (g2 & Hrun2 & Hlen2 & Hw2 & Hcells2).
    { exact Hw1. }
    { cbn [GameLogic.grid GameLogic.set_grid GameLogic.current_tetrimino].
      fold r c. intros k l j v Hk Hj Hv.
      destruct (Hin (S k) l j v Hk Hj Hv) as [H1 H2].
      unfold Py.len in *. rewrite Hlen1. split; lia. }
    cbn [GameLogic.grid GameLogic.set_grid GameLogic.current_tetrimino] in *.
    fold r c in Hcells2.
    rewrite Hrun2. cbn [app].
    exists g2. split; [reflexivity|]. split; [congruence|]. split; [exact Hw2|].
    intros y x. rewrite Hcells2, Hcells1, piece_cell_cons.
    replace (r + (i0 + 1)) with (r + i0 + 1) by lia.
    rewrite Z.add_0_r.
    destruct (Z.eqb_spec (Z.of_nat y) (r + i0)) as [Hy|Hy]; [|reflexivity].
    unfold piece_cell at 1.
    replace (0 <=? Z.of_nat y - (r + i0 + 1)) with false
      by (symmetry; apply Z.leb_gt; lia).
    reflexivity.
Qed.

Lemma line_cell_Some (line : list Z) (c0 : Z) (x : nat) (v : Z) :
  line_cell line c0 x = Some v ->
  exists j, Z.of_nat x = c0 + Z.of_nat j /\ nth_error line j = Some v /\ v > 0.
Proof.
  unfold line_cell.
  destruct (0 <=? Z.of_nat x - c0) eqn:E; [|discriminate].
  apply Z.leb_le in E.
  destruct (nth_error line (Z.to_nat (Z.of_nat x - c0))) as [v0|] eqn:Hn; [|discriminate].
  destruct (v0 >? 0) eqn:Ev; [|discriminate].
  intros [= <-]. exists (Z.to_nat (Z.of_nat x - c0)).
  split; [lia|]. split; [exact Hn|]. apply Z.gtb_lt in Ev. lia.
Qed.

Lemma piece_cell_Some (shape : settings.Matrix) (r0 c0 : Z) (y x : nat) (v : Z) :
  piece_cell shape r0 c0 y x = Some v ->
  exists i j line,
    Z.of_nat y = r0 + Z.of_nat i /\ Z.of_nat x = c0 + Z.of_nat j /\
    nth_error shape i = Some line /\ nth_error line j = Some v /\ v > 0.
Proof.
  unfold piece_cell.
  destruct (0 <=? Z.of_nat y - r0) eqn:E; [|discriminate].
  apply Z.leb_le in E.
  destruct (nth_error shape (Z.to_nat (Z.of_nat y - r0))) as [line|] eqn:Hn; [|discriminate].
  intros H. apply line_cell_Some in H as (j & Hx & Hj & Hv).
  exists (Z.to_nat (Z.of_nat y - r0)), j, line.
  repeat split; try assumption; lia.
Qed.

(** Where [can_fit] accepts a placement at or below the top row, every
    filled cell of the matrix lies on an empty cell inside the grid. *)
Lemma fits_on_empty_cells (g : Grid) (w : nat) (self : Tetrimino.t) (r c : Z)
    (rotation : option Z) (shape : settings.Matrix) (colour : settings.Color) :
  Forall (fun row => List.length row = w) g ->
  0 <= r ->
  Py.getitem (Tetrimino.rotations self)
    (match rotation with None => Tetrimino.rotation self | Some k => k end)
  = Ok (shape, colour) ->
  Tetrimino.can_fit g self r c rotation = Ok true ->
  forall i j line v,
    nth_error shape i = Some line -> nth_error line j = Some v -> v > 0 ->
    0 <= r + Z.of_nat i < Py.len g /\
    0 <= c + Z.of_nat j < Z.of_nat w /\
    cell_at g (Z.to_nat (r + Z.of_nat i)) (Z.to_nat (c + Z.of_nat j)) = Some 0.
Proof.
  intros Hw Hr Hshape Hfits i j line v Hi Hj Hv.
  assert (Hrect : rectangular g) by (now exists w).
  destruct (can_fit_nonneg g Hrect self r c rotation shape colour Hr Hshape)
    as (b & Hb & Hiff).
  rewrite Hfits in Hb. injection Hb as <-.
  assert (Hfree : ~ rejects g (r + Z.of_nat i) (c + Z.of_nat j)).
  { intros Hrej. assert (true = false); [|discriminate].
    apply Hiff. exists i, j. split; [|exact Hrej]. now exists line, v. }
  unfold rejects in Hfree.
  assert (Hrow : r + Z.of_nat i < Py.len g) by lia.
  destruct (nth_error g (Z.to_nat (r + Z.of_nat i))) as [row|] eqn:Erow.
  2: { apply nth_error_None in Erow. unfold Py.len in Hrow. lia. }
  assert (Hlen : List.length row = w).
  { rewrite Forall_forall in Hw. apply Hw. eapply nth_error_In; eassumption. }
  assert (Hwidth : width g = Z.of_nat w).
  { unfold width. destruct g as [|first rest].
    - destruct (Z.to_nat (r + Z.of_nat i)); discriminate.
    - apply Forall_inv in Hw. unfold Py.len. now rewrite Hw. }
  assert (Hcol : 0 <= c + Z.of_nat j < Z.of_nat w) by lia.
  split; [lia|]. split; [exact Hcol|].
  unfold cell_at. rewrite Erow.
  destruct (nth_error row (Z.to_nat (c + Z.of_nat j))) as [v0|] eqn:Ecell.
  2: { apply nth_error_None in Ecell. lia. }
  destruct (Z.eq_dec v0 0) as [->|Hne]; [reflexivity|].
  exfalso. apply Hfree. right; right; right.
  split; [lia|]. split; [lia|]. now exists row, v0.
Qed.

Lemma place_tetrimino_run (self : GameLogic.t) (shape : settings.Matrix) :
  let piece := GameLogic.current_tetrimino self in
  let r := fst (Tetrimino.position piece) in
  let c := snd (Tetrimino.position piece) in
  rectangular (GameLogic.grid self) ->
  0 <= r ->
  Tetrimino.get_current_shape piece = Ok shape ->
  Tetrimino.can_fit (GameLogic.grid self) piece r c None = Ok true ->
  exists g',
    GameLogic.place_tetrimino self = (Ok tt, GameLogic.set_grid g' self, []) /\
    List.length g' = List.length (GameLogic.grid self) /\
    rectangular g' /\
    (forall y x,
       cell_at g' y x
       = match piece_cell shape r c y x with
         | Some v => Some v
         | None => cell_at (GameLogic.grid self) y x
         end) /\
    (forall y x v,
       piece_cell shape r c y x = Some v -> cell_at (GameLogic.grid self) y x = Some 0).
Proof.
  intros piece r c [w Hw] Hr Hshape Hfits.
  assert (Hentry : exists colour,
    Py.getitem (Tetrimino.rotations piece) (Tetrimino.rotation piece) = Ok (shape, colour)).
  { unfold Tetrimino.get_current_shape in Hshape.
    destruct (Py.getitem (Tetrimino.rotations piece) (Tetrimino.rotation piece))
      as [[sh colour]|e]; [|discriminate].
    injection Hshape as <-. now exists colour. }
  destruct Hentry as (colour & Hentry).
  pose proof (fits_on_empty_cells (GameLogic.grid self) w piece r c None shape colour
                Hw Hr Hentry Hfits) as Hcells.
  destruct (place_rows_run shape 0 self w Hw) as (g' & Hrun & Hlen & Hw' & Hat).
  { fold piece. fold r c. intros k line j v Hk Hj Hv.
    destruct (Hcells k j line v Hk Hj Hv) as (H1 & H2 & _). split; lia. }
  fold piece in Hat. fold r c in Hat. rewrite Z.add_0_r in Hat.
  exists g'. split; [|split; [exact Hlen|split; [now exists w|split; [exact Hat|]]]].
  - unfold GameLogic.place_tetrimino. run_method. fold piece.
    rewrite Hshape. run_method. rewrite Hrun. reflexivity.
  - intros y x v Hpiece.
    apply piece_cell_Some in Hpiece as (i & j & line & Hy & Hx & Hi & Hj & Hv).
    destruct (Hcells i j line v Hi Hj Hv) as (_ & _ & Hempty).
    rewrite <- Hy, <- Hx, !Nat2Z.id in Hempty. exact Hempty.
Qed.

(** Locking a piece that fits where it stands: [place_tetrimino] returns,
    changes nothing but the grid, keeps the grid's rows and their lengths,
    and the new grid holds the piece's fill value on every cell the piece
    covers and the old value everywhere else; the cells it covers were
    empty. *)
Theorem place_tetrimino_writes_the_piece (self : GameLogic.t) (shape : settings.Matrix) :
  let piece := GameLogic.current_tetrimino self in
  let r := fst (Tetrimino.position piece) in
  let c := snd (Tetrimino.position piece) in
  rectangular (GameLogic.grid self) ->
  0 <= r ->
  Tetrimino.get_current_shape piece = Ok shape ->
  Tetrimino.can_fit (GameLogic.grid self) piece r c None = Ok true ->
  exists g',
    GameLogic.place_tetrimino self = (Ok tt, GameLogic.set_grid g' self, []) /\
    List.length g' = List.length (GameLogic.grid self) /\
    rectangular g' /\
    (forall y x,
       cell_at g' y x
       = match piece_cell shape r c y x with
         | Some v => Some v
         | None => cell_at (GameLogic.grid self) y x
         end) /\
    (forall y x v,
       piece_cell shape r c y x = Some v -> cell_at (GameLogic.grid self) y x = Some 0).
Proof. exact (place_tetrimino_run self shape). Qed.

Lemma place_tetrimino_writes_the_piece_witness :
  let self := GameLogic.add_position0 1 about_to_land in
  exists g',
    GameLogic.place_tetrimino self = (Ok tt, GameLogic.set_grid g' self, []) /\
    List.length g' = List.length (GameLogic.grid self) /\
    rectangular g' /\
    (forall y x,
       cell_at g' y x
       = match piece_cell [[1]; [1]; [1]; [1]] 16 4 y x with
         | Some v => Some v
         | None => cell_at (GameLogic.grid self) y x
         end) /\
    (forall y x v,
       piece_cell [[1]; [1]; [1]; [1]] 16 4 y x = Some v ->
       cell_at (GameLogic.grid self) y x = Some 0).
Proof.
  apply (place_tetrimino_writes_the_piece (GameLogic.add_position0 1 about_to_land)
           [[1]; [1]; [1]; [1]]).
  - exists 10%nat. cbn. repeat constructor.
  - cbn. lia.
  - reflexivity.
  - reflexivity.
Defined.

(** ** The engine never raises *)

Section Returns.

Context {A B : Type}.

Lemma returns_ret (P : GameLogic.t -> Prop) (a : A) :
  returns P (GameLogic.ret a) (fun b self => b = a /\ P self).
Proof. intros self H. exists a, self, []. now repeat split. Qed.

Lemma returns_get (P : GameLogic.t -> Prop) (f : GameLogic.t -> A) :
  returns P (GameLogic.get f) (fun a self => a = f self /\ P self).
Proof. intros self H. exists (f self), self, []. now repeat split. Qed.

Lemma returns_bind (P : GameLogic.t -> Prop) (Q : A -> GameLogic.t -> Prop)
    (R : B -> GameLogic.t -> Prop) (m : GameLogic.M A) (k : A -> GameLogic.M B) :
  returns P m Q -> (forall a, returns (Q a) (k a) R) -> returns P (GameLogic.bind m k) R.
Proof.
  intros Hm Hk self H.
  destruct (Hm self H) as (a & self1 & sounds1 & Hrun1 & HQ).
  destruct (Hk a self1 HQ) as (b & self2 & sounds2 & Hrun2 & HR).
  exists b, self2, (sounds1 ++ sounds2). split; [|exact HR].
  unfold GameLogic.bind. now rewrite Hrun1, Hrun2.
Qed.

Lemma returns_weaken (P P' : GameLogic.t -> Prop) (Q Q' : A -> GameLogic.t -> Prop)
    (m : GameLogic.M A) :
  returns P m Q ->
  (forall self, P' self -> P self) ->
  (forall a self, Q a self -> Q' a self) ->
  returns P' m Q'.
Proof.
  intros Hm HP HQ self H.
  destruct (Hm self (HP self H)) as (a & self1 & sounds & Hrun & Hpost).
  exists a, self1, sounds. split; [exact Hrun|]. now apply HQ.
Qed.

End Returns.

Lemma returns_assign (P Q : GameLogic.t -> Prop) (f : GameLogic.t -> GameLogic.t) :
  (forall self, P self -> Q (f self)) ->
  returns P (GameLogic.assign f) (fun _ => Q).
Proof. intros Hf self H. exists tt, (f self), []. split; [reflexivity|]. now apply Hf. Qed.

Lemma returns_skip (P Q : GameLogic.t -> Prop) :
  (forall self, P self -> Q self) ->
  returns P (GameLogic.ret tt) (fun _ => Q).
Proof. intros HPQ self H. exists tt, self, []. split; [reflexivity|]. now apply HPQ. Qed.

Lemma grid_ok_rectangular (g : Grid) : grid_ok g -> rectangular g.
Proof.
  intros [_ Hrows]. exists (Z.to_nat settings.GRID_WIDTH).
  apply Forall_forall. intros row Hin. rewrite Forall_forall in Hrows.
  destruct (Hrows row Hin) as [Hlen _]. unfold Py.len in Hlen. lia.
Qed.

Lemma valid_rotation (piece : Tetrimino.t) (k : Z) :
  0 <= k < Py.len (Tetrimino.rotations piece) ->
  exists shape colour, Py.getitem (Tetrimino.rotations piece) k = Ok (shape, colour).
Proof.
  intros Hk. destruct (getitem_nonneg (Tetrimino.rotations piece) k Hk)
    as ([shape colour] & Hget & _).
  now exists shape, colour.
Qed.

(** On a well-formed engine the collision test of the active piece
    returns for every position at or below the top row. *)
Lemma can_fit_returns (g : Grid) (piece : Tetrimino.t) (row col : Z) :
  grid_ok g -> piece_ok piece -> 0 <= row ->
  exists fits, Tetrimino.can_fit g piece row col None = Ok fits.
Proof.
  intros Hg [Hrot _] Hrow.
  destruct (valid_rotation piece _ Hrot) as (shape & colour & Hshape).
  destruct (can_fit_nonneg g (grid_ok_rectangular g Hg) piece row col None
              shape colour Hrow Hshape) as (fits & Hfits & _).
  now exists fits.
Qed.

Lemma returns_current_can_fit (P : GameLogic.t -> Prop) (row col : Z) :
  (forall self, P self -> static_ok self) ->
  0 <= row ->
  returns P (GameLogic.current_can_fit row col)
    (fun fits self =>
       P self /\
       Tetrimino.can_fit (GameLogic.grid self) (GameLogic.current_tetrimino self)
         row col None = Ok fits).
Proof.
  intros HP Hrow self H.
  destruct (HP self H) as (Hg & _ & Hpiece).
  destruct (can_fit_returns _ _ row col Hg Hpiece Hrow) as (fits & Hfits).
  exists fits, self, []. split; [|now split].
  unfold GameLogic.current_can_fit. run_method. now rewrite Hfits.
Qed.

Lemma returns_bind_get {A B : Type} (P : GameLogic.t -> Prop) (R : B -> GameLogic.t -> Prop)
    (f : GameLogic.t -> A) (k : A -> GameLogic.M B) :
  (forall a, returns P (k a) R) -> returns P (GameLogic.bind (GameLogic.get f) k) R.
Proof.
  intros Hk. eapply returns_bind; [apply returns_get|].
  intros a. eapply returns_weaken; [apply (Hk a)| |]; cbn; intuition.
Qed.

Lemma returns_when (P : GameLogic.t -> Prop) (b : bool) (m : GameLogic.M unit) :
  returns P m (fun _ => P) -> returns P (GameLogic.when b m) (fun _ => P).
Proof. destruct b; [trivial|]. intros _. now apply returns_skip. Qed.

Lemma returns_then {B : Type} (P Q : GameLogic.t -> Prop) (R : B -> GameLogic.t -> Prop)
    (m : GameLogic.M unit) (k : GameLogic.M B) :
  returns P m (fun _ => Q) -> returns Q k R ->
  returns P (GameLogic.bind m (fun _ => k)) R.
Proof. intros Hm Hk. eapply returns_bind; [exact Hm|]. intros a. exact Hk. Qed.

(** One lateral step: [position[1] += d] when the piece fits there. *)
Lemma returns_try_move (d : Z) :
  returns active
    (GameLogic.bind GameLogic.position0 (fun r =>
     GameLogic.bind GameLogic.position1 (fun c =>
     GameLogic.bind (GameLogic.current_can_fit r (c + d)) (fun fits =>
     GameLogic.when fits (GameLogic.assign (GameLogic.add_position1 d))))))
    (fun _ => active).
Proof.
  intros self (Hstatic & Hover & Hfits).
  destruct Hstatic as (Hg & Hsound & Hpiece).
  destruct (can_fit_returns (GameLogic.grid self) (GameLogic.current_tetrimino self)
              (fst (Tetrimino.position (GameLogic.current_tetrimino self)))
              (snd (Tetrimino.position (GameLogic.current_tetrimino self)) + d)
              Hg Hpiece (proj2 Hpiece)) as (fits & Hmove).
  unfold GameLogic.current_can_fit. run_method. rewrite Hmove.
  destruct fits; run_method.
  - eexists; eexists; eexists. split; [reflexivity|].
    destruct Hpiece as [Hrot Hrow].
    split; [|split].
    + split; [exact Hg|]. split; [exact Hsound|]. split; [exact Hrot|exact Hrow].
    + exact Hover.
    + exact Hmove.
  - eexists; eexists; eexists. split; [reflexivity|].
    split; [now split|now split].
Qed.

Lemma returns_handle_moves (current_time : Z) (commands : GameLogic.Commands) :
  returns active (GameLogic.handle_moves current_time commands) (fun _ => active).
Proof.
  unfold GameLogic.handle_moves.
  apply returns_bind_get. intros last. apply returns_bind_get. intros speed.
  apply returns_when.
  eapply returns_then; [apply returns_when, (returns_try_move (-1))|].
  eapply returns_then; [apply returns_when, (returns_try_move 1)|].
  apply returns_assign. intros self H. exact H.
Qed.

Lemma returns_rotate_current (current_time : Z) :
  returns active (GameLogic.rotate_current current_time) (fun _ => active).
Proof.
  intros self (Hstatic & Hover & Hfits).
  destruct Hstatic as (Hg & Hsound & Hpiece).
  destruct Hpiece as [Hrot Hrow].
  unfold GameLogic.rotate_current, Tetrimino.rotate.
  destruct (current_time - GameLogic.last_rotation_time self
            >? GameLogic.rotation_delay self).
  2: { eexists; eexists; eexists. split; [reflexivity|].
       split; [|split; [exact Hover|exact Hfits]].
       split; [exact Hg|]. split; [exact Hsound|]. split; [exact Hrot|exact Hrow]. }
  assert (Hlen : (Py.len (Tetrimino.rotations (GameLogic.current_tetrimino self)) =? 0)
                 = false) by (apply Z.eqb_neq; lia).
  rewrite Hlen.
  set (next := (Tetrimino.rotation (GameLogic.current_tetrimino self) + 1)
               mod Py.len (Tetrimino.rotations (GameLogic.current_tetrimino self))).
  assert (Hnext : 0 <= next
                  < Py.len (Tetrimino.rotations (GameLogic.current_tetrimino self))).
  { apply Z.mod_pos_bound. lia. }
  destruct (valid_rotation _ _ Hnext) as (shape & colour & Hshape).
  destruct (can_fit_nonneg (GameLogic.grid self) (grid_ok_rectangular _ Hg)
              (GameLogic.current_tetrimino self)
              (fst (Tetrimino.position (GameLogic.current_tetrimino self)))
              (snd (Tetrimino.position (GameLogic.current_tetrimino self)))
              (Some next) shape colour Hrow Hshape) as (fits & Hturn & _).
  rewrite Hturn. destruct fits.
  - eexists; eexists; eexists. split; [reflexivity|].
    split; [|split].
    + split; [exact Hg|]. split; [exact Hsound|]. split; [exact Hnext|exact Hrow].
    + exact Hover.
    + exact Hturn.
  - eexists; eexists; eexists. split; [reflexivity|].
    split; [|split; [exact Hover|exact Hfits]].
    split; [exact Hg|]. split; [exact Hsound|]. split; [exact Hrot|exact Hrow].
Qed.

Lemma returns_handle_rotation (current_time : Z) (commands : GameLogic.Commands) :
  returns active (GameLogic.handle_rotation current_time commands) (fun _ => active).
Proof.
  unfold GameLogic.handle_rotation. apply returns_when.
  eapply returns_bind; [apply returns_rotate_current|].
  intros time. apply returns_assign. intros self H. exact H.
Qed.

Lemma returns_when_into (P Q : GameLogic.t -> Prop) (b : bool) (m : GameLogic.M unit) :
  returns P m (fun _ => Q) -> (forall self, P self -> Q self) ->
  returns P (GameLogic.when b m) (fun _ => Q).
Proof. destruct b; [trivial|]. intros _ HPQ. now apply returns_skip. Qed.

Lemma returns_place_tetrimino :
  returns (fun self => static_ok self /\ fits_here self) GameLogic.place_tetrimino
    (fun _ => static_ok).
Proof.
  intros self [(Hg & Hsound & Hrot & Hrow) Hfits].
  destruct (valid_rotation _ _ Hrot) as (shape & colour & Hshape).
  assert (Hcurrent :
    Tetrimino.get_current_shape (GameLogic.current_tetrimino self) = Ok shape).
  { unfold Tetrimino.get_current_shape. now rewrite Hshape. }
  destruct (place_tetrimino_run self shape (grid_ok_rectangular _ Hg) Hrow Hcurrent Hfits)
    as (g' & Hrun & _).
  exists tt, (GameLogic.set_grid g' self), []. split; [exact Hrun|].
  pose proof (keeps_place_tetrimino self Hg) as Hg'.
  rewrite Hrun in Hg'.
  split; [exact Hg'|]. split; [exact Hsound|]. split; [exact Hrot|exact Hrow].
Qed.

Lemma returns_clear_lines : returns static_ok GameLogic.clear_lines (fun _ => static_ok).
Proof.
  intros self (Hg & Hsound & Hrot & Hrow).
  destruct (GameLogic.break_line_sound self) as [sound|] eqn:Esound; [|congruence].
  pose proof (keeps_clear_lines self Hg) as Hg'.
  rewrite (clear_lines_run self sound Esound) in *.
  eexists; eexists; eexists. split; [reflexivity|].
  split; [exact Hg'|]. split; [|split; [exact Hrot|exact Hrow]].
  cbn. congruence.
Qed.

Lemma returns_update_level : returns static_ok GameLogic.update_level (fun _ => static_ok).
Proof.
  intros self (Hg & Hsound & Hrot & Hrow).
  unfold GameLogic.update_level, GameLogic.adjust_game_speed. run_method.
  destruct (1 + GameLogic.lines_cleared self / settings.LEVEL_CHANGE_LINES
            >? GameLogic.level self); run_method;
    (eexists; eexists; eexists; split; [reflexivity|]);
    (split; [exact Hg|]; split; [exact Hsound|]; split; [exact Hrot|exact Hrow]).
Qed.

Lemma returns_new_tetrimino (tetrimino_type : settings.Key) :
  returns static_ok (GameLogic.new_tetrimino tetrimino_type)
    (fun tetrimino self =>
       tetrimino = Tetrimino.__init__ tetrimino_type /\
       static_ok self /\
       (GameLogic.game_over self = false ->
        Tetrimino.can_fit (GameLogic.grid self) tetrimino 0 4 None = Ok true)).
Proof.
  intros self (Hg & Hsound & Hrot & Hrow).
  destruct (spawn_can_fit_returns (GameLogic.grid self) tetrimino_type
              (grid_ok_rectangular _ Hg)) as (fits & Hfits).
  unfold GameLogic.new_tetrimino. run_method. rewrite Hfits.
  destruct fits; run_method;
    (eexists; eexists; eexists; split; [reflexivity|]);
    (split; [reflexivity|]); (split; [split; [exact Hg|]; split; [exact Hsound|];
                                      split; [exact Hrot|exact Hrow]|]).
  - intros _. exact Hfits.
  - cbn. discriminate.
Qed.

Lemma returns_respawn (tetrimino_type : settings.Key) :
  returns static_ok
    (GameLogic.bind (GameLogic.new_tetrimino tetrimino_type) (fun tetrimino =>
     GameLogic.assign (GameLogic.set_current_tetrimino tetrimino)))
    (fun _ => engine_ok).
Proof.
  eapply returns_bind; [apply returns_new_tetrimino|].
  intros tetrimino. apply returns_assign.
  intros self (-> & (Hg & Hsound & _) & Hfits).
  split.
  - split; [exact Hg|]. split; [exact Hsound|]. split.
    + pose proof (rotations_nonempty (Tetrimino.__init__ tetrimino_type)).
      cbn [GameLogic.current_tetrimino GameLogic.set_current_tetrimino]. cbn in *. lia.
    + cbn. lia.
  - intros Hover. exact (Hfits Hover).
Qed.

Lemma engine_ok_static (self : GameLogic.t) : engine_ok self -> static_ok self.
Proof. now intros [H _]. Qed.

Lemma active_engine_ok (self : GameLogic.t) : active self -> engine_ok self.
Proof. intros (Hstatic & _ & Hfits). now split. Qed.

Lemma returns_lock_and_respawn (tetrimino_type : settings.Key) :
  returns (fun self => static_ok self /\ fits_here self)
    (GameLogic.lock_and_respawn tetrimino_type) (fun _ => engine_ok).
Proof.
  unfold GameLogic.lock_and_respawn.
  eapply returns_then; [apply returns_place_tetrimino|].
  eapply returns_then; [apply returns_clear_lines|].
  eapply returns_then; [apply returns_update_level|].
  eapply returns_bind; [apply returns_new_tetrimino|]. intros tetrimino.
  eapply returns_then.
  { apply (returns_assign _ engine_ok).
    intros self (-> & (Hg & Hsound & _) & Hfits).
    split.
    - split; [exact Hg|]. split; [exact Hsound|]. split.
      + pose proof (rotations_nonempty (Tetrimino.__init__ tetrimino_type)).
        cbn [GameLogic.current_tetrimino GameLogic.set_current_tetrimino]. cbn in *. lia.
      + cbn. lia.
    - intros Hover. exact (Hfits Hover). }
  eapply returns_bind.
  { apply (returns_current_can_fit engine_ok 0 4 engine_ok_static). lia. }
  intros fits_start. apply returns_when_into.
  - apply returns_assign. intros self [[Hstatic _] _].
    split; [exact Hstatic|]. cbn. discriminate.
  - intros self [Hok _]. exact Hok.
Qed.

Lemma active_add_position0 (self : GameLogic.t) :
  active self ->
  Tetrimino.can_fit (GameLogic.grid self) (GameLogic.current_tetrimino self)
    (fst (Tetrimino.position (GameLogic.current_tetrimino self)) + 1)
    (snd (Tetrimino.position (GameLogic.current_tetrimino self))) None = Ok true ->
  active (GameLogic.add_position0 1 self).
Proof.
  intros ((Hg & Hsound & Hrot & Hrow) & Hover & _) Hbelow.
  split; [|split; [exact Hover|exact Hbelow]].
  split; [exact Hg|]. split; [exact Hsound|]. split; [exact Hrot|].
  cbn. lia.
Qed.

Lemma returns_drop_tetrimino (tetrimino_type : settings.Key) :
  returns active (GameLogic.drop_tetrimino tetrimino_type)
    (fun dropped self => engine_ok self /\ (dropped = false -> active self)).
Proof.
  intros self Hactive.
  pose proof Hactive as ((Hg & Hsound & Hpiece) & Hover & Hfits).
  destruct (can_fit_returns (GameLogic.grid self) (GameLogic.current_tetrimino self)
              (fst (Tetrimino.position (GameLogic.current_tetrimino self)) + 1)
              (snd (Tetrimino.position (GameLogic.current_tetrimino self)))
              Hg Hpiece ltac:(destruct Hpiece; lia)) as (fits & Hbelow).
  unfold GameLogic.drop_tetrimino, GameLogic.current_can_fit. run_method.
  rewrite Hbelow. destruct fits; run_method.
  2: { exists false, self, []. split; [reflexivity|].
       split; [now apply active_engine_ok|now intros _]. }
  pose proof (active_add_position0 self Hactive Hbelow) as Hmoved.
  set (moved := GameLogic.add_position0 1 self) in *.
  pose proof Hmoved as ((Hg' & Hsound' & Hpiece') & Hover' & Hfits').
  destruct (can_fit_returns (GameLogic.grid moved) (GameLogic.current_tetrimino moved)
              (fst (Tetrimino.position (GameLogic.current_tetrimino moved)) + 1)
              (snd (Tetrimino.position (GameLogic.current_tetrimino moved)))
              Hg' Hpiece' ltac:(destruct Hpiece'; lia)) as (further & Hfurther).
  rewrite Hfurther. destruct further; run_method.
  - exists true, moved, []. split; [reflexivity|].
    split; [now apply active_engine_ok|discriminate].
  - destruct (returns_lock_and_respawn tetrimino_type moved)
      as ([] & self' & sounds & Hrun & Hok).
    { split; [now split|exact Hfits']. }
    rewrite Hrun. exists true, self', (sounds ++ []).
    split; [reflexivity|]. split; [exact Hok|discriminate].
Qed.

Lemma returns_attempt_to_drop (current_time : Z) (tetrimino_type : settings.Key) :
  returns active (GameLogic.attempt_to_drop current_time tetrimino_type)
    (fun _ => engine_ok).
Proof.
  unfold GameLogic.attempt_to_drop.
  eapply returns_bind; [apply returns_drop_tetrimino|].
  intros dropped.
  eapply (returns_then _ engine_ok).
  - destruct dropped; cbn [negb GameLogic.when].
    + apply returns_skip. now intros self [Hok _].
    + eapply returns_then.
      { eapply returns_weaken; [apply returns_place_tetrimino| |].
        - intros self [_ Hact]. destruct (Hact eq_refl) as (Hstatic & _ & Hfits).
          now split.
        - intros a self H. exact H. }
      eapply returns_then; [apply returns_clear_lines|].
      apply returns_respawn.
  - apply returns_assign. intros self H. exact H.
Qed.

Lemma returns_handle_automatic_drop (current_time : Z) (commands : GameLogic.Commands)
    (tetrimino_type : settings.Key) :
  returns active
    (GameLogic.handle_automatic_drop current_time commands tetrimino_type)
    (fun _ => engine_ok).
Proof.
  unfold GameLogic.handle_automatic_drop.
  apply returns_bind_get. intros last.
  destruct (GameLogic.has "move_down" commands);
    apply returns_bind_get; intros speed;
    (apply returns_when_into; [apply returns_attempt_to_drop|apply active_engine_ok]).
Qed.

Lemma returns_update (current_time : Z) (commands : GameLogic.Commands)
    (tetrimino_type : settings.Key) :
  returns engine_ok (GameLogic.update current_time commands tetrimino_type)
    (fun _ => engine_ok).
Proof.
  intros self Hok. unfold GameLogic.update. run_method.
  destruct (GameLogic.game_over self) eqn:Hover; cbn [orb].
  { exists tt, self, []. now split. }
  destruct (GameLogic.is_paused self).
  { exists tt, self, []. now split. }
  assert (Hactive : active self).
  { destruct Hok as [Hstatic Hfits]. split; [exact Hstatic|]. split; [exact Hover|].
    now apply Hfits. }
  assert (Hrest :
    returns active
      (GameLogic.bind (GameLogic.process_player_input current_time commands) (fun _ =>
       GameLogic.handle_automatic_drop current_time commands tetrimino_type))
      (fun _ => engine_ok)).
  { eapply returns_then; [|apply returns_handle_automatic_drop].
    unfold GameLogic.process_player_input.
    eapply returns_then; [apply returns_handle_moves|apply returns_handle_rotation]. }
  destruct (Hrest self Hactive) as ([] & self' & sounds & Hrun & Hok').
  unfold GameLogic.bind in Hrun. rewrite Hrun.
  exists tt, self', sounds. now split.
Qed.

(** While the game is not over the active piece never overlaps the
    stack: on a well-formed engine (a 20x10 grid of cell values, a
    break-line sound, a piece with a valid rotation index at or below the
    top row) whose piece fits where it stands unless the game is over, a
    frame update returns, whatever the clock, the commands and the shape
    drawn for the next piece, and leaves such an engine. *)
Theorem update_keeps_piece_clear_of_stack (self : GameLogic.t) (current_time : Z)
    (commands : GameLogic.Commands) (tetrimino_type : settings.Key) :
  engine_ok self ->
  exists self' sounds,
    GameLogic.update current_time commands tetrimino_type self = (Ok tt, self', sounds) /\
    engine_ok self'.
Proof.
  intros Hok.
  destruct (returns_update current_time commands tetrimino_type self Hok)
    as ([] & self' & sounds & Hrun & Hok').
  now exists self', sounds.
Qed.

Lemma well_game_ok : engine_ok well_game.
Proof.
  split; [split; [|split]|].
  - split; [reflexivity|]. unfold well_game, well_grid, engine; cbn.
    repeat (constructor; [split; [reflexivity|repeat constructor; unfold cell_ok; lia]|]).
    constructor.
  - discriminate.
  - split; cbn; lia.
  - intros _. reflexivity.
Qed.

Lemma update_keeps_piece_clear_of_stack_witness :
  exists self' sounds,
    GameLogic.update 2000 ["move_left"; "rotate"]%string settings.T well_game
    = (Ok tt, self', sounds) /\
    engine_ok self'.
Proof.
  exact (update_keeps_piece_clear_of_stack well_game 2000
           ["move_left"; "rotate"]%string settings.T well_game_ok).
Defined.

(** ** The input handler *)

Lemma has_In (key : string) (commands : GameLogic.Commands) :
  GameLogic.has key commands = true <-> In key commands.
Proof.
  unfold GameLogic.has. rewrite existsb_exists. split.
  - intros (k & Hin & Heq). apply String.eqb_eq in Heq. now subst.
  - intros Hin. exists key. split; [exact Hin|apply String.eqb_refl].
Qed.

Lemma has_false_not_In (key : string) (commands : GameLogic.Commands) :
  GameLogic.has key commands = false <-> ~ In key commands.
Proof.
  rewrite <- has_In. destruct (GameLogic.has key commands); split; congruence.
Qed.

Lemma set_command_ok (key : string) (commands : GameLogic.Commands) :
  known_command key -> commands_ok commands ->
  commands_ok (InputHandler.set_command key commands).
Proof.
  intros Hkey [Hnodup Hknown]. unfold InputHandler.set_command.
  destruct (GameLogic.has key commands) eqn:Hhas; [now split|].
  apply has_false_not_In in Hhas. split.
  - apply NoDup_app; [exact Hnodup|repeat constructor; intros []|].
    intros k Hk [<-|[]]. now apply Hhas.
  - apply Forall_app. split; [exact Hknown|now constructor].
Qed.

Lemma pop_command_ok (key : string) (commands : GameLogic.Commands) :
  commands_ok commands -> commands_ok (InputHandler.pop_command key commands).
Proof.
  intros [Hnodup Hknown]. unfold InputHandler.pop_command. split.
  - now apply NoDup_filter.
  - rewrite Forall_forall in *. intros k Hk. apply filter_In in Hk. now apply Hknown.
Qed.

Lemma process_event_commands_ok (event : pygame.Event) (tetrimino_type : settings.Key)
    (self : InputHandler.t) :
  commands_ok (InputHandler.commands self) ->
  commands_ok (InputHandler.commands
                 (handler_after (InputHandler.process_event event tetrimino_type self))).
Proof.
  intros Hok. unfold handler_after.
  destruct event as [[]|[]|]; cbn [InputHandler.process_event];
    try exact Hok;
    try (apply set_command_ok; [unfold known_command; cbn; tauto|exact Hok]);
    try (apply pop_command_ok; exact Hok).
  unfold InputHandler.on_game.
  destruct (GameLogic.reset_game tetrimino_type (InputHandler.game_logic self))
    as [[[] ?] ?]; exact Hok.
Qed.

Lemma process_events_commands_ok (events : list (pygame.Event * settings.Key)) :
  forall self : InputHandler.t,
    commands_ok (InputHandler.commands self) ->
    commands_ok (InputHandler.commands (handler_after (process_events events self))).
Proof.
  induction events as [|[event tetrimino_type] events IH]; intros self Hok; [exact Hok|].
  pose proof (process_event_commands_ok event tetrimino_type self Hok) as Hstep.
  cbn [process_events]. unfold handler_after in *.
  destruct (InputHandler.process_event event tetrimino_type self) as [[[] self'] sounds];
    cbn [fst snd] in *; [|exact Hstep].
  specialize (IH self' Hstep).
  destruct (process_events events self') as [[r self''] sounds']. exact IH.
Qed.

(** Whatever events a fresh handler is fed, its dictionary of commands
    only ever holds the four commands the engine reads ('move_left',
    'move_right', 'move_down', 'rotate'). *)
Theorem handler_commands_stay_known (game_logic : GameLogic.t)
    (events : list (pygame.Event * settings.Key)) :
  commands_ok
    (InputHandler.commands
       (handler_after (process_events events (InputHandler.__init__ game_logic)))).
Proof.
  apply process_events_commands_ok. split; constructor.
Qed.

Lemma pop_set_absent (key : string) (commands : GameLogic.Commands) :
  GameLogic.has key commands = false ->
  InputHandler.pop_command key (InputHandler.set_command key commands) = commands.
Proof.
  intros Hhas. unfold InputHandler.set_command. rewrite Hhas.
  unfold InputHandler.pop_command. rewrite filter_app. cbn [filter].
  rewrite String.eqb_refl. cbn [negb]. rewrite app_nil_r.
  apply has_false_not_In in Hhas.
  induction commands as [|k commands IH]; [reflexivity|]. cbn [filter].
  destruct (String.eqb key k) eqn:Heq.
  - apply String.eqb_eq in Heq. subst. exfalso. apply Hhas. now left.
  - cbn [negb]. f_equal. apply IH. intros Hin. apply Hhas. now right.
Qed.

(** Pressing an arrow key whose command is not asserted and releasing it
    again leaves the handler exactly as it was: the release retracts the
    command the press asserted, and neither touches the engine. *)
Theorem release_retracts_press (key : pygame.Key) (command : string)
    (tetrimino_type tetrimino_type' : settings.Key) (self : InputHandler.t) :
  command_of key = Some command ->
  GameLogic.has command (InputHandler.commands self) = false ->
  let pressed := InputHandler.process_event (pygame.KEYDOWN key) tetrimino_type self in
  pressed = (Ok tt,
             InputHandler.set_commands
               (InputHandler.commands self ++ [command]) self, []) /\
  InputHandler.process_event (pygame.KEYUP key) tetrimino_type' (handler_after pressed)
  = (Ok tt, self, []).
Proof.
  intros Hkey Habsent pressed. subst pressed.
  pose proof (pop_set_absent command (InputHandler.commands self) Habsent) as Hpop.
  unfold InputHandler.set_command in *. rewrite Habsent in Hpop.
  destruct self as [game commands]. cbn [InputHandler.commands] in *.
  destruct key; inversion Hkey; subst command;
    cbn [InputHandler.process_event handler_after fst snd];
    unfold InputHandler.set_command, InputHandler.set_commands;
    cbn [InputHandler.commands InputHandler.game_logic];
    rewrite Habsent; cbn [InputHandler.commands InputHandler.game_logic];
    rewrite Hpop; now split.
Qed.

Lemma release_retracts_press_witness :
  let self := InputHandler.set_commands ["move_down"]%string
                (InputHandler.__init__ mid_game) in
  let pressed := InputHandler.process_event (pygame.KEYDOWN pygame.K_UP) settings.I self in
  pressed = (Ok tt,
             InputHandler.set_commands ["move_down"; "rotate"]%string self, []) /\
  InputHandler.process_event (pygame.KEYUP pygame.K_UP) settings.O (handler_after pressed)
  = (Ok tt, self, []).
Proof.
  exact (release_retracts_press pygame.K_UP "rotate" settings.I settings.O
           (InputHandler.set_commands ["move_down"]%string (InputHandler.__init__ mid_game))
           eq_refl eq_refl).
Defined.

Lemma command_of_known (key : pygame.Key) (command : string) :
  command_of key = Some command -> known_command command.
Proof.
  destruct key; intros H; inversion H; unfold known_command; cbn; tauto.
Qed.

Lemma command_of_injective (key key' : pygame.Key) (command : string) :
  command_of key = Some command -> command_of key' = Some command -> key = key'.
Proof.
  destruct key, key'; intros H H'; inversion H; subst; inversion H'; reflexivity.
Qed.

Lemma has_set_command (command key : string) (commands : GameLogic.Commands) :
  GameLogic.has command commands = true ->
  GameLogic.has command (InputHandler.set_command key commands) = true.
Proof.
  intros Hhas. unfold InputHandler.set_command.
  destruct (GameLogic.has key commands); [exact Hhas|].
  apply has_In. apply in_or_app. left. now apply has_In.
Qed.

Lemma has_set_self (key : string) (commands : GameLogic.Commands) :
  GameLogic.has key (InputHandler.set_command key commands) = true.
Proof.
  unfold InputHandler.set_command.
  destruct (GameLogic.has key commands) eqn:Hhas; [exact Hhas|].
  apply has_In. apply in_or_app. right. now left.
Qed.

Lemma has_pop_other (command key : string) (commands : GameLogic.Commands) :
  key <> command ->
  GameLogic.has command commands = true ->
  GameLogic.has command (InputHandler.pop_command key commands) = true.
Proof.
  intros Hneq Hhas. apply has_In. apply has_In in Hhas.
  unfold InputHandler.pop_command. apply filter_In. split; [exact Hhas|].
  apply negb_true_iff. now apply String.eqb_neq.
Qed.

Lemma held_process_event (key : pygame.Key) (command : string) (event : pygame.Event)
    (tetrimino_type : settings.Key) (self : InputHandler.t) :
  command_of key = Some command ->
  event <> pygame.KEYUP key ->
  GameLogic.has command (InputHandler.commands self) = true ->
  GameLogic.has command
    (InputHandler.commands
       (handler_after (InputHandler.process_event event tetrimino_type self))) = true.
Proof.
  intros Hkey Hevent Hhas. unfold handler_after.
  destruct event as [[]|released|]; cbn [InputHandler.process_event fst snd];
    try exact Hhas; try (now apply has_set_command).
  - unfold InputHandler.on_game.
    destruct (GameLogic.reset_game tetrimino_type (InputHandler.game_logic self))
      as [[[] ?] ?]; exact Hhas.
  - assert (Hother : forall c, command_of released = Some c -> c <> command).
    { intros c Hc ->. apply Hevent. f_equal.
      exact (command_of_injective released key command Hc Hkey). }
    destruct released; cbn [fst snd InputHandler.set_commands InputHandler.commands];
      try exact Hhas; (apply has_pop_other; [now apply Hother|exact Hhas]).
Qed.

Lemma held_process_events (key : pygame.Key) (command : string)
    (events : list (pygame.Event * settings.Key)) :
  command_of key = Some command ->
  Forall (fun event => fst event <> pygame.KEYUP key) events ->
  forall self : InputHandler.t,
    GameLogic.has command (InputHandler.commands self) = true ->
    GameLogic.has command
      (InputHandler.commands (handler_after (process_events events self))) = true.
Proof.
  intros Hkey Hevents.
  induction Hevents as [|[event tetrimino_type] events Hevent Hevents IH];
    intros self Hhas; [exact Hhas|].
  pose proof (held_process_event key command event tetrimino_type self Hkey Hevent Hhas)
    as Hstep.
  cbn [process_events]. unfold handler_after in *.
  destruct (InputHandler.process_event event tetrimino_type self) as [[[] self'] sounds];
    cbn [fst snd] in *; [|exact Hstep].
  specialize (IH self' Hstep).
  destruct (process_events events self') as [[r self''] sounds']. exact IH.
Qed.

(** A command is level-triggered: once an arrow key is pressed its
    command stays asserted through every later event (presses and
    releases of other keys, repeats of the same press, pause and reset)
    until that key is released. In particular 'rotate' stays asserted for
    as long as the up key is held. *)
Theorem command_asserted_until_release (key : pygame.Key) (command : string)
    (tetrimino_type : settings.Key) (events : list (pygame.Event * settings.Key))
    (self : InputHandler.t) :
  command_of key = Some command ->
  Forall (fun event => fst event <> pygame.KEYUP key) events ->
  GameLogic.has command
    (InputHandler.commands
       (handler_after
          (process_events ((pygame.KEYDOWN key, tetrimino_type) :: events) self))) = true.
Proof.
  intros Hkey Hevents.
  assert (Hpressed : exists self',
            InputHandler.process_event (pygame.KEYDOWN key) tetrimino_type self
            = (Ok tt, self', []) /\
            GameLogic.has command (InputHandler.commands self') = true).
  { destruct key; inversion Hkey; subst; eexists; (split; [reflexivity|]);
      apply has_set_self. }
  destruct Hpressed as (self' & Hrun & Hhas).
  cbn [process_events]. rewrite Hrun.
  pose proof (held_process_events key command events Hkey Hevents self' Hhas) as Hheld.
  unfold handler_after in *.
  destruct (process_events events self') as [[r self''] sounds]. exact Hheld.
Qed.

Lemma command_asserted_until_release_witness :
  GameLogic.has "rotate"
    (InputHandler.commands
       (handler_after
          (process_events
             [(pygame.KEYDOWN pygame.K_UP, settings.I);
              (pygame.KEYDOWN pygame.K_LEFT, settings.I);
              (pygame.KEYUP pygame.K_LEFT, settings.I);
              (pygame.KEYDOWN pygame.K_UP, settings.I);
              (pygame.KEYDOWN pygame.K_p, settings.I)]
             (InputHandler.__init__ mid_game)))) = true.
Proof.
  apply (command_asserted_until_release pygame.K_UP "rotate" settings.I
           [(pygame.KEYDOWN pygame.K_LEFT, settings.I);
            (pygame.KEYUP pygame.K_LEFT, settings.I);
            (pygame.KEYDOWN pygame.K_UP, settings.I);
            (pygame.KEYDOWN pygame.K_p, settings.I)]
           (InputHandler.__init__ mid_game)).
  - reflexivity.
  - repeat constructor; discriminate.
Defined.

(** Only a press of 'p' or of 'r' reaches the engine: on every other
    event [process_event] returns, plays nothing and leaves the engine as
    it is. *)
Theorem only_pause_and_reset_reach_engine (event : pygame.Event)
    (tetrimino_type : settings.Key) (self : InputHandler.t) :
  event <> pygame.KEYDOWN pygame.K_p ->
  event <> pygame.KEYDOWN pygame.K_r ->
  exists commands,
    InputHandler.process_event event tetrimino_type self
    = (Ok tt, InputHandler.set_commands commands self, []).
Proof.
  intros Hp Hr. destruct self as [game commands].
  destruct event as [[]|[]|]; try congruence; eexists; reflexivity.
Qed.

Lemma only_pause_and_reset_reach_engine_witness :
  exists commands,
    InputHandler.process_event (pygame.KEYUP pygame.K_r) settings.S
      (InputHandler.__init__ mid_game)
    = (Ok tt, InputHandler.set_commands commands (InputHandler.__init__ mid_game), []).
Proof.
  apply (only_pause_and_reset_reach_engine (pygame.KEYUP pygame.K_r) settings.S
           (InputHandler.__init__ mid_game)); discriminate.
Defined.

(** ** The high score *)

(** [update_highscore] leaves the larger of the old high score and the
    score in memory, under the same file name. It leaves the file alone
    unless the score beats the old high score; it then writes the new high
    score, and an [IOError] of that write comes after the high score in
    memory has been raised. *)
Theorem update_highscore_keeps_maximum (str : Z -> string) (score : Z)
    (self : HighscoreManager.t) (file : HighscoreManager.File) :
  exists self' file' raised,
    HighscoreManager.update_highscore str score self file = (self', file', raised) /\
    HighscoreManager.get_highscore self'
    = Z.max (HighscoreManager.highscore self) score /\
    HighscoreManager.filename self' = HighscoreManager.filename self /\
    (if score >? HighscoreManager.highscore self
     then if HighscoreManager.writable file
          then HighscoreManager.content file' = Some (str score) /\ raised = None
          else file' = file /\ raised = Some HighscoreManager.IOError
     else file' = file /\ raised = None).
Proof.
  unfold HighscoreManager.update_highscore, HighscoreManager.save_highscore,
    HighscoreManager.get_highscore.
  destruct (score >? HighscoreManager.highscore self) eqn:Hbeats.
  - apply Z.gtb_lt in Hbeats.
    destruct (HighscoreManager.writable file); cbn [HighscoreManager.highscore];
      do 3 eexists; (split; [reflexivity|]); cbn; repeat split; lia.
  - assert (score <= HighscoreManager.highscore self).
    { destruct (Z.gtb_spec score (HighscoreManager.highscore self)); [discriminate|lia]. }
    do 3 eexists. split; [reflexivity|]. repeat split. lia.
Qed.

(** A high score that was saved is the high score of the next manager of
    the same file: when the score beats the high score and the file can be
    written, a manager constructed on the file [update_highscore] leaves
    starts at that score. Python's [str] and [int] enter by their round
    trip on the score only. *)
Theorem saved_highscore_is_loaded_back (int_of_stripped : string -> option Z)
    (str : Z -> string) (score : Z) (self : HighscoreManager.t)
    (file : HighscoreManager.File) :
  int_of_stripped (str score) = Some score ->
  score > HighscoreManager.highscore self ->
  HighscoreManager.writable file = true ->
  exists self' file',
    HighscoreManager.update_highscore str score self file = (self', file', None) /\
    HighscoreManager.get_highscore
      (HighscoreManager.__init__ int_of_stripped (HighscoreManager.filename self') file')
    = score.
Proof.
  intros Hround Hbeats Hwritable.
  unfold HighscoreManager.update_highscore, HighscoreManager.save_highscore.
  apply Z.gt_lt, Z.gtb_lt in Hbeats. rewrite Hbeats, Hwritable.
  do 2 eexists. split; [reflexivity|].
  unfold HighscoreManager.get_highscore, HighscoreManager.__init__,
    HighscoreManager.load_highscore, HighscoreManager.read_highscore.
  cbn. now rewrite Hround.
Qed.

Lemma saved_highscore_is_loaded_back_witness :
  exists self' file',
    HighscoreManager.update_highscore decimal_str 1200
      (HighscoreManager.__init__ decimal_int "highscore.txt"%string
         {| HighscoreManager.content := Some "900"%string; HighscoreManager.writable := true |})
      {| HighscoreManager.content := Some "900"%string; HighscoreManager.writable := true |}
    = (self', file', None) /\
    HighscoreManager.get_highscore
      (HighscoreManager.__init__ decimal_int (HighscoreManager.filename self') file')
    = 1200.
Proof.
  apply (saved_highscore_is_loaded_back decimal_int decimal_str 1200
           (HighscoreManager.__init__ decimal_int "highscore.txt"%string
              {| HighscoreManager.content := Some "900"%string;
                 HighscoreManager.writable := true |})
           {| HighscoreManager.content := Some "900"%string; HighscoreManager.writable := true |}).
  - vm_compute. reflexivity.
  - vm_compute. reflexivity.
  - reflexivity.
Defined.

(** ** The display *)

Lemma and_then_returned (first next : Display.Drawn) :
  returned (Display.and_then first next) <-> returned first /\ returned next.
Proof.
  unfold returned, Display.and_then.
  destruct first as [[[]|e] draws], next as [[[]|e'] draws']; cbn;
    split; try tauto; try (intros [? ?]); congruence.
Qed.

Lemma getitem_Ok_range {A : Type} (l : list A) (i : Z) (x : A) :
  Py.getitem l i = Ok x -> - Py.len l <= i < Py.len l.
Proof.
  unfold Py.getitem, Py.index.
  destruct ((0 <=? i) && (i <? Py.len l)) eqn:E1.
  - intros _. apply andb_true_iff in E1 as [H1 H2]. lia.
  - destruct ((- Py.len l <=? i) && (i <? 0)) eqn:E2; [|discriminate].
    intros _. apply andb_true_iff in E2 as [H1 H2]. lia.
Qed.

Lemma cell_color_returns (cell : Z) :
  (exists color, Display.cell_color cell = Ok color) <-> has_colour cell.
Proof.
  unfold has_colour, Display.cell_color. split.
  - intros [color Hc]. apply getitem_Ok_range in Hc.
    change (Py.len settings.COLORS) with 7 in Hc. lia.
  - intros H.
    assert (Hcases : cell = -6 \/ cell = -5 \/ cell = -4 \/ cell = -3 \/ cell = -2 \/
                     cell = -1 \/ cell = 0 \/ cell = 1 \/ cell = 2 \/ cell = 3 \/
                     cell = 4 \/ cell = 5 \/ cell = 6 \/ cell = 7) by lia.
    repeat (destruct Hcases as [->|Hcases]; [eexists; reflexivity|]).
    subst. eexists; reflexivity.
Qed.

Lemma draw_filled_returned (cell : Z) (rect : Display.Rect) :
  returned (Display.draw_filled cell rect) <-> has_colour cell.
Proof.
  unfold Display.draw_filled, Py.truthy.
  destruct (cell =? 0) eqn:E; cbn [negb].
  - apply Z.eqb_eq in E. subst. unfold returned, has_colour. cbn. split; [lia|reflexivity].
  - rewrite <- cell_color_returns.
    destruct (Display.cell_color cell) as [color|e]; unfold returned; cbn; split.
    + intros _. now exists color.
    + reflexivity.
    + discriminate.
    + intros [color Hc]. discriminate.
Qed.

Lemma render_row_returned (self : Display.t) (y : Z) (row : list Z) :
  forall x, returned (Display.render_row self y x row) <-> Forall has_colour row.
Proof.
  induction row as [|cell rest IH]; intros x; cbn [Display.render_row].
  - split; [constructor|reflexivity].
  - rewrite !and_then_returned, draw_filled_returned, IH. split.
    + intros (Hc & _ & Hrest). now constructor.
    + intros H. inversion H; subst. split; [assumption|split; [reflexivity|assumption]].
Qed.

Lemma render_grid_returned (self : Display.t) (grid : Grid) :
  forall y, returned (Display.render_grid self y grid) <-> Forall (Forall has_colour) grid.
Proof.
  induction grid as [|row rest IH]; intros y; cbn [Display.render_grid].
  - split; [constructor|reflexivity].
  - rewrite and_then_returned, render_row_returned, IH. split.
    + intros [Hrow Hrest]. now constructor.
    + intros H. inversion H; subst. now split.
Qed.

Lemma render_shape_row_returned (self : Display.t) (piece : Tetrimino.t) (i : Z)
    (row : list Z) :
  forall j, returned (Display.render_shape_row self piece i j row) <-> Forall has_colour row.
Proof.
  induction row as [|val rest IH]; intros j; cbn [Display.render_shape_row].
  - split; [constructor|reflexivity].
  - rewrite and_then_returned, draw_filled_returned, IH. split.
    + intros [Hc Hrest]. now constructor.
    + intros H. inversion H; subst. now split.
Qed.

Lemma render_shape_returned (self : Display.t) (piece : Tetrimino.t)
    (shape : settings.Matrix) :
  forall i, returned (Display.render_shape self piece i shape)
            <-> Forall (Forall has_colour) shape.
Proof.
  induction shape as [|row rest IH]; intros i; cbn [Display.render_shape].
  - split; [constructor|reflexivity].
  - rewrite and_then_returned, render_shape_row_returned, IH. split.
    + intros [Hrow Hrest]. now constructor.
    + intros H. inversion H; subst. now split.
Qed.

Lemma cell_ok_has_colour (matrix : list (list Z)) :
  Forall (Forall cell_ok) matrix -> Forall (Forall has_colour) matrix.
Proof.
  intros H. eapply Forall_impl; [|exact H]. intros row Hrow.
  eapply Forall_impl; [|exact Hrow]. unfold cell_ok, has_colour. intros v. lia.
Qed.

Lemma render_returned (self : Display.t) (grid : Grid) (score : Z)
    (piece : Tetrimino.t) (level : Z) (is_paused : bool) :
  0 <= Tetrimino.rotation piece < Py.len (Tetrimino.rotations piece) ->
  returned (Display.render self grid score piece level is_paused)
  <-> Forall (Forall has_colour) grid.
Proof.
  intros Hrot. destruct (valid_rotation piece _ Hrot) as (shape & colour & Hshape).
  assert (Hcurrent : Tetrimino.get_current_shape piece = Ok shape).
  { unfold Tetrimino.get_current_shape. now rewrite Hshape. }
  unfold Display.render. rewrite Hcurrent.
  rewrite !and_then_returned, render_grid_returned, render_shape_returned.
  pose proof (cell_ok_has_colour shape (shapes_cells_ok piece shape Hcurrent)) as Hcells.
  assert (Hpaused : returned (if is_paused
                              then Display.draw (Display.blit_centered Display.PausedText
                                                   (255, 255, 255))
                              else Display.skip)) by (now destruct is_paused).
  unfold returned in *. cbn [Display.draw fst]. tauto.
Qed.

(** [render] raises exactly when the grid holds a value [COLORS] has no
    entry for: for a piece with a valid rotation index it returns if and
    only if every cell of the grid lies between -6 and 7 (the piece's own
    cells always do). *)
Theorem render_returns_iff_cells_have_colours (self : Display.t) (grid : Grid)
    (score : Z) (piece : Tetrimino.t) (level : Z) (is_paused : bool) :
  0 <= Tetrimino.rotation piece < Py.len (Tetrimino.rotations piece) ->
  returned (Display.render self grid score piece level is_paused)
  <-> Forall (Forall has_colour) grid.
Proof. exact (render_returned self grid score piece level is_paused). Qed.

Lemma render_returns_iff_cells_have_colours_witness :
  returned (Display.render Display.__init__ well_grid 0 (Tetrimino.__init__ settings.T)
              1 true)
  <-> Forall (Forall has_colour) well_grid.
Proof.
  apply (render_returns_iff_cells_have_colours Display.__init__ well_grid 0
           (Tetrimino.__init__ settings.T) 1 true).
  cbn. lia.
Defined.

(** ** No entry point of the engine raises *)

Lemma fits_cells_in_bounds (g : Grid) (piece : Tetrimino.t) (r c : Z)
    (rotation : option Z) (shape : settings.Matrix) (colour : settings.Color)
    (i j : nat) (line : list Z) (v : Z) :
  grid_ok g -> 0 <= r ->
  Tetrimino.can_fit g piece r c rotation = Ok true ->
  Py.getitem (Tetrimino.rotations piece)
    (match rotation with None => Tetrimino.rotation piece | Some k => k end)
  = Ok (shape, colour) ->
  nth_error shape i = Some line -> nth_error line j = Some v -> v > 0 ->
  0 <= r + Z.of_nat i < settings.GRID_HEIGHT /\
  0 <= c + Z.of_nat j < settings.GRID_WIDTH.
Proof.
  intros [Hlen Hrows] Hr Hfits Hget Hi Hj Hv.
  assert (Hw : Forall (fun row => List.length row = Z.to_nat settings.GRID_WIDTH) g).
  { apply Forall_forall. intros row Hin. rewrite Forall_forall in Hrows.
    destruct (Hrows row Hin) as [Hrow _]. unfold Py.len in Hrow. lia. }
  destruct (fits_on_empty_cells g _ piece r c rotation shape colour Hw Hr Hget Hfits
              i j line v Hi Hj Hv) as (H1 & H2 & _).
  rewrite Hlen in H1. split; [exact H1|].
  unfold settings.GRID_WIDTH in *. lia.
Qed.

Lemma spawn_in_bounds (tetrimino_type : settings.Key) :
  in_bounds (Tetrimino.__init__ tetrimino_type).
Proof.
  intros shape colour i j line v Hget Hi Hj Hv.
  change settings.GRID_HEIGHT with 20. change settings.GRID_WIDTH with 10.
  cbn [Tetrimino.__init__ Tetrimino.position fst snd].
  destruct tetrimino_type; cbn in Hget; injection Hget as <- <-;
    do 5 (try destruct i as [|i]); cbn in Hi; try rewrite nth_error_nil in Hi;
    try discriminate; injection Hi as <-;
    do 5 (try destruct j as [|j]); cbn in Hj; try rewrite nth_error_nil in Hj;
    try discriminate; injection Hj as <-; lia.
Qed.

Lemma playable_static (self : GameLogic.t) : playable self -> static_ok self.
Proof. now intros [H _]. Qed.

Lemma playable_try_move (d : Z) :
  returns playable
    (GameLogic.bind GameLogic.position0 (fun r =>
     GameLogic.bind GameLogic.position1 (fun c =>
     GameLogic.bind (GameLogic.current_can_fit r (c + d)) (fun fits =>
     GameLogic.when fits (GameLogic.assign (GameLogic.add_position1 d))))))
    (fun _ => playable).
Proof.
  intros self ((Hg & Hsound & Hpiece) & Hbounds).
  destruct (can_fit_returns (GameLogic.grid self) (GameLogic.current_tetrimino self)
              (fst (Tetrimino.position (GameLogic.current_tetrimino self)))
              (snd (Tetrimino.position (GameLogic.current_tetrimino self)) + d)
              Hg Hpiece (proj2 Hpiece)) as (fits & Hmove).
  unfold GameLogic.current_can_fit. run_method. rewrite Hmove.
  destruct Hpiece as [Hrot Hrow].
  destruct fits; run_method; (eexists; eexists; eexists; split; [reflexivity|]).
  - split.
    + split; [exact Hg|]. split; [exact Hsound|]. split; [exact Hrot|exact Hrow].
    + intros shape colour i j line v Hget Hi Hj Hv.
      exact (fits_cells_in_bounds _ _ _ _ None shape colour i j line v
               Hg Hrow Hmove Hget Hi Hj Hv).
  - split; [|exact Hbounds].
    split; [exact Hg|]. split; [exact Hsound|]. split; [exact Hrot|exact Hrow].
Qed.

Lemma playable_handle_moves (current_time : Z) (commands : GameLogic.Commands) :
  returns playable (GameLogic.handle_moves current_time commands) (fun _ => playable).
Proof.
  unfold GameLogic.handle_moves.
  apply returns_bind_get. intros last. apply returns_bind_get. intros speed.
  apply returns_when.
  eapply returns_then; [apply returns_when, (playable_try_move (-1))|].
  eapply returns_then; [apply returns_when, (playable_try_move 1)|].
  apply returns_assign. intros self H. exact H.
Qed.

Lemma playable_rotate_current (current_time : Z) :
  returns playable (GameLogic.rotate_current current_time) (fun _ => playable).
Proof.
  intros self ((Hg & Hsound & Hrot & Hrow) & Hbounds).
  unfold GameLogic.rotate_current, Tetrimino.rotate.
  destruct (current_time - GameLogic.last_rotation_time self
            >? GameLogic.rotation_delay self).
  2: { eexists; eexists; eexists. split; [reflexivity|].
       split; [|exact Hbounds].
       split; [exact Hg|]. split; [exact Hsound|]. split; [exact Hrot|exact Hrow]. }
  assert (Hlen : (Py.len (Tetrimino.rotations (GameLogic.current_tetrimino self)) =? 0)
                 = false) by (apply Z.eqb_neq; lia).
  rewrite Hlen.
  set (next := (Tetrimino.rotation (GameLogic.current_tetrimino self) + 1)
               mod Py.len (Tetrimino.rotations (GameLogic.current_tetrimino self))).
  assert (Hnext : 0 <= next
                  < Py.len (Tetrimino.rotations (GameLogic.current_tetrimino self))).
  { apply Z.mod_pos_bound. lia. }
  destruct (valid_rotation _ _ Hnext) as (shape & colour & Hshape).
  destruct (can_fit_nonneg (GameLogic.grid self) (grid_ok_rectangular _ Hg)
              (GameLogic.current_tetrimino self)
              (fst (Tetrimino.position (GameLogic.current_tetrimino self)))
              (snd (Tetrimino.position (GameLogic.current_tetrimino self)))
              (Some next) shape colour Hrow Hshape) as (fits & Hturn & _).
  rewrite Hturn.
  destruct fits; (eexists; eexists; eexists; split; [reflexivity|]).
  - split.
    + split; [exact Hg|]. split; [exact Hsound|]. split; [exact Hnext|exact Hrow].
    + intros shape' colour' i j line v Hget Hi Hj Hv.
      exact (fits_cells_in_bounds _ _ _ _ (Some next) shape' colour' i j line v
               Hg Hrow Hturn Hget Hi Hj Hv).
  - split; [|exact Hbounds].
    split; [exact Hg|]. split; [exact Hsound|]. split; [exact Hrot|exact Hrow].
Qed.

Lemma playable_handle_rotation (current_time : Z) (commands : GameLogic.Commands) :
  returns playable (GameLogic.handle_rotation current_time commands) (fun _ => playable).
Proof.
  unfold GameLogic.handle_rotation. apply returns_when.
  eapply returns_bind; [apply playable_rotate_current|].
  intros time. apply returns_assign. intros self H. exact H.
Qed.

(** A piece inside the board is written into the grid without an
    [IndexError], whether or not it overlaps the stack. *)
Lemma playable_place_tetrimino :
  returns playable GameLogic.place_tetrimino (fun _ => static_ok).
Proof.
  intros self [(Hg & Hsound & Hrot & Hrow) Hbounds].
  destruct (valid_rotation _ _ Hrot) as (shape & colour & Hshape).
  assert (Hcurrent :
    Tetrimino.get_current_shape (GameLogic.current_tetrimino self) = Ok shape).
  { unfold Tetrimino.get_current_shape. now rewrite Hshape. }
  assert (Hw : Forall (fun row => List.length row = Z.to_nat settings.GRID_WIDTH)
                 (GameLogic.grid self)).
  { destruct Hg as [_ Hrows]. apply Forall_forall. intros row Hin.
    rewrite Forall_forall in Hrows.
    destruct (Hrows row Hin) as [Hlen _]. unfold Py.len in Hlen. lia. }
  destruct (place_rows_run shape 0 self _ Hw) as (g' & Hrun & _).
  { intros k line j v Hk Hj Hv.
    destruct (Hbounds shape colour k j line v Hshape Hk Hj Hv) as [H1 H2].
    destruct Hg as [Hlen _]. rewrite Hlen.
    change settings.GRID_HEIGHT with 20 in *. change settings.GRID_WIDTH with 10 in *.
    split; lia. }
  assert (Hplace : GameLogic.place_tetrimino self
                   = (Ok tt, GameLogic.set_grid g' self, [])).
  { unfold GameLogic.place_tetrimino. run_method.
    rewrite Hcurrent. run_method. rewrite Hrun. reflexivity. }
  exists tt, (GameLogic.set_grid g' self), []. split; [exact Hplace|].
  pose proof (keeps_place_tetrimino self Hg) as Hg'. rewrite Hplace in Hg'.
  split; [exact Hg'|]. split; [exact Hsound|]. split; [exact Hrot|exact Hrow].
Qed.

Lemma playable_respawn (tetrimino_type : settings.Key) :
  returns static_ok
    (GameLogic.bind (GameLogic.new_tetrimino tetrimino_type) (fun tetrimino =>
     GameLogic.assign (GameLogic.set_current_tetrimino tetrimino)))
    (fun _ => playable).
Proof.
  eapply returns_bind; [apply returns_new_tetrimino|].
  intros tetrimino. apply returns_assign.
  intros self (-> & (Hg & Hsound & _) & _).
  split.
  - split; [exact Hg|]. split; [exact Hsound|]. split.
    + pose proof (rotations_nonempty (Tetrimino.__init__ tetrimino_type)).
      cbn [GameLogic.current_tetrimino GameLogic.set_current_tetrimino]. cbn in *. lia.
    + cbn. lia.
  - exact (spawn_in_bounds tetrimino_type).
Qed.

Lemma playable_check_start :
  returns playable
    (GameLogic.bind (GameLogic.current_can_fit 0 4) (fun fits_start =>
     GameLogic.when (negb fits_start) (GameLogic.assign (GameLogic.set_game_over true))))
    (fun _ => playable).
Proof.
  eapply returns_bind.
  { apply (returns_current_can_fit playable 0 4 playable_static). lia. }
  intros fits_start. apply returns_when_into.
  - apply returns_assign. intros self [H _]. exact H.
  - intros self [H _]. exact H.
Qed.

Lemma playable_lock_and_respawn (tetrimino_type : settings.Key) :
  returns playable (GameLogic.lock_and_respawn tetrimino_type) (fun _ => playable).
Proof.
  unfold GameLogic.lock_and_respawn.
  eapply returns_then; [apply playable_place_tetrimino|].
  eapply returns_then; [apply returns_clear_lines|].
  eapply returns_then; [apply returns_update_level|].
  eapply returns_bind; [apply returns_new_tetrimino|]. intros tetrimino.
  eapply returns_then; [|apply playable_check_start].
  apply returns_assign.
  intros self (-> & (Hg & Hsound & _) & _).
  split.
  - split; [exact Hg|]. split; [exact Hsound|]. split.
    + pose proof (rotations_nonempty (Tetrimino.__init__ tetrimino_type)).
      cbn [GameLogic.current_tetrimino GameLogic.set_current_tetrimino]. cbn in *. lia.
    + cbn. lia.
  - exact (spawn_in_bounds tetrimino_type).
Qed.

Lemma playable_drop_tetrimino (tetrimino_type : settings.Key) :
  returns playable (GameLogic.drop_tetrimino tetrimino_type) (fun _ => playable).
Proof.
  intros self Hplayable.
  pose proof Hplayable as ((Hg & Hsound & Hpiece) & Hbounds).
  destruct (can_fit_returns (GameLogic.grid self) (GameLogic.current_tetrimino self)
              (fst (Tetrimino.position (GameLogic.current_tetrimino self)) + 1)
              (snd (Tetrimino.position (GameLogic.current_tetrimino self)))
              Hg Hpiece ltac:(destruct Hpiece; lia)) as (fits & Hbelow).
  unfold GameLogic.drop_tetrimino, GameLogic.current_can_fit. run_method.
  rewrite Hbelow. destruct fits; run_method.
  2: { exists false, self, []. split; [reflexivity|exact Hplayable]. }
  assert (Hmoved : playable (GameLogic.add_position0 1 self)).
  { destruct Hpiece as [Hrot Hrow]. split.
    - split; [exact Hg|]. split; [exact Hsound|]. split; [exact Hrot|]. cbn. lia.
    - assert (Hrow1 : 0 <= fst (Tetrimino.position (GameLogic.current_tetrimino self)) + 1)
        by lia.
      intros shape colour i j line v Hget Hi Hj Hv.
      exact (fits_cells_in_bounds _ _ _ _ None shape colour i j line v
               Hg Hrow1 Hbelow Hget Hi Hj Hv). }
  set (moved := GameLogic.add_position0 1 self) in *.
  pose proof Hmoved as ((Hg' & Hsound' & Hpiece') & Hbounds').
  destruct (can_fit_returns (GameLogic.grid moved) (GameLogic.current_tetrimino moved)
              (fst (Tetrimino.position (GameLogic.current_tetrimino moved)) + 1)
              (snd (Tetrimino.position (GameLogic.current_tetrimino moved)))
              Hg' Hpiece' ltac:(destruct Hpiece'; lia)) as (further & Hfurther).
  rewrite Hfurther. destruct further; run_method.
  - exists true, moved, []. split; [reflexivity|exact Hmoved].
  - destruct (playable_lock_and_respawn tetrimino_type moved Hmoved)
      as ([] & self' & sounds & Hrun & Hok).
    rewrite Hrun. exists true, self', (sounds ++ []).
    split; [reflexivity|exact Hok].
Qed.

Lemma playable_attempt_to_drop (current_time : Z) (tetrimino_type : settings.Key) :
  returns playable (GameLogic.attempt_to_drop current_time tetrimino_type)
    (fun _ => playable).
Proof.
  unfold GameLogic.attempt_to_drop.
  eapply returns_bind; [apply playable_drop_tetrimino|].
  intros dropped.
  eapply (returns_then _ playable).
  - apply returns_when.
    eapply returns_then; [apply playable_place_tetrimino|].
    eapply returns_then; [apply returns_clear_lines|].
    apply playable_respawn.
  - apply returns_assign. intros self H. exact H.
Qed.

Lemma playable_handle_automatic_drop (current_time : Z) (commands : GameLogic.Commands)
    (tetrimino_type : settings.Key) :
  returns playable
    (GameLogic.handle_automatic_drop current_time commands tetrimino_type)
    (fun _ => playable).
Proof.
  unfold GameLogic.handle_automatic_drop.
  apply returns_bind_get. intros last.
  destruct (GameLogic.has "move_down" commands);
    apply returns_bind_get; intros speed;
    apply returns_when; apply playable_attempt_to_drop.
Qed.

Lemma playable_update (current_time : Z) (commands : GameLogic.Commands)
    (tetrimino_type : settings.Key) :
  returns playable (GameLogic.update current_time commands tetrimino_type)
    (fun _ => playable).
Proof.
  unfold GameLogic.update.
  apply returns_bind_get. intros over. apply returns_bind_get. intros paused.
  destruct (over || paused).
  - apply returns_skip. now intros self H.
  - eapply returns_then; [|apply playable_handle_automatic_drop].
    unfold GameLogic.process_player_input.
    eapply returns_then; [apply playable_handle_moves|apply playable_handle_rotation].
Qed.

Lemma playable_check_game_over :
  returns playable GameLogic.check_game_over (fun _ => playable).
Proof.
  unfold GameLogic.check_game_over.
  eapply returns_bind.
  { apply (returns_current_can_fit playable 0 4 playable_static). lia. }
  intros fits.
  eapply returns_then.
  - apply (returns_when_into _ playable).
    + apply returns_assign. intros self [H _]. exact H.
    + intros self [H _]. exact H.
  - eapply returns_weaken; [apply returns_get| |].
    + intros self H. exact H.
    + intros a self [_ H]. exact H.
Qed.

Lemma playable_reset_game (tetrimino_type : settings.Key) :
  returns playable (GameLogic.reset_game tetrimino_type) (fun _ => playable).
Proof.
  unfold GameLogic.reset_game.
  eapply returns_then; [apply (returns_assign playable playable); now intros self H|].
  eapply returns_then; [apply (returns_assign playable playable); now intros self H|].
  eapply returns_then; [apply (returns_assign playable static_ok); now intros self [H _]|].
  eapply returns_bind; [apply returns_new_tetrimino|]. intros tetrimino.
  eapply (returns_then _ playable).
  - apply returns_assign.
    intros self (-> & (Hg & Hsound & _) & _).
    split.
    + split; [exact Hg|]. split; [exact Hsound|]. split.
      * pose proof (rotations_nonempty (Tetrimino.__init__ tetrimino_type)).
        cbn [GameLogic.current_tetrimino GameLogic.set_current_tetrimino]. cbn in *. lia.
      * cbn. lia.
    + exact (spawn_in_bounds tetrimino_type).
  - eapply returns_then; [apply (returns_assign playable playable); now intros self H|].
    apply returns_assign. now intros self H.
Qed.

Lemma active_playable (self : GameLogic.t) : active self -> playable self.
Proof.
  intros ((Hg & Hsound & Hrot & Hrow) & _ & Hfits).
  split; [split; [exact Hg|split; [exact Hsound|split; [exact Hrot|exact Hrow]]]|].
  intros shape colour i j line v Hget Hi Hj Hv.
  exact (fits_cells_in_bounds _ _ _ _ None shape colour i j line v
           Hg Hrow Hfits Hget Hi Hj Hv).
Qed.

Lemma on_game_returns {A : Type} (m : GameLogic.M A) (self : InputHandler.t) :
  returns playable m (fun _ => playable) ->
  playable (InputHandler.game_logic self) ->
  exists a self' sounds,
    InputHandler.on_game m self = (Ok a, self', sounds) /\
    playable (InputHandler.game_logic self').
Proof.
  intros Hm Hplayable.
  destruct (Hm _ Hplayable) as (a & game & sounds & Hrun & Hgame).
  unfold InputHandler.on_game. rewrite Hrun.
  now exists a, {| InputHandler.game_logic := game;
                   InputHandler.commands := InputHandler.commands self |}, sounds.
Qed.

Lemma playable_process_event (event : pygame.Event) (tetrimino_type : settings.Key)
    (self : InputHandler.t) :
  playable (InputHandler.game_logic self) ->
  exists self' sounds,
    InputHandler.process_event event tetrimino_type self = (Ok tt, self', sounds) /\
    playable (InputHandler.game_logic self').
Proof.
  intros Hplayable.
  destruct event as [[]|[]|]; cbn [InputHandler.process_event];
    try (eexists; eexists; split; [reflexivity|exact Hplayable]).
  destruct (on_game_returns (GameLogic.reset_game tetrimino_type) self
              (playable_reset_game tetrimino_type) Hplayable)
    as ([] & self' & sounds & Hrun & Hgame).
  rewrite Hrun. now exists self', sounds.
Qed.

Lemma playable_run_call (call : Call) (self : InputHandler.t) :
  playable (InputHandler.game_logic self) ->
  exists self' sounds,
    run_call call self = (Ok tt, self', sounds) /\
    playable (InputHandler.game_logic self').
Proof.
  intros Hplayable. destruct call as [event tetrimino_type|current_time tetrimino_type| |];
    cbn [run_call].
  - now apply playable_process_event.
  - destruct (on_game_returns
                (GameLogic.update current_time (InputHandler.commands self) tetrimino_type)
                self (playable_update _ _ _) Hplayable)
      as ([] & self' & sounds & Hrun & Hgame).
    now exists self', sounds.
  - destruct Hplayable as [(Hg & Hsound & Hrot & Hrow) Hbounds].
    assert (Hdrawn : returned
              (Display.render Display.__init__
                 (GameLogic.grid (InputHandler.game_logic self))
                 (GameLogic.score (InputHandler.game_logic self))
                 (GameLogic.current_tetrimino (InputHandler.game_logic self))
                 (GameLogic.level (InputHandler.game_logic self))
                 (GameLogic.is_paused (InputHandler.game_logic self)))).
    { apply render_returned; [exact Hrot|].
      apply cell_ok_has_colour. destruct Hg as [_ Hrows].
      eapply Forall_impl; [|exact Hrows]. now intros row [_ Hcells]. }
    unfold returned in Hdrawn.
    destruct (Display.render _ _ _ _ _ _) as [[[]|e] draws]; [|discriminate].
    exists self, []. split; [reflexivity|].
    split; [|exact Hbounds].
    split; [exact Hg|]. split; [exact Hsound|]. split; [exact Hrot|exact Hrow].
  - destruct (on_game_returns GameLogic.check_game_over self playable_check_game_over
                Hplayable) as (over & self' & sounds & Hrun & Hgame).
    rewrite Hrun. now exists self', sounds.
Qed.

Lemma playable_run_calls (calls : list Call) :
  forall self : InputHandler.t,
    playable (InputHandler.game_logic self) ->
    exists self' sounds,
      run_calls calls self = (Ok tt, self', sounds) /\
      playable (InputHandler.game_logic self').
Proof.
  induction calls as [|call calls IH]; intros self Hplayable.
  - now exists self, [].
  - destruct (playable_run_call call self Hplayable) as (self1 & sounds1 & Hrun1 & H1).
    destruct (IH self1 H1) as (self2 & sounds2 & Hrun2 & H2).
    exists self2, (sounds1 ++ sounds2). cbn [run_calls]. now rewrite Hrun1, Hrun2.
Qed.

(** Whatever the main loop asks of an engine that is well-formed and
    whose piece lies inside the board, the call returns: no sequence of
    events handed to [process_event] (pause and reset included), of frame
    updates with the handler's commands, of renderings and of game-over
    checks raises, whatever the clock and the shapes drawn; and the engine
    stays well-formed with its piece inside the board. *)
Theorem main_loop_calls_never_raise (calls : list Call) (self : InputHandler.t) :
  playable (InputHandler.game_logic self) ->
  exists self' sounds,
    run_calls calls self = (Ok tt, self', sounds) /\
    playable (InputHandler.game_logic self').
Proof. exact (playable_run_calls calls self). Qed.

Lemma main_loop_calls_never_raise_witness :
  exists self' sounds,
    run_calls
      [process_event_call (pygame.KEYDOWN pygame.K_LEFT) settings.I;
       update_call 2000 settings.T;
       render_call;
       check_game_over_call;
       process_event_call (pygame.KEYDOWN pygame.K_r) settings.O;
       update_call 4000 settings.L;
       check_game_over_call]
      (InputHandler.__init__ well_game)
    = (Ok tt, self', sounds) /\
    playable (InputHandler.game_logic self').
Proof.
  apply (main_loop_calls_never_raise
           [process_event_call (pygame.KEYDOWN pygame.K_LEFT) settings.I;
            update_call 2000 settings.T;
            render_call;
            check_game_over_call;
            process_event_call (pygame.KEYDOWN pygame.K_r) settings.O;
            update_call 4000 settings.L;
            check_game_over_call]
           (InputHandler.__init__ well_game)).
  apply active_playable. split; [exact (proj1 well_game_ok)|].
  split; [reflexivity|reflexivity].
Defined.

Lemma init_engine_ok (break_line_sound rotate_sound : option Sound)
    (tetrimino_type : settings.Key) (t1 t2 t3 : Z) :
  break_line_sound <> None ->
  exists self,
    GameLogic.__init__ break_line_sound rotate_sound tetrimino_type t1 t2 t3 = Ok self /\
    active self.
Proof.
  intros Hsound.
  destruct tetrimino_type; eexists; (split; [reflexivity|]);
    (split; [|split; reflexivity]);
    (split; [exact empty_grid_ok|]); (split; [exact Hsound|]);
    (split; [cbn; lia|cbn; lia]).
Qed.

(** The constructor, given a break-line sound, returns an engine that is
    not over, satisfies the invariant [update] keeps (well-formed, the
    piece fits where it stands) and the invariant every call of the main
    loop keeps (well-formed, the piece inside the board). *)
Theorem constructor_builds_well_formed_engine
    (break_line_sound rotate_sound : option Sound)
    (tetrimino_type : settings.Key) (t1 t2 t3 : Z) :
  break_line_sound <> None ->
  exists self,
    GameLogic.__init__ break_line_sound rotate_sound tetrimino_type t1 t2 t3 = Ok self /\
    GameLogic.game_over self = false /\
    engine_ok self /\
    playable self.
Proof.
  intros Hsound.
  destruct (init_engine_ok break_line_sound rotate_sound tetrimino_type t1 t2 t3 Hsound)
    as (self & Hrun & Hactive).
  exists self. split; [exact Hrun|].
  split; [exact (proj1 (proj2 Hactive))|].
  split; [now apply active_engine_ok|now apply active_playable].
Qed.

Lemma constructor_builds_well_formed_engine_witness :
  exists self,
    GameLogic.__init__ (loaded settings.BREAK_LINE_SOUND) (loaded settings.ROTATE_SOUND)
      settings.J 12 12 13 = Ok self /\
    GameLogic.game_over self = false /\
    engine_ok self /\
    playable self.
Proof.
  apply (constructor_builds_well_formed_engine
           (loaded settings.BREAK_LINE_SOUND) (loaded settings.ROTATE_SOUND)
           settings.J 12 12 13).
  discriminate.
Defined.
